(** * A shallow embedding of the golder photo editor

    The TypeScript components are embedded as Rocq functions.  JavaScript
    numbers are IEEE binary64 values (Rocq's primitive floats), so that the
    arithmetic of the code (quality steps, crop scaling) is the arithmetic
    the browser performs.  Asynchronous handlers are sequential programs in
    a small state-and-exception monad; every call that leaves the component
    (canvas encoder, AI service, DOM download) is recorded in a log together
    with the answer it received. *)

From Stdlib Require Import PrimFloat ZArith List String Ascii Bool Lia Arith.
From Stdlib Require Import Sorted.
From Stdlib Require Floats.
Import ListNotations.

Set Warnings "-inexact-float".

(** ** JavaScript values used by the components *)

Module JS.

Definition number : Type := float.

(** [a > b] on numbers; false as soon as one side is NaN. *)
Definition gt (a b : number) : bool := PrimFloat.ltb b a.

(** [a <= b] on numbers. *)
Definition le (a b : number) : bool := PrimFloat.leb a b.

(** [Math.max(a, b)]: NaN if either argument is NaN, [+0] above [-0]. *)
Definition Math_max (a b : number) : number :=
  if is_nan a || is_nan b then nan
  else if PrimFloat.ltb a b then b
  else if PrimFloat.ltb b a then a
  else if get_sign a then b else a.

(** A thrown or rejected value: either an [Error] object, whose [message]
    the handlers read, or any other value (for instance the DOM event an
    image's [onerror] rejects with). *)
Inductive value : Type :=
| Error (message : string)
| NotAnError.

(** [err instanceof Error ? err.message : fallback] *)
Definition message_or (fallback : string) (err : value) : string :=
  match err with
  | Error m => m
  | NotAnError => fallback
  end.

(** White space removed by [String.prototype.trim].  Strings are
    sequences of code units below 256: tab, line feed, vertical tab, form
    feed, carriage return, space and no-break space. *)
Definition is_white_space (c : ascii) : bool :=
let n := nat_of_ascii c in
((9 <=? n) && (n <=? 13)) || (n =? 32) || (n =? 160).

Fixpoint trimStart (s : string) : string :=
  match s with
  | EmptyString => EmptyString
  | String c s' => if is_white_space c then trimStart s' else s
  end.

Fixpoint trimEnd (s : string) : string :=
  match s with
  | EmptyString => EmptyString
  | String c s' =>
      match trimEnd s' with
      | EmptyString => if is_white_space c then EmptyString
                       else String c EmptyString
      | t => String c t
      end
  end.

Definition trim (s : string) : string := trimEnd (trimStart s).

(** Truthiness of a string: the empty string is the only falsy one. *)
Definition truthy (s : string) : bool :=
  match s with
  | EmptyString => false
  | String _ _ => true
  end.

(** [a || b] on strings. *)
Definition or_else (a b : string) : string := if truthy a then a else b.

Definition nl : string := String (ascii_of_nat 10) EmptyString.

(** [s.split(sep)[1]] for a one-character separator: what stands between
    the first and the second separator, [undefined] without a
    separator. *)
Fixpoint up_to (sep : ascii) (s : string) : string :=
  match s with
  | EmptyString => EmptyString
  | String c s' => if Ascii.eqb c sep then EmptyString
                   else String c (up_to sep s')
  end.

Fixpoint after_first (sep : ascii) (s : string) : option string :=
  match s with
  | EmptyString => None
  | String c s' => if Ascii.eqb c sep then Some s' else after_first sep s'
  end.

Definition split_1 (sep : ascii) (s : string) : option string :=
  option_map (up_to sep) (after_first sep s).

(** [parts.join(sep)] *)
Fixpoint join (sep : string) (parts : list string) : string :=
  match parts with
  | [] => EmptyString
  | [p] => p
  | p :: rest => p ++ sep ++ join sep rest
  end.

End JS.

(** ** Sequential effectful code

    A handler runs on a world [W] (component state plus log) and either
    returns, throws, or exhausts the fuel given to a [while] loop. *)

Module Eff.

Inductive outcome (A : Type) : Type :=
| Returned (a : A)
| Thrown (e : JS.value)
| OutOfFuel.

Arguments Returned {A} a.
Arguments Thrown {A} e.
Arguments OutOfFuel {A}.

Definition M (W A : Type) : Type := W -> outcome A * W.

Definition ret {W A} (a : A) : M W A := fun w => (Returned a, w).

Definition throw {W A} (e : JS.value) : M W A := fun w => (Thrown e, w).

Definition out_of_fuel {W A} : M W A := fun w => (OutOfFuel, w).

Definition bind {W A B} (m : M W A) (k : A -> M W B) : M W B :=
  fun w =>
    match m w with
    | (Returned a, w') => k a w'
    | (Thrown e, w') => (Thrown e, w')
    | (OutOfFuel, w') => (OutOfFuel, w')
    end.

Definition get {W} : M W W := fun w => (Returned w, w).

Definition modify {W} (f : W -> W) : M W unit := fun w => (Returned tt, f w).

(** [try { body } catch (e) { handler e }] *)
Definition try_catch {W A} (body : M W A) (handler : JS.value -> M W A)
  : M W A :=
  fun w =>
    match body w with
    | (Thrown e, w') => handler e w'
    | r => r
    end.

(** [try { body } finally { fin }]: [fin] runs after a return and after a
    throw, and the outcome of [body] stands unless [fin] itself throws. *)
Definition try_finally {W A} (body : M W A) (fin : M W unit) : M W A :=
  fun w =>
    match body w with
    | (OutOfFuel, w') => (OutOfFuel, w')
    | (r, w') =>
        match fin w' with
        | (Returned _, w'') => (r, w'')
        | (Thrown e, w'') => (Thrown e, w'')
        | (OutOfFuel, w'') => (OutOfFuel, w'')
        end
    end.

Definition try_catch_finally {W A} (body : M W A)
    (handler : JS.value -> M W A) (fin : M W unit) : M W A :=
  try_finally (try_catch body handler) fin.

(** Lifting a settled promise. *)
Definition await {W A} (p : JS.value + A) : M W A :=
  match p with
  | inr a => ret a
  | inl e => throw e
  end.

Module Notations.
Declare Scope eff_scope.
Delimit Scope eff_scope with eff.
Notation "x <- m ;; k" := (bind m (fun x => k))
  (at level 61, m at next level, right associativity) : eff_scope.
Notation "m ;; k" := (bind m (fun _ => k))
  (at level 61, right associativity) : eff_scope.
End Notations.

End Eff.

Import Eff.Notations.

(** ** src/components/DownloadModal.tsx *)

Module DownloadModal.
Import JS Eff.
Open Scope float_scope.

Inductive Format : Type := PNG | JPEG.
Inductive SizeUnit : Type := KB | MB.
Inductive MimeType : Type := image_png | image_jpeg.

Record TargetSize : Type := {
  isEnabled : bool;
  size : number;
  unit_ : SizeUnit   (* the field [unit] *)
}.

(** The [useState] cells of the component. *)
Record State : Type := {
  format : Format;
  customFilename : string;
  isProcessing : bool;
  downloadError : option string;
  jpegQuality : number;
  targetSize : TargetSize
}.

Definition initialState (fileName : string) : State :=
  {| format := PNG;
     customFilename := fileName;
     isProcessing := false;
     downloadError := None;
     jpegQuality := 92;
     targetSize := {| isEnabled := false; size := 100; unit_ := KB |} |}.

(** Writing one state cell. *)
Definition with_isProcessing (b : bool) (s : State) : State :=
  {| format := format s;
     customFilename := customFilename s;
     isProcessing := b;
     downloadError := downloadError s;
     jpegQuality := jpegQuality s;
     targetSize := targetSize s |}.

Definition with_downloadError (e : option string) (s : State) : State :=
  {| format := format s;
     customFilename := customFilename s;
     isProcessing := isProcessing s;
     downloadError := e;
     jpegQuality := jpegQuality s;
     targetSize := targetSize s |}.

(** [format.toLowerCase()] *)
Definition format_toLowerCase (f : Format) : string :=
  match f with
  | PNG => "png"
  | JPEG => "jpeg"
  end.

Section Component.

(** The canvas element and the encoded blob are opaque browser
    objects; of a blob the code reads only [size]. *)
Variables Canvas Blob : Type.
Variable blob_size : Blob -> number.

(** What leaves the component, in order, with the answer received. *)
Inductive Event : Type :=
| GetCanvas (answer : value + Canvas)
| ToBlob (mimeType : MimeType) (quality : option number)
         (answer : option Blob)
| CreateObjectURL (blob : Blob)
| LinkClick (download : string)
| RevokeObjectURL
| OnClose
| ConsoleError (error : value).

Record World : Type := {
  ui : State;
  log : list Event
}.

(** The browser as seen from the component.  The prop
    [getCanvasPromise] settles to a canvas or rejects; [canvas.toBlob]
    hands the callback a blob or [null].  Both may depend on everything
    that happened before. *)
Variable getCanvasPromise : list Event -> value + Canvas.
Variable canvas_toBlob :
  list Event -> Canvas -> MimeType -> option number -> option Blob.

Definition emit (e : Event) : M World unit :=
  modify (fun w => {| ui := ui w; log := log w ++ [e] |}).

Definition setIsProcessing (b : bool) : M World unit :=
  modify (fun w => {| ui := with_isProcessing b (ui w); log := log w |}).

Definition setDownloadError (e : option string) : M World unit :=
  modify (fun w => {| ui := with_downloadError e (ui w); log := log w |}).

Definition getBlob_failed : value :=
  Error "Canvas to Blob conversion failed. The image may be tainted by cross-origin data.".

Definition getBlob (canvas : Canvas) (mimeType : MimeType)
    (quality : option number) : M World Blob :=
  (w <- get ;;
   let answer := canvas_toBlob (log w) canvas mimeType quality in
   emit (ToBlob mimeType quality answer) ;;
   match answer with
   | Some blob => ret blob
   | None => throw getBlob_failed
   end)%eff.

Definition awaitCanvas : M World Canvas :=
  (w <- get ;;
   let answer := getCanvasPromise (log w) in
   emit (GetCanvas answer) ;;
   await answer)%eff.

(** [targetSize.size * (targetSize.unit === 'KB' ? 1024 : 1024 * 1024)] *)
Definition targetBytes_of (t : TargetSize) : number :=
  size t * (match unit_ t with KB => 1024 | MB => 1024 * 1024 end).

(** The guard of the [while] loop. *)
Definition over_target (blob : Blob) (targetBytes quality : number)
  : bool :=
  gt (blob_size blob) targetBytes && gt quality 0.1.

(** The [while] loop of the target-size branch, on its two loop
    variables; it returns them as they stand at exit. *)
Fixpoint reduce_quality (fuel : nat) (canvas : Canvas)
    (targetBytes : number) (blob : Blob) (quality : number)
  : M World (Blob * number) :=
  if over_target blob targetBytes quality then
    match fuel with
    | O => out_of_fuel
    | S fuel' =>
        let quality := quality - 0.05 in
        (blob <- getBlob canvas image_jpeg (Some (Math_max 0.1 quality)) ;;
         reduce_quality fuel' canvas targetBytes blob quality)%eff
    end
  else ret (blob, quality).

(** The target-size branch: first encode at 0.95, then the loop. *)
Definition target_size_export (fuel : nat) (canvas : Canvas)
    (targetBytes : number) : M World (Blob * number) :=
  (let quality := 0.95 in
   blob <- getBlob canvas image_jpeg (Some quality) ;;
   reduce_quality fuel canvas targetBytes blob quality)%eff.

Definition unknown_error : string :=
  "An unknown error occurred during processing.".

(** The [if (format === 'PNG') ... else ...] block of [handleDownload]:
    the blob to save, for the state [s] of the render. *)
Definition encode_for_format (s : State) (fuel : nat) (canvas : Canvas)
  : M World Blob :=
  (match format s with
   | PNG => getBlob canvas image_png None
   | JPEG =>
       if isEnabled (targetSize s) then
         (r <- target_size_export fuel canvas
                 (targetBytes_of (targetSize s)) ;;
          ret (fst r))
       else getBlob canvas image_jpeg (Some (jpegQuality s / 100))
   end)%eff.

(** The object URL, the temporary link and its click, then [onClose]. *)
Definition save_blob (blob : Blob) (finalFilename : string)
  : M World unit :=
  (emit (CreateObjectURL blob) ;;
   emit (LinkClick finalFilename) ;;
   emit RevokeObjectURL ;;
   emit OnClose)%eff.

(** [handleDownload], with the state cells read from the render the
    handler closes over. *)
Definition handleDownload (fuel : nat) : M World unit :=
  (w0 <- get ;;
   let s := ui w0 in
   setIsProcessing true ;;
   setDownloadError None ;;
   try_catch_finally
     (canvas <- awaitCanvas ;;
      let finalFilename :=
        (trim (customFilename s) ++ "." ++ format_toLowerCase (format s))%string in
      blob <- encode_for_format s fuel canvas ;;
      save_blob blob finalFilename)
     (fun error =>
        emit (ConsoleError error) ;;
        let errorMessage := message_or unknown_error error in
        setDownloadError (Some errorMessage))
     (setIsProcessing false))%eff.

(** The error line of the rendered modal:
    [{downloadError && <p ...>{downloadError}</p>}]. *)
Definition rendered_error (s : State) : option string :=
  match downloadError s with
  | Some m => if truthy m then Some m else None
  | None => None
  end.

End Component.

Arguments GetCanvas {Canvas Blob} answer.
Arguments ToBlob {Canvas Blob} mimeType quality answer.
Arguments CreateObjectURL {Canvas Blob} blob.
Arguments LinkClick {Canvas Blob} download.
Arguments RevokeObjectURL {Canvas Blob}.
Arguments OnClose {Canvas Blob}.
Arguments ConsoleError {Canvas Blob} error.
Arguments ui {Canvas Blob} w.
Arguments log {Canvas Blob} w.
Arguments over_target {Blob} blob_size blob targetBytes quality.
Arguments getBlob {Canvas Blob} canvas_toBlob canvas mimeType quality.
Arguments reduce_quality {Canvas Blob} blob_size canvas_toBlob
  fuel canvas targetBytes blob quality.
Arguments target_size_export {Canvas Blob} blob_size canvas_toBlob
  fuel canvas targetBytes.
Arguments encode_for_format {Canvas Blob} blob_size canvas_toBlob
  s fuel canvas.
Arguments save_blob {Canvas Blob} blob finalFilename.
Arguments handleDownload {Canvas Blob} blob_size getCanvasPromise
  canvas_toBlob fuel.
Arguments awaitCanvas {Canvas Blob} getCanvasPromise.

(** *** Vocabulary for statements about the target-size branch *)

(** The loop variable [quality] after [k] executions of
    [quality -= 0.05], starting from [0.95]. *)
Fixpoint quality_at (k : nat) : number :=
  match k with
  | O => 0.95
  | S k' => quality_at k' - 0.05
  end.

(** The argument of the [k]-th call of the encoder (counting from 0). *)
Definition encoded_quality (k : nat) : number :=
  match k with
  | O => 0.95
  | S _ => Math_max 0.1 (quality_at k)
  end.

(** [0.1 <= q <= 0.95] *)
Definition in_quality_range (q : number) : bool := le 0.1 q && le q 0.95.

Section Vocabulary.
Variables Canvas Blob : Type.
Variable blob_size : Blob -> number.

Local Abbreviation Event := (Event Canvas Blob).

(** The qualities handed to the encoder, in order. *)
Fixpoint encoder_qualities (evs : list Event) : list number :=
  match evs with
  | [] => []
  | ToBlob _ (Some q) _ :: evs' => q :: encoder_qualities evs'
  | _ :: evs' => encoder_qualities evs'
  end.

(** A call that failed: the canvas promise rejected, or the encoder
    handed [null] to the callback. *)
Definition is_failure (ev : Event) : bool :=
  match ev with
  | GetCanvas (inl _) => true
  | ToBlob _ _ None => true
  | _ => false
  end.

(** A call into the browser that asks for the canvas or an encoding. *)
Definition is_request (ev : Event) : bool :=
  match ev with
  | GetCanvas _ => true
  | ToBlob _ _ _ => true
  | _ => false
  end.

(** The value a failed call throws into [handleDownload]. *)
Definition failure_value (ev : Event) : option value :=
  match ev with
  | GetCanvas (inl e) => Some e
  | ToBlob _ _ None => Some getBlob_failed
  | _ => None
  end.

(** A request that was answered. *)
Definition answered (ev : Event) : Prop :=
  is_request ev = true /\ is_failure ev = false.

(** The log of a run that only asks the browser: every request was
    answered, unless the run threw, and then exactly its last request
    failed and the thrown value is that failure's. *)
Definition well_logged {A : Type} (r : outcome A) (evs : list Event)
  : Prop :=
  match r with
  | Thrown e =>
      exists pre ev,
        evs = pre ++ [ev]
        /\ Forall answered pre
        /\ failure_value ev = Some e
  | _ => Forall answered evs
  end.

(** An event of the download itself. *)
Definition is_download (ev : Event) : bool :=
  match ev with
  | CreateObjectURL _ => true
  | LinkClick _ => true
  | _ => false
  end.

(** The world after further events. *)
Definition logged (w : World Canvas Blob) (evs : list Event)
  : World Canvas Blob :=
  {| ui := ui w; log := log w ++ evs |}.

(** The events logged between two worlds. *)
Definition since (w w' : World Canvas Blob) : list Event :=
  skipn (List.length (log w)) (log w').

(** A run of the [while] loop from its [k]-th test on, as a list of
    encoder calls with their answers and the way the loop ends:
    the loop leaves at the first test whose guard is false, and every
    iteration before encodes at [max(0.1, quality - 0.05)]. *)
Inductive scan (targetBytes : number)
  : nat -> Blob -> list Event -> outcome (Blob * number) -> Prop :=
| scan_exit k blob :
    over_target blob_size blob targetBytes (quality_at k) = false ->
    scan targetBytes k blob [] (Returned (blob, quality_at k))
| scan_reject k blob :
    over_target blob_size blob targetBytes (quality_at k) = true ->
    scan targetBytes k blob
      [ToBlob image_jpeg (Some (Math_max 0.1 (quality_at k - 0.05))) None]
      (Thrown getBlob_failed)
| scan_next k blob blob' evs r :
    over_target blob_size blob targetBytes (quality_at k) = true ->
    scan targetBytes (S k) blob' evs r ->
    scan targetBytes k blob
      (ToBlob image_jpeg (Some (Math_max 0.1 (quality_at k - 0.05)))
              (Some blob') :: evs) r.

End Vocabulary.

Arguments encoder_qualities {Canvas Blob} evs.
Arguments is_failure {Canvas Blob} ev.
Arguments is_request {Canvas Blob} ev.
Arguments is_download {Canvas Blob} ev.
Arguments failure_value {Canvas Blob} ev.
Arguments answered {Canvas Blob} ev.
Arguments well_logged {Canvas Blob A} r evs.
Arguments since {Canvas Blob} w w'.
Arguments logged {Canvas Blob} w evs.
Arguments scan {Canvas Blob} blob_size targetBytes _ _ _ _.
Arguments scan_exit {Canvas Blob} blob_size targetBytes k blob _.
Arguments scan_reject {Canvas Blob} blob_size targetBytes k blob _.
Arguments scan_next {Canvas Blob} blob_size targetBytes k blob blob' evs r _ _.

(** *** The search the specification names

    A binary search over the grid of the eighteen quality values the
    export can use (index 0 is 0.95, index 17 is 0.1), looking for the
    first index whose encoding fits the target; it records the indices it
    probes. *)
Section BinarySearch.
Variable fits : nat -> bool.

Fixpoint binary_search (fuel lo hi : nat) (probes : list nat)
  : nat * list nat :=
  match fuel with
  | O => (lo, probes)
  | S fuel' =>
      if Nat.ltb lo hi then
        let mid := Nat.div2 (lo + hi)%nat in
        if fits mid then binary_search fuel' lo mid (probes ++ [mid])
        else binary_search fuel' (S mid) hi (probes ++ [mid])
      else (lo, probes)
  end.

Definition binary_search_quality : nat * list nat :=
  binary_search 18 0 17 [].

(** The first index of the grid whose encoding fits, the last index if
    none before it does. *)
Definition first_fit : nat :=
  match find fits (seq 0 17) with
  | Some k => k
  | None => 17
  end.

End BinarySearch.

(** *** A concrete browser on which the handler can be evaluated

    The canvas is a token, a blob is its size in bytes, and the encoder
    answers a JPEG request with 150000 bytes above quality 0.52 and with
    90000 bytes below (500000 bytes when no quality is given). *)
Module Demo.

Definition encode (q : number) : number :=
if gt q 0.52 then 150000 else 90000.

Definition toBlob (_ : list (Event Datatypes.unit number))
    (_ : Datatypes.unit) (_ : MimeType) (quality : option number)
  : option number :=
match quality with
| Some q => Some (encode q)
| None => Some 500000
end.

Definition getCanvas (_ : list (Event Datatypes.unit number))
  : value + Datatypes.unit := inr tt.

(** An image that fails to load: the promise rejects with the event. *)
Definition getCanvas_rejecting (_ : list (Event Datatypes.unit number))
  : value + Datatypes.unit := inl NotAnError.

Definition jpeg_100KB : State :=
  {| format := JPEG;
     customFilename := "edited-photo-Editor";
     isProcessing := false;
     downloadError := None;
     jpegQuality := 92;
     targetSize := {| isEnabled := true; size := 100; unit_ := KB |} |}.

Definition w0 : World Datatypes.unit number :=
  {| ui := jpeg_100KB; log := [] |}.

(** Whether the encoding at grid index [k] fits 100 KB. *)
Definition fits (k : nat) : bool :=
  negb (gt (encode (encoded_quality k)) (targetBytes_of (targetSize jpeg_100KB))).

End Demo.

End DownloadModal.

(** ** The AI service and the handlers that call it

    [services/geminiService] is not among the sources.  Its three exported
    functions are taken as they are used: each call is one request, which
    settles with the base64 data of an image or rejects.  The answer is
    supplied by the environment and may depend on the whole history. *)

Module Gemini.
Import JS.

Inductive AspectRatio : Type := r1_1 | r4_3 | r3_4 | r16_9 | r9_16.

Inductive Request : Type :=
| generateImageWithGemini (prompt : string) (aspectRatio : AspectRatio)
| editImageWithGemini (base64Data : option string) (mimeType : string)
                      (prompt : string)
| upscaleImageWithGemini (base64ImageData : string).

(** What leaves a component that talks to the service. *)
Inductive Event : Type :=
| Service (request : Request) (answer : value + string)
| ReadAsDataURL (fileName : string) (answer : value + string)
| LoadImage (src : string) (answer : value + (number * number))
| GetContext2d (available : bool)
| ConsoleError (error : value).

Record World (S : Type) : Type := {
  ui : S;
  log : list Event
}.
Arguments ui {S} w.
Arguments log {S} w.

(** The requests made to the service, in order. *)
Fixpoint requests (evs : list Event) : list Request :=
  match evs with
  | [] => []
  | Service r _ :: evs' => r :: requests evs'
  | _ :: evs' => requests evs'
  end.

(** The events logged between two worlds. *)
Definition since {S : Type} (w w' : World S) : list Event :=
  skipn (List.length (log w)) (log w').

(** [{error && <ErrorAlert message={error} ... />}] and
    [{retouchError && <p ...>{retouchError}</p>}]: the message on
    display. *)
Definition shown (error : option string) : option string :=
match error with
| Some m => if truthy m then Some m else None
| None => None
end.

Definition unknown_error : string := "An unknown error occurred.".

(** A run of a handler from [w] to [w'] is single shot: its requests to
    the service are exactly the [expected] one, if any, and when a request
    was rejected the message on display is the rejection's message after
    the handler's [prefix]. *)
Definition single_shot {S : Type} (error_of : S -> option string)
  (prefix : string) (expected : option Request) (w w' : World S) : Prop :=
requests (since w w')
= match expected with
  | Some r => [r]
  | None => []
  end
/\ forall r e,
    In (Service r (inl e)) (since w w') ->
    shown (error_of (ui w'))
    = Some (prefix ++ message_or unknown_error e)%string.

Section Handlers.
Variable S : Type.
Variable service : list Event -> Request -> value + string.

Definition emit (e : Event) : Eff.M (World S) unit :=
  Eff.modify (fun w => {| ui := ui w; log := log w ++ [e] |}).

Definition set (f : S -> S) : Eff.M (World S) unit :=
  Eff.modify (fun w => {| ui := f (ui w); log := log w |}).

(** [await] of one call of an exported function of the service. *)
Definition call (r : Request) : Eff.M (World S) string :=
  (w <- Eff.get ;;
   let answer := service (log w) r in
   emit (Service r answer) ;;
   Eff.await answer)%eff.

End Handlers.

Arguments emit {S} e.
Arguments set {S} f.
Arguments call {S} service r.

End Gemini.

(** ** src/App.tsx *)

Module App.
Import JS Eff Gemini.
Local Open Scope string_scope.
Local Open Scope list_scope.

Inductive EditingStep : Type :=
| upload | choice | ai_edit | studio | generation.



Record File : Type := { name : string; type : string }.

Record ImageFile : Type := {
  file : File;
  base64 : string;
  mimeType : string
}.

Record State : Type := {
  editingStep : EditingStep;
  originalImage : option ImageFile;
  editedImage : option string;
  prompt : string;
  isLoading : bool;
  error : option string
}.

Definition initialState : State :=
  {| editingStep := upload;
     originalImage := None;
     editedImage := None;
     prompt := "";
     isLoading := false;
     error := None |}.

Definition with_editingStep (v : EditingStep) (s : State) : State :=
  {| editingStep := v; originalImage := originalImage s;
     editedImage := editedImage s; prompt := prompt s;
     isLoading := isLoading s; error := error s |}.
Definition with_originalImage (v : option ImageFile) (s : State) : State :=
  {| editingStep := editingStep s; originalImage := v;
     editedImage := editedImage s; prompt := prompt s;
     isLoading := isLoading s; error := error s |}.
Definition with_editedImage (v : option string) (s : State) : State :=
  {| editingStep := editingStep s; originalImage := originalImage s;
     editedImage := v; prompt := prompt s;
     isLoading := isLoading s; error := error s |}.
Definition with_prompt (v : string) (s : State) : State :=
  {| editingStep := editingStep s; originalImage := originalImage s;
     editedImage := editedImage s; prompt := v;
     isLoading := isLoading s; error := error s |}.
Definition with_isLoading (v : bool) (s : State) : State :=
  {| editingStep := editingStep s; originalImage := originalImage s;
     editedImage := editedImage s; prompt := prompt s;
     isLoading := v; error := error s |}.
Definition with_error (v : option string) (s : State) : State :=
  {| editingStep := editingStep s; originalImage := originalImage s;
     editedImage := editedImage s; prompt := prompt s;
     isLoading := isLoading s; error := v |}.

Record ImageData : Type := {
  data_base64 : string;     (* the field [base64] *)
  data_mimeType : string    (* the field [mimeType] *)
}.

Section Component.
Variable service : list Event -> Request -> value + string.
(** The [FileReader] of [fileToBase64]. *)
Variable readAsDataURL : list Event -> File -> value + string.

Definition setEditingStep v := set (with_editingStep v).
Definition setOriginalImage v := set (with_originalImage v).
Definition setEditedImage v := set (with_editedImage v).
Definition setPrompt v := set (with_prompt v).
Definition setIsLoading v := set (with_isLoading v).
Definition setError v := set (with_error v).

Definition fileToBase64 (f : File) : M (World State) string :=
  (w <- get ;;
   let answer := readAsDataURL (log w) f in
   emit (ReadAsDataURL (name f) answer) ;;
   await answer)%eff.

Definition handleImageUpload (f : File) : M (World State) unit :=
  (setError None ;;
   setIsLoading true ;;
   try_catch_finally
     (base64 <- fileToBase64 f ;;
      setOriginalImage
        (Some {| file := f; base64 := base64; mimeType := type f |}) ;;
      setEditedImage None ;;
      setPrompt "" ;;
      setEditingStep choice)
     (fun err =>
        setError (Some "Failed to process image file. Please try another one.") ;;
        emit (ConsoleError err))
     (setIsLoading false))%eff.

Definition handleSubmitEdit (imageData : ImageData)
  : M (World State) unit :=
  (w0 <- get ;;
   let prompt := prompt (ui w0) in
   if negb (truthy (trim prompt)) then
     setError (Some "Please ensure you have a prompt written.")
   else
     setError None ;;
     setIsLoading true ;;
     setEditedImage None ;;
     try_catch_finally
       (let base64Data := split_1 "," (data_base64 imageData) in
        resultBase64 <-
          call service
            (editImageWithGemini base64Data (data_mimeType imageData)
               prompt) ;;
        setEditedImage
          (Some ("data:image/png;base64," ++ resultBase64)%string) ;;
        setEditingStep studio)
       (fun err =>
          let errorMessage :=
            message_or "An unknown error occurred." err in
          setError (Some ("Editing failed: " ++ errorMessage)%string) ;;
          emit (ConsoleError err))
       (setIsLoading false))%eff.

Definition handleImageGenerated (base64Data : string)
  : M (World State) unit :=
  (let fullBase64 := ("data:image/png;base64," ++ base64Data)%string in
   let dummyFile :=
     {| name := "generated-image.png"; type := "image/png" |} in
   setOriginalImage
     (Some {| file := dummyFile; base64 := fullBase64;
              mimeType := "image/png" |}) ;;
   setEditedImage None ;;
   setPrompt "" ;;
   setError None ;;
   setEditingStep studio)%eff.

Definition handleReset : M (World State) unit :=
  (setOriginalImage None ;;
   setEditedImage None ;;
   setPrompt "" ;;
   setError None ;;
   setIsLoading false ;;
   setEditingStep upload)%eff.

(** The component [renderContent] returns; [Nothing] is the falsy
    value of [originalImage && (...)]. *)
Inductive View : Type :=
| ImageUploader
| ImageGenerator
| EditorChoice
| ImageEditor
| ResultDisplay
| Nothing.

Definition renderContent (s : State) : View :=
  match editingStep s with
  | upload => ImageUploader
  | generation => ImageGenerator
  | choice =>
      match originalImage s with
      | Some _ => EditorChoice
      | None => Nothing
      end
  | ai_edit =>
      match originalImage s with
      | Some _ => ImageEditor
      | None => Nothing
      end
  | studio =>
      match originalImage s with
      | Some _ => ResultDisplay
      | None => Nothing
      end
  end.

(** The callbacks the rendered components are given.  [setPrompt_] is
    the prop [setPrompt] of ImageEditor, which is the setter itself. *)
Inductive Callback : Type :=
| onImageUpload (f : File)
| onStartGeneration
| onImageGenerated (base64Data : string)
| onBack
| onAiEdit
| onManualEdit
| onReset
| onSubmit (imageData : ImageData)
| setPrompt_ (prompt : string).

(** Which callbacks [renderContent] passes to which component. *)
Definition offered (v : View) (cb : Callback) : bool :=
  match v, cb with
  | ImageUploader, (onImageUpload _ | onStartGeneration) => true
  | ImageGenerator, (onImageGenerated _ | onBack) => true
  | EditorChoice, (onAiEdit | onManualEdit | onReset) => true
  | ImageEditor, (setPrompt_ _ | onSubmit _ | onReset | onBack) => true
  | ResultDisplay, onReset => true
  | _, _ => false
  end.

(** The handler behind a callback, as wired in [renderContent]. *)
Definition handler (v : View) (cb : Callback) : M (World State) unit :=
  match cb with
  | onImageUpload f => handleImageUpload f
  | onStartGeneration => setEditingStep generation
  | onImageGenerated d => handleImageGenerated d
  | onBack =>
      match v with
      | ImageGenerator => setEditingStep upload
      | _ => setEditingStep choice
      end
  | onAiEdit => setEditingStep ai_edit
  | onManualEdit => setEditingStep studio
  | onReset => handleReset
  | onSubmit d => handleSubmitEdit d
  | setPrompt_ v => setPrompt v
  end.

(** One transition of the flow: a callback of the rendered component
    fires and its handler runs to completion. *)
Definition transition (w w' : World State) : Prop :=
  exists cb,
    offered (renderContent (ui w)) cb = true
    /\ snd (handler (renderContent (ui w)) cb w) = w'.

End Component.



(** The request a submission is expected to make. *)
Definition expected_edit (s : State) (imageData : ImageData)
  : option Request :=
if truthy (trim (prompt s))
then Some (editImageWithGemini (split_1 "," (data_base64 imageData))
             (data_mimeType imageData) (prompt s))
else None.

(** An environment in which every read and every request succeeds. *)
Definition online (_ : list Event) (_ : Request) : value + string :=
inr "iVBORw0KGgo=".

Definition readable (_ : list Event) (_ : File) : value + string :=
inr "data:image/png;base64,iVBORw0KGgo=".

Definition start : World State := {| ui := initialState; log := [] |}.

End App.

(** ** ImageGenerator (src/unnamed/part_002, second component) *)

Module ImageGenerator.
Import JS Eff Gemini.
Local Open Scope string_scope.
Local Open Scope list_scope.

Record State : Type := {
  prompt : string;
  aspectRatio : AspectRatio;
  isLoading : bool;
  isUpscaling : bool;
  error : option string;
  generatedImage : option string
}.

Definition initialState : State :=
  {| prompt := ""; aspectRatio := r1_1; isLoading := false;
     isUpscaling := false; error := None; generatedImage := None |}.

Definition with_isLoading (v : bool) (s : State) : State :=
  {| prompt := prompt s; aspectRatio := aspectRatio s; isLoading := v;
     isUpscaling := isUpscaling s; error := error s;
     generatedImage := generatedImage s |}.
Definition with_isUpscaling (v : bool) (s : State) : State :=
  {| prompt := prompt s; aspectRatio := aspectRatio s;
     isLoading := isLoading s; isUpscaling := v; error := error s;
     generatedImage := generatedImage s |}.
Definition with_error (v : option string) (s : State) : State :=
  {| prompt := prompt s; aspectRatio := aspectRatio s;
     isLoading := isLoading s; isUpscaling := isUpscaling s; error := v;
     generatedImage := generatedImage s |}.
Definition with_generatedImage (v : option string) (s : State) : State :=
  {| prompt := prompt s; aspectRatio := aspectRatio s;
     isLoading := isLoading s; isUpscaling := isUpscaling s;
     error := error s; generatedImage := v |}.

(** [!!generatedImage]: [null] and the empty string are falsy. *)
Definition has_image (s : State) : bool :=
  match generatedImage s with
  | Some img => truthy img
  | None => false
  end.

Section Component.
Variable service : list Event -> Request -> value + string.

Definition setIsLoading v := set (with_isLoading v).
Definition setIsUpscaling v := set (with_isUpscaling v).
Definition setError v := set (with_error v).
Definition setGeneratedImage v := set (with_generatedImage v).

Definition handleGenerate : M (World State) unit :=
  (w0 <- get ;;
   let s := ui w0 in
   if negb (truthy (trim (prompt s))) then
     setError (Some "Please enter a prompt to generate an image.")
   else
     setIsLoading true ;;
     setError None ;;
     setGeneratedImage None ;;
     try_catch_finally
       (resultBase64 <-
          call service
            (generateImageWithGemini (prompt s) (aspectRatio s)) ;;
        setGeneratedImage (Some resultBase64))
       (fun err =>
          let errorMessage :=
            message_or "An unknown error occurred." err in
          setError (Some ("Generation failed: " ++ errorMessage)%string) ;;
          emit (ConsoleError err))
       (setIsLoading false))%eff.

Definition handleUpscale : M (World State) unit :=
  (w0 <- get ;;
   let s := ui w0 in
   match generatedImage s with
   | Some img =>
       if truthy img then
         setIsUpscaling true ;;
         setError None ;;
         try_catch_finally
           (upscaledImageBase64 <-
              call service (upscaleImageWithGemini img) ;;
            setGeneratedImage (Some upscaledImageBase64))
           (fun err =>
              let errorMessage :=
                message_or "An unknown error occurred." err in
              setError
                (Some ("Upscaling failed: " ++ errorMessage)%string) ;;
              emit (ConsoleError err))
           (setIsUpscaling false)
       else ret tt
   | None => ret tt
   end)%eff.

(** The buttons wired to the two handlers, and when a click reaches
    the handler: the "Generate" button is disabled without a prompt,
    the "Generate Again" and "Upscale" buttons exist only next to a
    generated image. *)
Inductive Button : Type := Generate | GenerateAgain | Upscale.

Definition clickable (s : State) (b : Button) : bool :=
  match b with
  | Generate =>
      negb (isLoading s || isUpscaling s
            || negb (truthy (trim (prompt s))))
  | GenerateAgain | Upscale =>
      has_image s && negb (isLoading s) && negb (isUpscaling s)
  end.

Definition onClick (b : Button) : M (World State) unit :=
  match b with
  | Generate | GenerateAgain => handleGenerate
  | Upscale => handleUpscale
  end.

End Component.

(** The request a click is expected to make. *)
Definition expected_generate (s : State) : option Request :=
if truthy (trim (prompt s))
then Some (generateImageWithGemini (prompt s) (aspectRatio s))
else None.

Definition expected_upscale (s : State) : option Request :=
match generatedImage s with
| Some img => if truthy img then Some (upscaleImageWithGemini img) else None
| None => None
end.

(** A generated image is on display and the prompt has been cleared. *)
Definition cleared_prompt : World State :=
  {| ui := {| prompt := ""; aspectRatio := r1_1; isLoading := false;
              isUpscaling := false; error := None;
              generatedImage := Some "iVBORw0KGgo=" |};
     log := [] |}.

(** A service that is down. *)
Definition unreachable (_ : list Event) (_ : Request) : value + string :=
  inl (Error "503").

End ImageGenerator.

(** ** ImageControlPanel (src/unnamed/part_003) *)

Module ImageControlPanel.
Import JS Eff Gemini.
Local Open Scope string_scope.
Local Open Scope list_scope.
Local Open Scope float_scope.

Record Filter : Type := {
  name : string;
  style : number -> string
}.

Record Adjustments : Type := {
  brightness : number;
  contrast : number;
  saturation : number;
  warmth : number;
  tint : number;
  vignette : number
}.

Definition initialAdjustments : Adjustments :=
  {| brightness := 100; contrast := 100; saturation := 100;
     warmth := 0; tint := 0; vignette := 0 |}.

Record ActiveFilter : Type := {
  active_name : string;       (* the field [name] *)
  intensity : number
}.

Record RetouchOptions : Type := {
  enhanceSkin : bool;
  brightenEyes : bool;
  whitenTeeth : bool;
  reduceDarkCircles : bool
}.

(** The state cells the modelled functions read or write; the cells for
    the crop modal, the aspect ratio and the download modal are left
    out. *)
Record State : Type := {
  displayImage : string;
  adjustments : Adjustments;
  activeFilter : ActiveFilter;
  retouchOptions : RetouchOptions;
  isRetouching : bool;
  retouchError : option string
}.

Definition initialState (imageSrc : string) : State :=
  {| displayImage := imageSrc;
     adjustments := initialAdjustments;
     activeFilter := {| active_name := "None"; intensity := 100 |};
     retouchOptions := {| enhanceSkin := false; brightenEyes := false;
                          whitenTeeth := false;
                          reduceDarkCircles := false |};
     isRetouching := false;
     retouchError := None |}.

Definition with_displayImage (v : string) (s : State) : State :=
  {| displayImage := v; adjustments := adjustments s;
     activeFilter := activeFilter s; retouchOptions := retouchOptions s;
     isRetouching := isRetouching s; retouchError := retouchError s |}.
Definition with_isRetouching (v : bool) (s : State) : State :=
  {| displayImage := displayImage s; adjustments := adjustments s;
     activeFilter := activeFilter s; retouchOptions := retouchOptions s;
     isRetouching := v; retouchError := retouchError s |}.
Definition with_retouchError (v : option string) (s : State) : State :=
  {| displayImage := displayImage s; adjustments := adjustments s;
     activeFilter := activeFilter s; retouchOptions := retouchOptions s;
     isRetouching := isRetouching s; retouchError := v |}.

(** What [renderImageWithEffectsToCanvas] has put on the canvas it
    returns: the image drawn through the CSS filter, and the vignette
    overlay, which is painted when [vignette > 0]. *)
Record Canvas : Type := {
  source : string;
  width : number;
  height : number;
  ctx_filter : string;
  overlay : number
}.

Section Component.
(** The conversion of a number to a string in a template literal. *)
Variable toString : number -> string.
Variable service : list Event -> Request -> value + string.
(** The browser: loading an image tells its natural size or fires
    [onerror]; a 2d context may be unavailable; [canvas.toDataURL]. *)
Variable loadImage : list Event -> string -> value + (number * number).
Variable getContext2d : list Event -> bool.
Variable toDataURL : Canvas -> string -> string.

Local Notation "' x" := (toString x) (at level 9, format "' x").

Definition filters : list Filter :=
  [ {| name := "None"; style := fun _ => "" |};
    {| name := "Auto Enhance"; style := fun i =>
         "brightness(" ++ '(100 + 5 * (i / 100)) ++ "%) contrast("
         ++ '(100 + 15 * (i / 100)) ++ "%) saturate("
         ++ '(100 + 20 * (i / 100)) ++ "%)" |};
    {| name := "Grayscale"; style := fun i =>
         "grayscale(" ++ 'i ++ "%)" |};
    {| name := "Sepia"; style := fun i => "sepia(" ++ 'i ++ "%)" |};
    {| name := "Invert"; style := fun i => "invert(" ++ 'i ++ "%)" |};
    {| name := "Noir"; style := fun i =>
         "grayscale(100%) contrast(" ++ '(100 + 25 * (i / 100))
         ++ "%) brightness(" ++ '(100 - 10 * (i / 100)) ++ "%)" |};
    {| name := "Vibrant"; style := fun i =>
         "saturate(" ++ '(100 + 50 * (i / 100)) ++ "%)" |};
    {| name := "Cool"; style := fun i =>
         "hue-rotate(-" ++ '(15 * (i / 100)) ++ "deg) saturate("
         ++ '(100 + 25 * (i / 100)) ++ "%)" |};
    {| name := "Warm"; style := fun i =>
         "sepia(" ++ '(20 * (i / 100)) ++ "%) saturate("
         ++ '(100 + 25 * (i / 100)) ++ "%) brightness("
         ++ '(100 + 5 * (i / 100)) ++ "%)" |};
    {| name := "High Contrast"; style := fun i =>
         "contrast(" ++ '(100 + 100 * (i / 100)) ++ "%)" |};
    {| name := "Vintage"; style := fun i =>
         "sepia(" ++ '(80 * (i / 100)) ++ "%) contrast("
         ++ '(100 + 10 * (i / 100)) ++ "%) brightness("
         ++ '(100 - 5 * (i / 100)) ++ "%) saturate("
         ++ '(100 - 20 * (i / 100)) ++ "%)" |};
    {| name := "Cyberpunk"; style := fun i =>
         "contrast(" ++ '(100 + 40 * (i / 100)) ++ "%) hue-rotate("
         ++ '(180 * (i / 100)) ++ "deg) saturate("
         ++ '(100 + 60 * (i / 100)) ++ "%) brightness("
         ++ '(100 + 5 * (i / 100)) ++ "%)" |};
    {| name := "Pastel"; style := fun i =>
         "saturate(" ++ '(100 - 40 * (i / 100)) ++ "%) contrast("
         ++ '(100 - 25 * (i / 100)) ++ "%) brightness("
         ++ '(100 + 10 * (i / 100)) ++ "%)" |};
    {| name := "Dreamy"; style := fun i =>
         "blur(" ++ '(3 * (i / 100)) ++ "px) brightness("
         ++ '(100 + 15 * (i / 100)) ++ "%) contrast("
         ++ '(100 - 15 * (i / 100)) ++ "%) saturate("
         ++ '(100 + 10 * (i / 100)) ++ "%)" |};
    {| name := "Nashville"; style := fun i =>
         "sepia(" ++ '(20 * (i / 100)) ++ "%) contrast("
         ++ '(100 + 20 * (i / 100)) ++ "%) brightness("
         ++ '(100 + 5 * (i / 100)) ++ "%) saturate("
         ++ '(100 + 20 * (i / 100)) ++ "%)" |};
    {| name := "Lomo"; style := fun i =>
         "saturate(" ++ '(100 + 50 * (i / 100)) ++ "%) contrast("
         ++ '(100 + 50 * (i / 100)) ++ "%) sepia("
         ++ '(30 * (i / 100)) ++ "%)" |};
    {| name := "Gotham"; style := fun i =>
         "contrast(" ++ '(100 + 30 * (i / 100)) ++ "%) brightness("
         ++ '(100 - 10 * (i / 100)) ++ "%) sepia("
         ++ '(30 * (i / 100)) ++ "%)" |};
    {| name := "Pop Art"; style := fun i =>
         "contrast(" ++ '(100 + 100 * (i / 100)) ++ "%) saturate("
         ++ '(100 + 100 * (i / 100)) ++ "%) hue-rotate("
         ++ '(15 * (i / 100)) ++ "deg)" |};
    {| name := "Infrared"; style := fun i =>
         "hue-rotate(-" ++ '(60 * (i / 100)) ++ "deg) saturate("
         ++ '(100 + 100 * (i / 100)) ++ "%) contrast("
         ++ '(100 + 50 * (i / 100)) ++ "%)" |};
    {| name := "Old West"; style := fun i =>
         "sepia(" ++ '(100 * (i / 100)) ++ "%) contrast("
         ++ '(100 - 10 * (i / 100)) ++ "%) brightness("
         ++ '(100 + 10 * (i / 100)) ++ "%) saturate("
         ++ '(100 - 20 * (i / 100)) ++ "%)" |};
    {| name := "Emerald City"; style := fun i =>
         "hue-rotate(" ++ '(90 * (i / 100)) ++ "deg) saturate("
         ++ '(100 + 50 * (i / 100)) ++ "%) contrast("
         ++ '(100 + 20 * (i / 100)) ++ "%)" |} ]%string.

(** [filters.find(f => f.name === activeFilter.name)
       ?.style(activeFilter.intensity)], [None] for [undefined]. *)
Definition lookup (a : ActiveFilter) : option string :=
  match find (fun f => String.eqb (name f) (active_name a)) filters with
  | Some f => Some (style f (intensity a))
  | None => None
  end.

(** The template literal [adjustmentFilter]. *)
Definition adjustmentFilter (adj : Adjustments) : string :=
  (nl ++ "      brightness(" ++ '(brightness adj) ++ "%) " ++
   nl ++ "      contrast(" ++ '(contrast adj) ++ "%) " ++
   nl ++ "      saturate(" ++ '(saturation adj) ++ "%) " ++
   nl ++ "      sepia(" ++ '(warmth adj) ++ "%) " ++
   nl ++ "      hue-rotate(" ++ '(tint adj) ++ "deg)" ++
   nl ++ "    ")%string.

(** The [filter] property of the style [getCombinedStyle] returns. *)
Definition getCombinedStyle (adj : Adjustments) (a : ActiveFilter)
  : string :=
  let filterFunc :=
    match lookup a with
    | Some str => or_else str ""
    | None => ""
    end in
  let adjustmentFilter := adjustmentFilter adj in
  trim (filterFunc ++ " " ++ adjustmentFilter)%string.

Definition setDisplayImage v := set (with_displayImage v).
Definition setIsRetouching v := set (with_isRetouching v).
Definition setRetouchError v := set (with_retouchError v).

Definition renderImageWithEffectsToCanvas (s : State)
    (sourceImage : string) : M (World State) Canvas :=
  (w <- get ;;
   let loaded := loadImage (log w) sourceImage in
   emit (LoadImage sourceImage loaded) ;;
   natural <- await loaded ;;
   w <- get ;;
   let ctx := getContext2d (log w) in
   emit (GetContext2d ctx) ;;
   if negb ctx then throw (Error "Could not get canvas context")
   else
     ret {| source := sourceImage;
            width := fst natural;
            height := snd natural;
            ctx_filter :=
              or_else (getCombinedStyle (adjustments s) (activeFilter s))
                      "none";
            overlay := vignette (adjustments s) |})%eff.

(** [Object.entries(retouchOptions).filter(([, value]) => value)
       .map(([key]) => key)] *)
Definition selectedOptions (o : RetouchOptions) : list string :=
  map fst
    (filter snd
       [("enhanceSkin", enhanceSkin o); ("brightenEyes", brightenEyes o);
        ("whitenTeeth", whitenTeeth o);
        ("reduceDarkCircles", reduceDarkCircles o)]).

Definition promptCommands (o : RetouchOptions) : list string :=
  (if enhanceSkin o
   then ["perform skin enhancement to smooth texture and reduce blemishes"]
   else [])
  ++ (if brightenEyes o then ["brighten the eyes"] else [])
  ++ (if whitenTeeth o then ["whiten the teeth"] else [])
  ++ (if reduceDarkCircles o
      then ["reduce dark circles under the eyes"] else []).

Definition handleApplyRetouch : M (World State) unit :=
  (w0 <- get ;;
   let s := ui w0 in
   if Nat.eqb (List.length (selectedOptions (retouchOptions s))) 0 then
     setRetouchError (Some "Please select at least one retouch option.")
   else
     setRetouchError None ;;
     setIsRetouching true ;;
     try_catch_finally
       (canvas <- renderImageWithEffectsToCanvas s (displayImage s) ;;
        let currentImageBase64 := toDataURL canvas "image/png" in
        let base64Data := split_1 "," currentImageBase64 in
        let prompt :=
          ("Subtly retouch this portrait. Please "
           ++ join ", " (promptCommands (retouchOptions s))
           ++ ". Maintain a natural look.")%string in
        resultBase64 <-
          call service (editImageWithGemini base64Data "image/png" prompt) ;;
        setDisplayImage ("data:image/png;base64," ++ resultBase64)%string)
       (fun err =>
          let errorMessage :=
            message_or "An unknown error occurred." err in
          setRetouchError
            (Some ("Retouch failed: " ++ errorMessage)%string) ;;
          emit (ConsoleError err))
       (setIsRetouching false))%eff.

(** The request a retouch is expected to make: none without a ticked
    option, none when the image does not load or no context is
    available. *)
Definition expected_retouch (w : World State) : option Request :=
let s := ui w in
if Nat.eqb (List.length (selectedOptions (retouchOptions s))) 0 then None
else
  match loadImage (log w) (displayImage s) with
  | inl _ => None
  | inr natural =>
      if getContext2d
           (log w ++ [LoadImage (displayImage s) (inr natural)])
      then
        let canvas :=
          {| source := displayImage s;
             width := fst natural;
             height := snd natural;
             ctx_filter :=
               or_else (getCombinedStyle (adjustments s) (activeFilter s))
                       "none";
             overlay := vignette (adjustments s) |} in
        Some (editImageWithGemini
                (split_1 "," (toDataURL canvas "image/png")) "image/png"
                ("Subtly retouch this portrait. Please "
                 ++ join ", " (promptCommands (retouchOptions s))
                 ++ ". Maintain a natural look.")%string)
      else None
  end.

(** The "Apply AI Retouch" button is disabled while retouching and
    while no option is ticked. *)
Definition retouch_clickable (s : State) : bool :=
  let o := retouchOptions s in
  negb (isRetouching s
        || negb (existsb (fun v => v)
                   [enhanceSkin o; brightenEyes o; whitenTeeth o;
                    reduceDarkCircles o])).

End Component.

(** The five adjustment functions as [getCombinedStyle] leaves them. *)
Definition five_adjustments (toString : number -> string)
    (adj : Adjustments) : string :=
  ("brightness(" ++ toString (brightness adj) ++ "%) " ++
   nl ++ "      contrast(" ++ toString (contrast adj) ++ "%) " ++
   nl ++ "      saturate(" ++ toString (saturation adj) ++ "%) " ++
   nl ++ "      sepia(" ++ toString (warmth adj) ++ "%) " ++
   nl ++ "      hue-rotate(" ++ toString (tint adj) ++ "deg)")%string.

(** What separates a preset from the adjustment functions. *)
Definition separator : string := (" " ++ nl ++ "      ")%string.

(** The names of the table, in order. *)
Definition preset_names : list string :=
[ "None"; "Auto Enhance"; "Grayscale"; "Sepia"; "Invert"; "Noir";
  "Vibrant"; "Cool"; "Warm"; "High Contrast"; "Vintage"; "Cyberpunk";
  "Pastel"; "Dreamy"; "Nashville"; "Lomo"; "Gotham"; "Pop Art";
  "Infrared"; "Old West"; "Emerald City" ].

(** A rendering of numbers that knows the values of the initial sliders. *)
Definition digits (v : number) : string :=
if PrimFloat.eqb v 100 then "100"
else if PrimFloat.eqb v 0 then "0"
else "?".

(** A filter name that is not in the table. *)
Definition sunset : ActiveFilter :=
{| active_name := "Sunset"; intensity := 100 |}.

End ImageControlPanel.

(** ** The two crop helpers (src/unnamed/part_000 and part_002) *)

(** An [<img>] element: the four sizes the helpers read, and whether its
    image failed to load (the element is then in the broken state; no
    property the helpers read shows it, but [drawImage] checks it). *)
Module HTMLImageElement.
Record t : Type := {
  naturalWidth : JS.number;
  naturalHeight : JS.number;
  width : JS.number;
  height : JS.number;
  broken : bool
}.
End HTMLImageElement.

Module PixelCrop.
Record t : Type := {
  x : JS.number;
  y : JS.number;
  width : JS.number;
  height : JS.number
}.
End PixelCrop.

(** What the call of a function that returns a promise comes to: the call
    itself throws, or it returns a promise, here already settled. *)
Module Promise.

Inductive Outcome (A : Type) : Type :=
| throws (e : JS.value)
| rejected (e : JS.value)
| resolved (a : A).
Arguments throws {A} e.
Arguments rejected {A} e.
Arguments resolved {A} a.

Definition map {A B : Type} (f : A -> B) (o : Outcome A) : Outcome B :=
match o with
| throws e => throws e
| rejected e => rejected e
| resolved a => resolved (f a)
end.

(** [await] of the call inside [try]: an exception of the call and a
    rejection of the promise both reach the [catch]. *)
Definition awaited {A : Type} (o : Outcome A) : JS.value + A :=
match o with
| throws e => inl e
| rejected e => inl e
| resolved a => inr a
end.

End Promise.

(** A canvas with its 2d context, as far as the helpers use it.  The
    dimensions are integers: [width] and [height] of a canvas element are
    attributes of the IDL type [unsigned long], and a number assigned to
    them is converted.  Every call of [drawImage] is recorded with its
    arguments and with the transform and smoothing quality in force; what
    the browser paints for a call (nothing, for instance, when an argument
    is not finite or the source rectangle is empty) is left to the
    serialiser. *)
Module Canvas.
Import JS.
Local Open Scope float_scope.

(** The conversion of a number to [unsigned long]: NaN, the infinities
    and the zeros give 0; any other number, of value [m * 2^e] up to its
    sign, is truncated toward zero and reduced modulo 2^32. *)
Definition unsigned_long (v : number) : Z :=
  match FloatOps.Prim2SF v with
  | SpecFloat.S754_finite s m e =>
      let a := if (0 <=? e)%Z then Z.shiftl (Z.pos m) e
               else Z.shiftr (Z.pos m) (- e) in
      ((if s then - a else a) mod 2 ^ 32)%Z
  | _ => 0%Z
  end.

(** Assigning [v] to an attribute that reflects a non-negative integer
    with a default: what does not fit in 0 .. 2147483647 gives the
    default. *)
Definition reflected (default : Z) (v : number) : Z :=
  let n := unsigned_long v in
  if (n <=? 2147483647)%Z then n else default.

Inductive SmoothingQuality : Type := low | medium | high.

(** The matrix [a b c d e f] of [setTransform]. *)
Definition Transform : Type :=
  (number * number * number * number * number * number)%type.

Definition identity : Transform := (1, 0, 0, 1, 0, 0).

Record DrawImage : Type := {
  sx : number; sy : number; sw : number; sh : number;
  dx : number; dy : number; dw : number; dh : number;
  under : Transform;
  smoothing : SmoothingQuality
}.

Record t : Type := {
  width : Z;
  height : Z;
  transform : Transform;
  imageSmoothingQuality : SmoothingQuality;
  drawn : list DrawImage
}.

(** [document.createElement('canvas')] *)
Definition createElement : t :=
  {| width := 300%Z; height := 150%Z; transform := identity;
     imageSmoothingQuality := low; drawn := [] |}.

(** Assigning a dimension clears the bitmap and resets the context. *)
Definition set_width (v : number) (c : t) : t :=
  {| width := reflected 300%Z v; height := height c; transform := identity;
     imageSmoothingQuality := low; drawn := [] |}.

Definition set_height (v : number) (c : t) : t :=
  {| width := width c; height := reflected 150%Z v; transform := identity;
     imageSmoothingQuality := low; drawn := [] |}.

(** [ctx.setTransform(a, b, c, d, e, f)]: the call is ignored when an
    argument is infinite or NaN. *)
Definition all_finite (m : Transform) : bool :=
  let '(a, b, c, d, e, f) := m in
  is_finite a && is_finite b && is_finite c
  && is_finite d && is_finite e && is_finite f.

Definition setTransform (m : Transform) (c : t) : t :=
  if all_finite m then
    {| width := width c; height := height c; transform := m;
       imageSmoothingQuality := imageSmoothingQuality c;
       drawn := drawn c |}
  else c.

Definition set_imageSmoothingQuality (q : SmoothingQuality) (c : t) : t :=
  {| width := width c; height := height c; transform := transform c;
     imageSmoothingQuality := q; drawn := drawn c |}.

(** [ctx.drawImage(image, sx, sy, sw, sh, dx, dy, dw, dh)]: for an image
    in the broken state the call throws the browser's InvalidStateError,
    otherwise it is recorded. *)
Definition drawImage (InvalidStateError : value)
    (image : HTMLImageElement.t)
    (sx sy sw sh dx dy dw dh : number) (c : t) : value + t :=
  if HTMLImageElement.broken image then inl InvalidStateError
  else
    inr {| width := width c; height := height c; transform := transform c;
           imageSmoothingQuality := imageSmoothingQuality c;
           drawn := drawn c ++
                    [{| sx := sx; sy := sy; sw := sw; sh := sh;
                        dx := dx; dy := dy; dw := dw; dh := dh;
                        under := transform c;
                        smoothing := imageSmoothingQuality c |}] |}.

(** The string [canvas.toDataURL(type)] returns: ["data:,"] for a canvas
    without pixels, otherwise the data URL of an image file that has the
    dimensions of the canvas. *)
Inductive DataURL (Pixels : Type) : Type :=
| no_pixels
| image_file (type : string) (image_width image_height : Z)
    (pixels : Pixels).
Arguments no_pixels {Pixels}.
Arguments image_file {Pixels} type image_width image_height pixels.

(** A canvas has no pixels when one of its dimensions is zero; the
    browser's serialiser yields no file for a bitmap it could not
    allocate, and the answer is ["data:,"] again.  The images the helpers
    draw come from data URLs, so the canvas stays origin-clean and the
    call does not throw. *)
Definition toDataURL {Pixels : Type} (serialise : t -> option Pixels)
    (type : string) (c : t) : DataURL Pixels :=
  if ((width c =? 0) || (height c =? 0))%Z then no_pixels
  else
    match serialise c with
    | Some pixels => image_file type (width c) (height c) pixels
    | None => no_pixels
    end.

Definition no_context : JS.value :=
  JS.Error "Canvas context is not available.".

(** Source and destination rectangle of a [drawImage]. *)
Definition geometry (d : DrawImage)
  : (number * number * number * number)
    * (number * number * number * number) :=
  ((sx d, sy d, sw d, sh d), (dx d, dy d, dw d, dh d)).

(** The exact value of a finite number [m * 2^e] as a fraction. *)
Definition numerator (m : positive) (e : Z) : Z :=
  (Z.pos m * 2 ^ Z.max 0 e)%Z.
Definition denominator (e : Z) : Z := (2 ^ Z.max 0 (- e))%Z.

End Canvas.

Module ImageEditor.
Import JS.
Local Open Scope float_scope.

Section Helper.
Variable Pixels : Type.
Variable serialise : Canvas.t -> option Pixels.
(** Whether [canvas.getContext('2d')] returns a context. *)
Variable getContext2d : bool.
(** The exception [drawImage] throws for a broken image. *)
Variable InvalidStateError : value.

(** The canvas at the moment it is encoded. *)
Definition cropped_canvas (image : HTMLImageElement.t)
    (crop : PixelCrop.t) : Promise.Outcome Canvas.t :=
  let canvas := Canvas.createElement in
  let canvas := Canvas.set_width (PixelCrop.width crop) canvas in
  let canvas := Canvas.set_height (PixelCrop.height crop) canvas in
  if negb getContext2d then Promise.rejected Canvas.no_context
  else
    let scaleX := HTMLImageElement.naturalWidth image
                  / HTMLImageElement.width image in
    let scaleY := HTMLImageElement.naturalHeight image
                  / HTMLImageElement.height image in
    match Canvas.drawImage InvalidStateError image
            (PixelCrop.x crop * scaleX)
            (PixelCrop.y crop * scaleY)
            (PixelCrop.width crop * scaleX)
            (PixelCrop.height crop * scaleY)
            0 0
            (PixelCrop.width crop)
            (PixelCrop.height crop)
            canvas with
    | inl e => Promise.throws e
    | inr canvas => Promise.resolved canvas
    end.

Definition getCroppedImg (image : HTMLImageElement.t)
    (crop : PixelCrop.t) : Promise.Outcome (Canvas.DataURL Pixels) :=
  Promise.map (Canvas.toDataURL serialise "image/png")
    (cropped_canvas image crop).

End Helper.
End ImageEditor.

Module CropModal.
Import JS.
Local Open Scope float_scope.

Section Helper.
Variable Pixels : Type.
Variable serialise : Canvas.t -> option Pixels.
Variable getContext2d : bool.
Variable InvalidStateError : value.
(** [window.devicePixelRatio] *)
Variable devicePixelRatio : number.

Definition cropped_canvas (image : HTMLImageElement.t)
    (crop : PixelCrop.t) : Promise.Outcome Canvas.t :=
  let canvas := Canvas.createElement in
  let scaleX := HTMLImageElement.naturalWidth image
                / HTMLImageElement.width image in
  let scaleY := HTMLImageElement.naturalHeight image
                / HTMLImageElement.height image in
  let canvas := Canvas.set_width (PixelCrop.width crop) canvas in
  let canvas := Canvas.set_height (PixelCrop.height crop) canvas in
  if negb getContext2d then Promise.rejected Canvas.no_context
  else
    let pixelRatio := devicePixelRatio in
    let canvas :=
      Canvas.set_width (PixelCrop.width crop * pixelRatio) canvas in
    let canvas :=
      Canvas.set_height (PixelCrop.height crop * pixelRatio) canvas in
    let canvas :=
      Canvas.setTransform (pixelRatio, 0, 0, pixelRatio, 0, 0) canvas in
    let canvas := Canvas.set_imageSmoothingQuality Canvas.high canvas in
    match Canvas.drawImage InvalidStateError image
            (PixelCrop.x crop * scaleX)
            (PixelCrop.y crop * scaleY)
            (PixelCrop.width crop * scaleX)
            (PixelCrop.height crop * scaleY)
            0 0
            (PixelCrop.width crop)
            (PixelCrop.height crop)
            canvas with
    | inl e => Promise.throws e
    | inr canvas => Promise.resolved canvas
    end.

Definition getCroppedImg (image : HTMLImageElement.t)
    (crop : PixelCrop.t) : Promise.Outcome (Canvas.DataURL Pixels) :=
  Promise.map (Canvas.toDataURL serialise "image/png")
    (cropped_canvas image crop).

End Helper.
End CropModal.

(** A photo of 4000 by 3000 pixels shown at 800 by 600, crops of 100 by 50
    and of 33 by 21 at (10, 20), a serialiser that keeps nothing, and the
    exception of a browser. *)
Module CropDemo.
Local Open Scope float_scope.

Definition photo : HTMLImageElement.t :=
  {| HTMLImageElement.naturalWidth := 4000;
     HTMLImageElement.naturalHeight := 3000;
     HTMLImageElement.width := 800;
     HTMLImageElement.height := 600;
     HTMLImageElement.broken := false |}.

Definition crop : PixelCrop.t :=
  {| PixelCrop.x := 10; PixelCrop.y := 20;
     PixelCrop.width := 100; PixelCrop.height := 50 |}.

Definition small_crop : PixelCrop.t :=
  {| PixelCrop.x := 10; PixelCrop.y := 20;
     PixelCrop.width := 33; PixelCrop.height := 21 |}.

Definition blank (_ : Canvas.t) : option unit := Some tt.

Definition InvalidStateError : JS.value :=
  JS.Error "The HTMLImageElement provided is in the 'broken' state.".

End CropDemo.

(** ** Further handlers of the same components *)

(** *** ResultDisplay and the props it hands on (src/components/ResultDisplay.tsx) *)

Module ResultDisplay.
Import JS.
Local Open Scope string_scope.
Local Open Scope list_scope.

(** The props of one [ImageControlPanel]. *)
Record Panel : Type := {
  imageSrc : string;
  title : string;
  isEditedPanel : bool
}.

(** [editedImage ? ... : ...]: [null] and the empty string are falsy. *)
Definition has_edit (editedImage : option string) : bool :=
match editedImage with
| Some img => truthy img
| None => false
end.

Definition titleText (editedImage : option string) : string :=
if has_edit editedImage then "Edit Complete!" else "Photo Studio".

(** The panels rendered, left to right. *)
Definition panels (originalImage : string) (editedImage : option string)
  : list Panel :=
match editedImage with
| Some img =>
    if truthy img then
      [ {| imageSrc := originalImage; title := "Original";
           isEditedPanel := false |};
        {| imageSrc := img; title := "Edited"; isEditedPanel := true |} ]
    else
      [ {| imageSrc := originalImage; title := "Editor";
           isEditedPanel := false |} ]
| None =>
    [ {| imageSrc := originalImage; title := "Editor";
         isEditedPanel := false |} ]
end.

(** The [fileName] an [ImageControlPanel] passes to its download modal:
    [`edited-photo-${title}`] (part_003, line 221). *)
Definition fileName (p : Panel) : string := "edited-photo-" ++ title p.

(** What App shows in the step studio: the panels of [ResultDisplay] with
    the props of [renderContent], nothing without an image. *)
Definition studio_panels (s : App.State) : list Panel :=
match App.renderContent s with
| App.ResultDisplay =>
    match App.originalImage s with
    | Some img => panels (App.base64 img) (App.editedImage s)
    | None => []
    end
| _ => []
end.

End ResultDisplay.

(** *** Reachable states of App *)

Module AppFlow.
Import JS Eff Gemini App.

(** [{error && <ErrorAlert message={error} onClose={() => setError(null)} />}]
    (App.tsx, line 142): the alert is shown for a non-empty message. *)
Definition alert_shown (s : State) : bool :=
match error s with
| Some message => truthy message
| None => false
end.

Definition onClose : M (World State) unit := setError None.

Section Reach.
Variable service : list Event -> Request -> value + string.
Variable readAsDataURL : list Event -> File -> value + string.

(** The worlds App can be in between two handlers: a callback of the
    component [renderContent] shows fires, or the close button of the
    alert shown above it. *)
Inductive reachable : World State -> Prop :=
| reach_start : reachable start
| reach_step w w' :
    reachable w -> transition service readAsDataURL w w' -> reachable w'
| reach_close w :
    reachable w -> alert_shown (ui w) = true ->
    reachable (snd (onClose w)).

End Reach.

(** [handleConfirm] of ImageGenerator, with [onImageGenerated] bound to
    App's [handleImageGenerated] as [renderContent] wires it. *)
Definition handleConfirm (g : ImageGenerator.State)
  : M (World State) unit :=
match ImageGenerator.generatedImage g with
| Some img => if truthy img then handleImageGenerated img else ret tt
| None => ret tt
end.

End AppFlow.

(** *** ImageUploader (second component of src/components/Header.tsx) *)

Module ImageUploader.
Import JS Eff Gemini.

(** [files && files[0]]: the first file of a list that may be absent. *)
Definition first_file (files : option (list App.File)) : option App.File :=
match files with
| Some (f :: _) => Some f
| _ => None
end.

Section Component.
Variable readAsDataURL : list Event -> App.File -> value + string.

(** [handleFileChange], with [onImageUpload] bound to App's
    [handleImageUpload]. *)
Definition handleFileChange (files : option (list App.File))
  : M (World App.State) unit :=
match first_file files with
| Some f => App.handleImageUpload readAsDataURL f
| None => ret tt
end.

(** [handleDrop]: the component's own cell [isDragging] and the upload. *)
Definition handleDrop (isDragging : bool) (files : option (list App.File))
  : bool * M (World App.State) unit :=
let isDragging := false in
(isDragging,
 match first_file files with
 | Some f => App.handleImageUpload readAsDataURL f
 | None => ret tt
 end).

End Component.

(** The file reads logged. *)
Fixpoint reads (evs : list Event) : list string :=
match evs with
| [] => []
| ReadAsDataURL n _ :: evs' => n :: reads evs'
| _ :: evs' => reads evs'
end.

End ImageUploader.

(** *** The submit and confirm handlers around the crop helpers *)

Module CropHandlers.
Import JS.
Local Open Scope float_scope.

(** What a handler does to its surroundings.  The string the helper
    resolved with is passed on whatever it is; [onSubmit] declares it as
    image/png. *)
Inductive Event (Pixels : Type) : Type :=
| onSubmit (base64 : Canvas.DataURL Pixels) (mimeType : string)
| onCropComplete (croppedImageSrc : Canvas.DataURL Pixels)
| onClose
| ConsoleError (error : value).
Arguments onSubmit {Pixels} base64 mimeType.
Arguments onCropComplete {Pixels} croppedImageSrc.
Arguments onClose {Pixels}.
Arguments ConsoleError {Pixels} error.

Section Handlers.
Variable Pixels : Type.
Variable serialise : Canvas.t -> option Pixels.
Variable getContext2d : bool.
Variable InvalidStateError : value.
Variable devicePixelRatio : number.

(** [handleSubmit] of ImageEditor (part_000, lines 77-86). *)
Definition handleSubmit (isLoading : bool)
    (imgRef : option HTMLImageElement.t)
    (completedCrop : option PixelCrop.t) : list (Event Pixels) :=
match imgRef, completedCrop with
| Some image, Some crop =>
    if isLoading || PrimFloat.eqb (PixelCrop.width crop) 0 then []
    else
      match Promise.awaited
              (ImageEditor.getCroppedImg Pixels serialise getContext2d
                 InvalidStateError image crop) with
      | inr croppedImageBase64 => [onSubmit croppedImageBase64 "image/png"]
      | inl e => [ConsoleError e]
      end
| _, _ => []
end.

(** [handleConfirmCrop] of CropModal (part_002, lines 104-114). *)
Definition handleConfirmCrop (imgRef : option HTMLImageElement.t)
    (completedCrop : option PixelCrop.t) : list (Event Pixels) :=
match completedCrop, imgRef with
| Some crop, Some image =>
    if gt (PixelCrop.width crop) 0 && gt (PixelCrop.height crop) 0 then
      match Promise.awaited
              (CropModal.getCroppedImg Pixels serialise getContext2d
                 InvalidStateError devicePixelRatio image crop) with
      | inr croppedImageBase64 =>
          [onCropComplete croppedImageBase64; onClose]
      | inl e => [ConsoleError e]
      end
    else []
| _, _ => []
end.

End Handlers.

(** A crop of no height, and one of less than a pixel. *)
Definition flat_crop : PixelCrop.t :=
{| PixelCrop.x := 10; PixelCrop.y := 20;
   PixelCrop.width := 100; PixelCrop.height := 0 |}.

Definition tiny_crop : PixelCrop.t :=
{| PixelCrop.x := 10; PixelCrop.y := 20;
   PixelCrop.width := 0.5; PixelCrop.height := 0.5 |}.

End CropHandlers.

(** *** The filter controls of ImageControlPanel (part_003, lines 81-85
    and 267-282) *)

Module FilterControls.
Import JS ImageControlPanel.
Local Open Scope string_scope.
Local Open Scope float_scope.

Section Controls.
Variable toString : number -> string.

(** The click on the button of a filter. *)
Definition pick (f : Filter) : ActiveFilter :=
{| active_name := name f; intensity := 100 |}.

(** The intensity slider: [p => ({ ...p, intensity: v })]. *)
Definition slide (v : number) (p : ActiveFilter) : ActiveFilter :=
{| active_name := active_name p; intensity := v |}.

(** The effect on a new [imageSrc]. *)
Definition reset : ActiveFilter :=
{| active_name := "None"; intensity := 100 |}.

(** The slider is rendered when [activeFilter.name !== 'None']. *)
Definition slider_rendered (a : ActiveFilter) : bool :=
negb (String.eqb (active_name a) "None").

(** The values [activeFilter] can take: the initial one, and what the
    buttons (one per entry of the table), the slider and the effect make
    of a reachable one. *)
Inductive reachable : ActiveFilter -> Prop :=
| reach_initial : reachable {| active_name := "None"; intensity := 100 |}
| reach_pick a f :
    reachable a -> In f (filters toString) -> reachable (pick f)
| reach_slide a v :
    reachable a -> slider_rendered a = true -> reachable (slide v a)
| reach_reset a : reachable a -> reachable reset.

End Controls.

End FilterControls.

(** *** Reading the log of DownloadModal *)

Module DownloadLog.
Import JS DownloadModal.

(** The encoder requests, in order: type and quality argument. *)
Fixpoint encoder_requests {Canvas Blob : Type}
    (evs : list (Event Canvas Blob)) : list (MimeType * option number) :=
match evs with
| [] => []
| ToBlob mimeType quality _ :: evs' =>
    (mimeType, quality) :: encoder_requests evs'
| _ :: evs' => encoder_requests evs'
end.

(** The eighteen qualities the target-size export can ask for. *)
Definition quality_grid : list number := map encoded_quality (seq 0 18).

(** A browser whose encoder never gets below 90000 bytes, and a target of
    50 KB. *)
Definition target_50KB : number := 51200%float.

End DownloadLog.

(** *** Concrete states on which the handlers can be evaluated *)

Module Scenes.
Import JS Gemini.
Local Open Scope string_scope.

Definition photo_file : App.File :=
{| App.name := "holiday.jpg"; App.type := "image/jpeg" |}.

(** App after the upload of [photo_file] in the environment where every
    read succeeds: the step choice. *)
Definition after_upload : World App.State :=
snd (App.handleImageUpload App.readable photo_file App.start).

(** The same with a prompt typed in the step ai-edit. *)
Definition with_prompt_typed : World App.State :=
{| ui := App.with_prompt "add a wizard hat"
           (App.with_editingStep App.ai_edit (ui after_upload));
   log := log after_upload |}.

Definition cropped : App.ImageData :=
{| App.data_base64 := "data:image/png;base64,QUJD";
   App.data_mimeType := "image/png" |}.

(** App after the submission of [cropped] with that prompt, answered by
    the service: the step studio with an edited image. *)
Definition after_edit : World App.State :=
snd (App.handleSubmitEdit App.online cropped with_prompt_typed).

(** App back at the step choice with the prompt still typed. *)
Definition back_at_choice : World App.State :=
snd (App.handler App.online App.readable App.ImageEditor App.onBack
       with_prompt_typed).

(** ImageGenerator with a prompt and an image on display. *)
Definition generator_with_image : World ImageGenerator.State :=
{| ui := {| ImageGenerator.prompt := "a raccoon in a library";
            ImageGenerator.aspectRatio := r1_1;
            ImageGenerator.isLoading := false;
            ImageGenerator.isUpscaling := false;
            ImageGenerator.error := None;
            ImageGenerator.generatedImage := Some "iVBORw0KGgo=" |};
   log := [] |}.

End Scenes.

(** *** The target-size controls of DownloadModal (lines 130-163) *)

Module DownloadForm.
Import JS DownloadModal.
Local Open Scope float_scope.

(** The checkbox: [p => ({ ...p, isEnabled: checked })]. *)
Definition setIsEnabled (checked : bool) (p : TargetSize) : TargetSize :=
{| isEnabled := checked; size := size p; unit_ := unit_ p |}.

(** The number input: [p => ({ ...p, size: Math.max(1, v) })], where [v]
    is the number [+e.target.value]. *)
Definition setSize (v : number) (p : TargetSize) : TargetSize :=
{| isEnabled := isEnabled p; size := Math_max 1 v; unit_ := unit_ p |}.

(** The select: [p => ({ ...p, unit: value })]. *)
Definition setUnit (u : SizeUnit) (p : TargetSize) : TargetSize :=
{| isEnabled := isEnabled p; size := size p; unit_ := u |}.

(** The values of the cell [targetSize] when the input never yields
    NaN. *)
Inductive reachable : TargetSize -> Prop :=
| reach_initial fileName : reachable (targetSize (initialState fileName))
| reach_enabled checked p : reachable p -> reachable (setIsEnabled checked p)
| reach_size v p :
    reachable p -> is_nan v = false -> reachable (setSize v p)
| reach_unit u p : reachable p -> reachable (setUnit u p).

End DownloadForm.

(** * Properties *)

(** ** The target-size loop of DownloadModal *)

Section DownloadModalLoop.
Import JS Eff DownloadModal.
Open Scope float_scope.

Variables Canvas Blob : Type.
Variable blob_size : Blob -> number.
Variable canvas_toBlob :
  list (Event Canvas Blob) -> Canvas -> MimeType -> option number
  -> option Blob.

Local Abbreviation World := (World Canvas Blob).
Local Abbreviation loop := (reduce_quality blob_size canvas_toBlob).
Local Abbreviation export := (target_size_export blob_size canvas_toBlob).

Lemma quality_above_floor k :
  (k < 17)%nat -> gt (quality_at k) 0.1 = true.
Proof.
  intros H.
  do 17 (destruct k as [|k]; [vm_compute; reflexivity|]).
  lia.
Qed.

Lemma quality_at_floor : gt (quality_at 17) 0.1 = false.
Proof. vm_compute. reflexivity. Qed.

Lemma encoded_quality_in_range k :
  (k <= 17)%nat -> in_quality_range (encoded_quality k) = true.
Proof.
  intros H.
  do 18 (destruct k as [|k]; [vm_compute; reflexivity|]).
  lia.
Qed.

Lemma getBlob_run canvas mimeType quality (w : World) :
  getBlob canvas_toBlob canvas mimeType quality w =
  let answer := canvas_toBlob (log w) canvas mimeType quality in
  (match answer with
   | Some blob => Returned blob
   | None => Thrown getBlob_failed
   end, logged w [ToBlob mimeType quality answer]).
Proof.
  unfold getBlob, bind, get, emit, modify, logged; cbn.
  destruct (canvas_toBlob (log w) canvas mimeType quality); reflexivity.
Qed.

Lemma logged_logged (w : World) evs evs' :
  logged (logged w evs) evs' = logged w (evs ++ evs').
Proof. unfold logged; cbn. now rewrite <- app_assoc. Qed.

Lemma logged_nil (w : World) : logged w [] = w.
Proof. destruct w; unfold logged; cbn. now rewrite app_nil_r. Qed.

(** The loop entered at its [k]-th test with enough fuel left follows
    [scan] and makes at most [17 - k] further encoder calls. *)
Lemma reduce_quality_scan canvas targetBytes :
  forall fuel k blob (w : World),
    (k <= 17)%nat -> (17 - k <= fuel)%nat ->
    exists evs r,
      loop fuel canvas targetBytes blob (quality_at k) w = (r, logged w evs)
      /\ scan blob_size targetBytes k blob evs r
      /\ (List.length evs <= 17 - k)%nat.
Proof.
  induction fuel as [|fuel IH]; intros k blob w Hk Hfuel.
  - assert (k = 17%nat) by lia; subst k.
    exists [], (Returned (blob, quality_at 17)).
    assert (Hg : over_target blob_size blob targetBytes (quality_at 17) = false).
    { unfold over_target. rewrite quality_at_floor. apply andb_false_r. }
    cbn [reduce_quality]. rewrite Hg. rewrite logged_nil.
    repeat split; [now constructor | cbn; lia].
  - cbn [reduce_quality].
    destruct (over_target blob_size blob targetBytes (quality_at k)) eqn:Hg.
    + assert (Hlt : (k < 17)%nat).
      { destruct (Nat.eq_dec k 17) as [->|]; [|lia].
        unfold over_target in Hg. rewrite quality_at_floor in Hg.
        rewrite andb_false_r in Hg. discriminate. }
      unfold bind. rewrite getBlob_run. cbv zeta.
      destruct (canvas_toBlob (log w) canvas image_jpeg
                  (Some (Math_max 0.1 (quality_at k - 0.05)))) as [blob'|].
      * destruct (IH (S k) blob'
                    (logged w [ToBlob image_jpeg
                       (Some (Math_max 0.1 (quality_at k - 0.05)))
                       (Some blob')])) as (evs & r & Hrun & Hscan & Hlen);
          [lia | lia |].
        change (quality_at (S k)) with (quality_at k - 0.05) in Hrun.
        rewrite Hrun, logged_logged.
        eexists; eexists; repeat split;
          [now apply scan_next | cbn [List.length List.app]; lia].
      * eexists; eexists; repeat split;
          [now apply scan_reject | cbn [List.length]; lia].
    + exists [], (Returned (blob, quality_at k)).
      unfold ret. rewrite logged_nil.
      repeat split; [now constructor | cbn; lia].
Qed.

Lemma since_log (w w' : World) evs :
  log w' = (log w ++ evs)%list -> since w w' = evs.
Proof.
  intros H. unfold since. rewrite H.
  rewrite skipn_app, skipn_all, Nat.sub_diag. reflexivity.
Qed.

Lemma since_logged (w : World) evs : since w (logged w evs) = evs.
Proof. apply since_log. reflexivity. Qed.

Lemma scan_never_out_of_fuel targetBytes k blob
    (evs : list (Event Canvas Blob)) r :
  scan blob_size targetBytes k blob evs r -> r <> OutOfFuel.
Proof. induction 1; try assumption; discriminate. Qed.

Lemma scan_returned targetBytes k blob
    (evs : list (Event Canvas Blob)) blob' quality :
  scan blob_size targetBytes k blob evs (Returned (blob', quality)) ->
  quality = quality_at (k + List.length evs)
  /\ over_target blob_size blob' targetBytes quality = false.
Proof.
  intros H. remember (Returned (blob', quality)) as r eqn:Er.
  induction H as [k blob Hg | k blob Hg | k blob b1 evs r Hg Hs IH].
  - injection Er as <- <-. cbn [List.length]. rewrite Nat.add_0_r.
    split; [reflexivity | assumption].
  - discriminate Er.
  - destruct (IH Er) as [-> Hg']. cbn [List.length].
    rewrite Nat.add_succ_r. split; [reflexivity | assumption].
Qed.

Lemma over_target_below_floor targetBytes k blob :
  (k <= 17)%nat ->
  over_target blob_size blob targetBytes (quality_at k) = true ->
  (k < 17)%nat.
Proof.
  intros Hk Hg. destruct (Nat.eq_dec k 17) as [->|]; [|lia].
  unfold over_target in Hg. rewrite quality_at_floor, andb_false_r in Hg.
  discriminate.
Qed.

Lemma scan_qualities targetBytes k blob
    (evs : list (Event Canvas Blob)) r :
  scan blob_size targetBytes k blob evs r -> (k <= 17)%nat ->
  Forall (fun q => (exists q', q = Math_max 0.1 q')
                   /\ in_quality_range q = true)
         (encoder_qualities evs).
Proof.
  induction 1 as [k blob Hg | k blob Hg | k blob blob' evs r Hg Hs IH];
    intros Hk; cbn [encoder_qualities].
  - constructor.
  - pose proof (over_target_below_floor _ _ _ Hk Hg) as Hlt.
    constructor; [|constructor]. split; [eauto|].
    apply (encoded_quality_in_range (S k)). lia.
  - pose proof (over_target_below_floor _ _ _ Hk Hg) as Hlt.
    constructor; [|apply IH; lia]. split; [eauto|].
    apply (encoded_quality_in_range (S k)). lia.
Qed.

(** The shape of every run of the target-size branch with enough fuel. *)
Lemma target_size_export_run canvas targetBytes fuel (w : World) :
  (17 <= fuel)%nat ->
  exists evs r,
    export fuel canvas targetBytes w = (r, logged w evs)
    /\ (List.length evs <= 18)%nat
    /\ ((evs = [ToBlob image_jpeg (Some 0.95) None]
         /\ r = Thrown getBlob_failed)
        \/ (exists blob0 evs',
              evs = ToBlob image_jpeg (Some 0.95) (Some blob0) :: evs'
              /\ scan blob_size targetBytes 0 blob0 evs' r)).
Proof.
  intros Hfuel.
  unfold target_size_export, bind. rewrite getBlob_run. cbv zeta.
  destruct (canvas_toBlob (log w) canvas image_jpeg (Some 0.95))
    as [blob0|].
  - destruct (reduce_quality_scan canvas targetBytes fuel 0 blob0
                (logged w [ToBlob image_jpeg (Some 0.95) (Some blob0)]))
      as (evs & r & Hrun & Hscan & Hlen); [lia | lia |].
    change (quality_at 0) with 0.95 in Hrun.
    rewrite Hrun, logged_logged.
    eexists; eexists; split; [reflexivity|].
    split; [cbn [List.length List.app]; lia|].
    right. exists blob0, evs. split; [reflexivity | assumption].
  - eexists; eexists; split; [reflexivity|].
    split; [cbn; lia|]. left. split; reflexivity.
Qed.

(** C2: the target-size export starts at quality 0.95, every iteration of
    its loop executes [quality -= 0.05] once and encodes once, the loop
    leaves at the first test where the blob is not larger than the target
    or the quality is not greater than 0.1, and it always terminates: 17
    units of fuel are never exhausted and at most 18 encodings are made. *)
Theorem target_size_loop_is_linear_and_terminates
    canvas targetBytes fuel (w : World) :
  (17 <= fuel)%nat ->
  quality_at 0 = 0.95
  /\ (forall k, quality_at (S k) = quality_at k - 0.05)
  /\ exists evs r,
       export fuel canvas targetBytes w = (r, logged w evs)
       /\ r <> OutOfFuel
       /\ (List.length evs <= 18)%nat
       /\ ((evs = [ToBlob image_jpeg (Some 0.95) None]
            /\ r = Thrown getBlob_failed)
           \/ (exists blob0 evs',
                 evs = ToBlob image_jpeg (Some 0.95) (Some blob0) :: evs'
                 /\ scan blob_size targetBytes 0 blob0 evs' r))
       /\ (forall blob quality,
              r = Returned (blob, quality) ->
              quality = quality_at (List.length evs - 1)
              /\ (gt (blob_size blob) targetBytes = false
                  \/ gt quality 0.1 = false)).
Proof.
  intros Hfuel. split; [reflexivity|]. split; [reflexivity|].
  destruct (target_size_export_run canvas targetBytes fuel w Hfuel)
    as (evs & r & Hrun & Hlen & Hshape).
  exists evs, r.
  split; [assumption|]. split.
  { destruct Hshape as [[_ ->] | (blob0 & evs' & _ & Hscan)].
    - discriminate.
    - eapply scan_never_out_of_fuel; eassumption. }
  split; [assumption|]. split; [assumption|].
  intros blob quality ->.
  destruct Hshape as [[_ Hr] | (blob0 & evs' & -> & Hscan)];
    [discriminate Hr|].
  destruct (scan_returned _ _ _ _ _ _ Hscan) as [-> Hg].
  split.
  - cbn [List.length]. f_equal. lia.
  - unfold over_target in Hg. apply andb_false_iff in Hg. exact Hg.
Qed.

(** C9: every quality the target-size export hands to the encoder lies in
    [0.1, 0.95]: the first is 0.95 and each later one is of the form
    [Math.max(0.1, _)]. *)
Theorem encoder_quality_within_bounds canvas targetBytes fuel (w : World) :
  (17 <= fuel)%nat ->
  let qs :=
    encoder_qualities (since w (snd (export fuel canvas targetBytes w))) in
  (exists rest,
      qs = 0.95 :: rest
      /\ Forall (fun q => exists q', q = Math_max 0.1 q') rest)
  /\ Forall (fun q => in_quality_range q = true) qs.
Proof.
  intros Hfuel.
  destruct (target_size_export_run canvas targetBytes fuel w Hfuel)
    as (evs & r & Hrun & _ & [[-> ->] | (blob0 & evs' & -> & Hscan)]).
  - rewrite Hrun. cbn [snd]. rewrite since_logged.
    cbn [encoder_qualities]. split.
    + exists []. split; [reflexivity | constructor].
    + constructor; [vm_compute; reflexivity | constructor].
  - rewrite Hrun. cbn [snd]. rewrite since_logged.
    cbn [encoder_qualities].
    pose proof (scan_qualities _ _ _ _ _ Hscan (Nat.le_0_l 17)) as Hq.
    split.
    + eexists. split; [reflexivity|].
      eapply Forall_impl; [|exact Hq]. intros q [Hm _]. exact Hm.
    + constructor; [vm_compute; reflexivity|].
      eapply Forall_impl; [|exact Hq]. intros q [_ Hr]. exact Hr.
Qed.

Lemma find_seq_bounds (f : nat -> bool) k d j :
  find f (seq k d) = Some j -> (k <= j < k + d)%nat.
Proof.
  intros H. apply find_some in H. destruct H as [H _].
  apply in_seq in H. exact H.
Qed.

Section DeterministicEncoder.
Variable encode : number -> Blob.
Variable canvas : Canvas.
Variable targetBytes : number.
Hypothesis encoder_is_encode :
  forall l q, canvas_toBlob l canvas image_jpeg (Some q) = Some (encode q).

Let fits (k : nat) : bool :=
  negb (gt (blob_size (encode (encoded_quality k))) targetBytes).
Let call (k : nat) : Event Canvas Blob :=
  ToBlob image_jpeg (Some (encoded_quality k))
         (Some (encode (encoded_quality k))).
Let first_from (k : nat) : nat :=
  match find fits (seq k (17 - k)) with
  | Some j => j
  | None => 17%nat
  end.

Lemma first_from_ge k : (k <= 17)%nat -> (k <= first_from k)%nat.
Proof.
  intros Hk. unfold first_from.
  destruct (find fits (seq k (17 - k))) as [j|] eqn:E; [|exact Hk].
  apply find_seq_bounds in E. lia.
Qed.

Lemma first_from_step k :
  (k < 17)%nat ->
  first_from k = if fits k then k else first_from (S k).
Proof.
  intros Hk. unfold first_from.
  replace (17 - k)%nat with (S (17 - S k)) by lia.
  cbn [seq find]. destruct (fits k); reflexivity.
Qed.

Lemma reduce_quality_first_fit :
  forall fuel k (w : World),
    (k <= 17)%nat -> (17 - k <= fuel)%nat ->
    loop fuel canvas targetBytes (encode (encoded_quality k))
         (quality_at k) w
    = (Returned (encode (encoded_quality (first_from k)),
                 quality_at (first_from k)),
       logged w (map call (seq (S k) (first_from k - k)))).
Proof.
  induction fuel as [|fuel IH]; intros k w Hk Hfuel.
  - assert (k = 17%nat) by lia; subst k.
    cbn [reduce_quality]. unfold over_target.
    rewrite quality_at_floor, andb_false_r.
    change (first_from 17) with 17%nat. cbn [Nat.sub seq map].
    unfold ret. now rewrite logged_nil.
  - cbn [reduce_quality]. unfold over_target.
    destruct (Nat.eq_dec k 17) as [->|Hne].
    + rewrite quality_at_floor, andb_false_r.
      change (first_from 17) with 17%nat.
      rewrite Nat.sub_diag. cbn [seq map].
      unfold ret. now rewrite logged_nil.
    + rewrite (quality_above_floor k) by lia. rewrite andb_true_r.
      rewrite (first_from_step k) by lia.
      destruct (fits k) eqn:Hfit; unfold fits in Hfit;
        [apply negb_true_iff in Hfit | apply negb_false_iff in Hfit];
        rewrite Hfit.
      { rewrite Nat.sub_diag. cbn [seq map].
        unfold ret. now rewrite logged_nil. }
      { unfold bind. rewrite getBlob_run. cbv zeta.
        change (Math_max 0.1 (quality_at k - 0.05))
          with (encoded_quality (S k)).
        rewrite encoder_is_encode.
        change (quality_at k - 0.05) with (quality_at (S k)).
        rewrite IH by lia. rewrite logged_logged.
        pose proof (first_from_ge (S k) ltac:(lia)) as Hge.
        replace (first_from (S k) - k)%nat
          with (S (first_from (S k) - S k)) by lia.
        reflexivity. }
Qed.

End DeterministicEncoder.

(** C1 (amended): with an encoder that is a function of the quality, the
    target-size export is a linear descending scan of the quality grid:
    it encodes at the grid values of index 0, 1, 2, ... in this order,
    stops at the first index whose blob is not larger than the target (at
    index 17, quality 0.1, if there is none), and exports that blob. *)
Theorem target_size_export_is_first_fit_scan
    (encode : number -> Blob) canvas targetBytes fuel (w : World) :
  (17 <= fuel)%nat ->
  (forall l q,
      canvas_toBlob l canvas image_jpeg (Some q) = Some (encode q)) ->
  let fits k :=
    negb (gt (blob_size (encode (encoded_quality k))) targetBytes) in
  let n := first_fit fits in
  export fuel canvas targetBytes w
  = (Returned (encode (encoded_quality n), quality_at n),
     logged w
       (map (fun k => ToBlob image_jpeg (Some (encoded_quality k))
                             (Some (encode (encoded_quality k))))
            (seq 0 (S n)))).
Proof.
  intros Hfuel Henc fits n.
  unfold target_size_export, bind. rewrite getBlob_run. cbv zeta.
  rewrite Henc.
  etransitivity.
  - apply (reduce_quality_first_fit encode canvas targetBytes Henc fuel 0);
      lia.
  - rewrite logged_logged, !Nat.sub_0_r. reflexivity.
Qed.

(** *** Failure of the export *)

Variable getCanvasPromise : list (Event Canvas Blob) -> value + Canvas.

Local Abbreviation handleDownload :=
  (handleDownload blob_size getCanvasPromise canvas_toBlob).

(** A computation that only asks the browser and does not touch the
    state cells. *)
Let requests_only {A : Type} (m : M World A) : Prop :=
  forall w, exists evs,
    snd (m w) = logged w evs /\ well_logged (fst (m w)) evs.

Lemma requests_only_ret {A : Type} (a : A) : requests_only (ret a).
Proof.
  intros w. exists []. cbn. rewrite logged_nil. split; [reflexivity|].
  constructor.
Qed.

Lemma requests_only_out_of_fuel {A : Type} :
  requests_only (@out_of_fuel World A).
Proof.
  intros w. exists []. cbn. rewrite logged_nil. split; [reflexivity|].
  constructor.
Qed.

Lemma requests_only_bind {A B : Type} (m : M World A) (k : A -> M World B) :
  requests_only m -> (forall a, requests_only (k a)) ->
  requests_only (bind m k).
Proof.
  intros Hm Hk w. destruct (Hm w) as (evs & Hw & Hl).
  unfold bind. destruct (m w) as [[a|e|] w1]; cbn [fst snd] in *; subst w1.
  - destruct (Hk a (logged w evs)) as (evs' & Hw' & Hl').
    exists (evs ++ evs')%list. rewrite Hw', logged_logged.
    split; [reflexivity|].
    destruct (fst (k a (logged w evs))) as [b|e|]; cbn in *.
    + apply Forall_app; split; assumption.
    + destruct Hl' as (pre & ev & -> & Hpre & Hev).
      exists (evs ++ pre)%list, ev. rewrite app_assoc.
      repeat split; [|assumption]. apply Forall_app; split; assumption.
    + apply Forall_app; split; assumption.
  - exists evs. split; [reflexivity | assumption].
  - exists evs. split; [reflexivity | assumption].
Qed.

Lemma requests_only_getBlob canvas mimeType quality :
  requests_only (getBlob canvas_toBlob canvas mimeType quality).
Proof.
  intros w. rewrite getBlob_run. cbv zeta. eexists. split; [reflexivity|].
  destruct (canvas_toBlob (log w) canvas mimeType quality); cbn.
  - constructor; [split; reflexivity | constructor].
  - exists [], (ToBlob mimeType quality None).
    repeat split; constructor.
Qed.

Lemma requests_only_awaitCanvas :
  requests_only (awaitCanvas getCanvasPromise).
Proof.
  intros w. unfold awaitCanvas, bind, get, emit, modify, await; cbn.
  destruct (getCanvasPromise (log w)) as [e|canvas]; cbn.
  - exists [GetCanvas (inl e)]. split; [reflexivity|].
    exists [], (GetCanvas (inl e)). repeat split; constructor.
  - exists [GetCanvas (inr canvas)]. split; [reflexivity|].
    constructor; [split; reflexivity | constructor].
Qed.

Lemma requests_only_reduce_quality canvas targetBytes :
  forall fuel blob quality,
    requests_only (loop fuel canvas targetBytes blob quality).
Proof.
  induction fuel as [|fuel IH]; intros blob quality; cbn [reduce_quality];
    destruct (over_target blob_size blob targetBytes quality).
  - apply requests_only_out_of_fuel.
  - apply requests_only_ret.
  - apply requests_only_bind; [apply requests_only_getBlob|].
    intros blob'. apply IH.
  - apply requests_only_ret.
Qed.

Lemma requests_only_encode_for_format s fuel canvas :
  requests_only (encode_for_format blob_size canvas_toBlob s fuel canvas).
Proof.
  unfold encode_for_format. destruct (format s).
  - apply requests_only_getBlob.
  - destruct (isEnabled (targetSize s)).
    + apply requests_only_bind.
      * unfold target_size_export. apply requests_only_bind;
          [apply requests_only_getBlob|].
        intros blob. apply requests_only_reduce_quality.
      * intros r. apply requests_only_ret.
    + apply requests_only_getBlob.
Qed.

(** [handleDownload], outcome by outcome of its rendering and encoding. *)
Lemma handleDownload_run fuel (w : World) :
  handleDownload fuel w =
  let s := ui w in
  let w1 : World :=
    {| ui := with_downloadError None (with_isProcessing true s);
       log := log w |} in
  match bind (awaitCanvas getCanvasPromise)
             (encode_for_format blob_size canvas_toBlob s fuel) w1 with
  | (Returned blob, w2) =>
      (Returned tt,
       {| ui := with_isProcessing false (ui w2);
          log := (log w2 ++
                  [CreateObjectURL blob;
                   LinkClick (trim (customFilename s) ++ "."
                              ++ format_toLowerCase (format s))%string;
                   RevokeObjectURL; OnClose])%list |})
  | (Thrown e, w2) =>
      (Returned tt,
       {| ui := with_isProcessing false
                  (with_downloadError
                     (Some (message_or unknown_error e)) (ui w2));
          log := (log w2 ++ [ConsoleError e])%list |})
  | (OutOfFuel, w2) => (OutOfFuel, w2)
  end.
Proof.
  unfold DownloadModal.handleDownload, try_catch_finally, try_finally,
    try_catch, save_blob, setIsProcessing, setDownloadError, emit,
    bind, get, modify.
  cbn [ui log]. cbv zeta.
  match goal with
  | |- context [awaitCanvas getCanvasPromise ?w1] =>
      destruct (awaitCanvas getCanvasPromise w1) as [[canvas|e|] w2]
  end; cbn [ui log]; [|reflexivity|reflexivity].
  destruct (encode_for_format blob_size canvas_toBlob (ui w) fuel canvas w2)
    as [[blob|e|] w3]; cbn [ui log]; try reflexivity.
  rewrite <- !app_assoc. reflexivity.
Qed.

Lemma answered_not_failure (evs : list (Event Canvas Blob)) :
  Forall answered evs -> ~ Exists (fun ev => is_failure ev = true) evs.
Proof.
  intros Hall Hex. apply Exists_exists in Hex. destruct Hex as (ev & Hin & Hf).
  rewrite Forall_forall in Hall. destruct (Hall ev Hin) as [_ Hnf].
  congruence.
Qed.

Lemma answered_not_download (ev : Event Canvas Blob) :
  answered ev -> is_download ev = false.
Proof. intros [Hr _]. destruct ev; cbn in *; congruence. Qed.

Lemma failure_not_download (ev : Event Canvas Blob) e :
  failure_value ev = Some e -> is_download ev = false.
Proof. destruct ev; cbn; congruence. Qed.

(** C4: when the rendering of the canvas or a conversion to a blob fails
    during [handleDownload], the handler itself returns normally (the one
    [catch] takes the error), [downloadError] holds the error's message
    and the modal shows it, the failed request is the last request made
    (no retry, only [console.error] follows), nothing is downloaded, and
    [isProcessing] is false again. *)
Theorem export_failure_is_caught_once fuel (w : World) :
  let r := fst (handleDownload fuel w) in
  let w' := snd (handleDownload fuel w) in
  Exists (fun ev => is_failure ev = true) (since w w') ->
  r = Returned tt
  /\ isProcessing (ui w') = false
  /\ Forall (fun ev => is_download ev = false) (since w w')
  /\ exists pre ev e,
       since w w' = (pre ++ [ev; ConsoleError e])%list
       /\ Forall answered pre
       /\ failure_value ev = Some e
       /\ downloadError (ui w') = Some (message_or unknown_error e)
       /\ (message_or unknown_error e <> ""%string ->
           rendered_error (ui w') = Some (message_or unknown_error e)).
Proof.
  cbv zeta. rewrite handleDownload_run. cbv zeta.
  set (w1 := {| ui := with_downloadError None
                        (with_isProcessing true (ui w));
                log := log w |} : World).
  assert (Hreq : requests_only
            (bind (awaitCanvas getCanvasPromise)
                  (encode_for_format blob_size canvas_toBlob (ui w) fuel))).
  { apply requests_only_bind; [apply requests_only_awaitCanvas|].
    intros canvas. apply requests_only_encode_for_format. }
  destruct (Hreq w1) as (evs & Hw2 & Hl).
  destruct (bind (awaitCanvas getCanvasPromise)
              (encode_for_format blob_size canvas_toBlob (ui w) fuel) w1)
    as [[blob|e|] w2]; cbn [fst snd] in *; subst w2; cbn [well_logged] in Hl.
  - intros Hex. exfalso.
    erewrite since_log in Hex
      by (cbn [log logged w1]; rewrite <- app_assoc; reflexivity).
    apply Exists_app in Hex. destruct Hex as [Hex|Hex].
    + exact (answered_not_failure _ Hl Hex).
    + repeat (apply Exists_cons in Hex; destruct Hex as [Hex|Hex];
              [discriminate Hex|]).
      inversion Hex.
  - destruct Hl as (pre & ev & -> & Hpre & Hev).
    rewrite (since_log w _ (pre ++ [ev; ConsoleError e]) ).
    2:{ cbn [log logged w1]. now rewrite <- !app_assoc. }
    intros _. split; [reflexivity|]. split; [reflexivity|]. split.
    + apply Forall_app. split.
      * eapply Forall_impl; [|exact Hpre].
        intros ev'. apply answered_not_download.
      * constructor; [eapply failure_not_download; eassumption|].
        constructor; [reflexivity | constructor].
    + exists pre, ev, e. repeat split; try assumption.
      intros Hne. unfold rendered_error. cbn.
      destruct (message_or unknown_error e); [congruence | reflexivity].
  - intros Hex. exfalso.
    change (since w (logged w1 evs)) with (since w1 (logged w1 evs)) in Hex.
    rewrite since_logged in Hex.
    exact (answered_not_failure _ Hl Hex).
Qed.

End DownloadModalLoop.

(** C4 on a browser whose canvas promise rejects. *)
Lemma export_failure_is_caught_once_witness :
  let run :=
    DownloadModal.handleDownload (fun b => b)
      DownloadModal.Demo.getCanvas_rejecting DownloadModal.Demo.toBlob
      17 DownloadModal.Demo.w0 in
  Exists (fun ev => DownloadModal.is_failure ev = true)
         (DownloadModal.since DownloadModal.Demo.w0 (snd run))
  /\ fst run = Eff.Returned tt
  /\ DownloadModal.isProcessing (DownloadModal.ui (snd run)) = false
  /\ Forall (fun ev => DownloadModal.is_download ev = false)
            (DownloadModal.since DownloadModal.Demo.w0 (snd run)).
Proof.
  cbv zeta.
  assert (H : Exists (fun ev => DownloadModal.is_failure ev = true)
                (DownloadModal.since DownloadModal.Demo.w0
                   (snd (DownloadModal.handleDownload (fun b => b)
                           DownloadModal.Demo.getCanvas_rejecting
                           DownloadModal.Demo.toBlob 17
                           DownloadModal.Demo.w0)))).
  { vm_compute. constructor. reflexivity. }
  split; [exact H|].
  destruct (export_failure_is_caught_once _ _ (fun b => b)
              DownloadModal.Demo.toBlob
              DownloadModal.Demo.getCanvas_rejecting
              17 DownloadModal.Demo.w0 H) as (Hr & Hp & Hd & _).
  repeat split; assumption.
Defined.

(** C2 on the concrete browser, with exactly 17 units of fuel. *)
Lemma target_size_loop_is_linear_and_terminates_witness :
  (17 <= 17)%nat
  /\ exists evs r,
       DownloadModal.target_size_export (fun b => b)
         DownloadModal.Demo.toBlob 17 tt 102400%float DownloadModal.Demo.w0
       = (r, DownloadModal.logged DownloadModal.Demo.w0 evs)
       /\ r <> Eff.OutOfFuel
       /\ (List.length evs <= 18)%nat.
Proof.
  split; [apply le_n|].
  destruct (target_size_loop_is_linear_and_terminates
              unit JS.number (fun b => b) DownloadModal.Demo.toBlob
              tt 102400%float 17 DownloadModal.Demo.w0 (le_n 17))
    as (_ & _ & evs & r & Hrun & Hr & Hlen & _ & _).
  exists evs, r. repeat split; assumption.
Defined.

(** C9 on the concrete browser. *)
Lemma encoder_quality_within_bounds_witness :
  (17 <= 17)%nat
  /\ Forall (fun q => DownloadModal.in_quality_range q = true)
       (DownloadModal.encoder_qualities
          (DownloadModal.since DownloadModal.Demo.w0
             (snd (DownloadModal.target_size_export (fun b => b)
                     DownloadModal.Demo.toBlob 17 tt 102400%float
                     DownloadModal.Demo.w0)))).
Proof.
  split; [apply le_n|].
  exact (proj2 (encoder_quality_within_bounds
                  unit JS.number (fun b => b) DownloadModal.Demo.toBlob
                  tt 102400%float 17 DownloadModal.Demo.w0 (le_n 17))).
Defined.

(** C1 (amended) on the concrete browser: the export stops at index 9,
    quality 0.5, the first whose 90000 bytes fit 100 KB. *)
Lemma target_size_export_is_first_fit_scan_witness :
  (17 <= 17)%nat
  /\ (forall l q,
        DownloadModal.Demo.toBlob l tt DownloadModal.image_jpeg (Some q)
        = Some (DownloadModal.Demo.encode q))
  /\ fst (DownloadModal.target_size_export (fun b => b)
            DownloadModal.Demo.toBlob 17 tt 102400%float
            DownloadModal.Demo.w0)
     = Eff.Returned
         (DownloadModal.Demo.encode (DownloadModal.encoded_quality 9),
          DownloadModal.quality_at 9).
Proof.
  split; [apply le_n|]. split; [reflexivity|].
  pose proof (target_size_export_is_first_fit_scan
                unit JS.number (fun b => b) DownloadModal.Demo.toBlob
                DownloadModal.Demo.encode tt 102400%float 17
                DownloadModal.Demo.w0 (le_n 17) (fun l q => eq_refl)) as H.
  cbv zeta in H. rewrite H. vm_compute. reflexivity.
Defined.

(** C1: on the demo browser with a 100 KB target the export probes the ten
    grid qualities of index 0 to 9 one after the other, whereas a binary
    search over the same grid probes the indices 8, 13, 11, 10 and 9: the
    export does not proceed by binary search. *)
Lemma target_size_export_is_not_a_binary_search :
  let w' :=
    snd (DownloadModal.target_size_export (fun b => b)
           DownloadModal.Demo.toBlob 17 tt
           (DownloadModal.targetBytes_of
              (DownloadModal.targetSize DownloadModal.Demo.jpeg_100KB))
           DownloadModal.Demo.w0) in
  let probed :=
    DownloadModal.encoder_qualities
      (DownloadModal.since DownloadModal.Demo.w0 w') in
  let bisected :=
    snd (DownloadModal.binary_search_quality DownloadModal.Demo.fits) in
  probed = map DownloadModal.encoded_quality (seq 0 10)
  /\ bisected = [8; 13; 11; 10; 9]%nat
  /\ probed <> map DownloadModal.encoded_quality bisected.
Proof.
  cbv zeta. split; [vm_compute; reflexivity|].
  split; [vm_compute; reflexivity|].
  intros H. apply (f_equal (@List.length _)) in H.
  vm_compute in H. discriminate H.
Qed.

(** ** The crop helpers *)

Section CanvasDimensions.
Import JS.
Open Scope Z_scope.

Lemma unsigned_long_range (v : number) :
  0 <= Canvas.unsigned_long v < 2 ^ 32.
Proof.
  unfold Canvas.unsigned_long.
  destruct (FloatOps.Prim2SF v); try (split; [reflexivity | reflexivity]).
  apply Z.mod_pos_bound. reflexivity.
Qed.

(** A dimension of a canvas is between 0 and 2147483647. *)
Lemma reflected_range (d : Z) (v : number) :
  0 <= d <= 2147483647 -> 0 <= Canvas.reflected d v <= 2147483647.
Proof.
  intros Hd. unfold Canvas.reflected.
  pose proof (unsigned_long_range v) as Hr.
  destruct (Z.leb_spec (Canvas.unsigned_long v) 2147483647); lia.
Qed.

(** The dimension assigned from a positive number below 2^31 is its
    integer part: with the number written as a fraction, [n <= v < n + 1]
    for the dimension [n]. *)
Lemma reflected_is_floor (d : Z) (v : number) (m : positive) (e : Z) :
  FloatOps.Prim2SF v = SpecFloat.S754_finite false m e ->
  Canvas.numerator m e < 2 ^ 31 * Canvas.denominator e ->
  Canvas.reflected d v * Canvas.denominator e <= Canvas.numerator m e
  /\ Canvas.numerator m e
     < (Canvas.reflected d v + 1) * Canvas.denominator e.
Proof.
  intros Hv. unfold Canvas.reflected, Canvas.unsigned_long.
  rewrite Hv. unfold Canvas.numerator, Canvas.denominator.
  destruct (Z.leb_spec 0 e) as [He|He].
  - rewrite Z.max_r by lia. rewrite (Z.max_l 0 (- e)) by lia.
    rewrite Z.shiftl_mul_pow2 by lia. change (2 ^ 0) with 1.
    intros Hlt.
    assert (Hpos : 0 < Z.pos m * 2 ^ e).
    { apply Z.mul_pos_pos; [reflexivity | apply Z.pow_pos_nonneg; lia]. }
    rewrite Z.mod_small by lia.
    destruct (Z.leb_spec (Z.pos m * 2 ^ e) 2147483647); lia.
  - rewrite Z.max_l by lia. rewrite (Z.max_r 0 (- e)) by lia.
    rewrite Z.shiftr_div_pow2 by lia. change (2 ^ 0) with 1.
    rewrite Z.mul_1_r. intros Hlt.
    assert (Hden : 0 < 2 ^ (- e)) by (apply Z.pow_pos_nonneg; lia).
    assert (Hq0 : 0 <= Z.pos m / 2 ^ (- e))
      by (apply Z.div_pos; lia).
    assert (Hq : Z.pos m / 2 ^ (- e) < 2 ^ 31)
      by (apply Z.div_lt_upper_bound; lia).
    rewrite Z.mod_small by lia.
    destruct (Z.leb_spec (Z.pos m / 2 ^ (- e)) 2147483647); [|lia].
    pose proof (Z.mul_div_le (Z.pos m) (2 ^ (- e)) Hden).
    pose proof (Z.mul_succ_div_gt (Z.pos m) (2 ^ (- e)) Hden).
    lia.
Qed.

(** What [toDataURL] returns: ["data:,"], or an image file of the type
    asked for with the dimensions of the canvas; the former whenever a
    dimension is zero. *)
Lemma toDataURL_cases (Pixels : Type) (serialise : Canvas.t -> option Pixels)
    (type : string) (c : Canvas.t) :
  (Canvas.toDataURL serialise type c = Canvas.no_pixels
   /\ (Canvas.width c = 0 \/ Canvas.height c = 0 \/ serialise c = None))
  \/ (exists pixels,
        Canvas.toDataURL serialise type c
        = Canvas.image_file type (Canvas.width c) (Canvas.height c) pixels
        /\ serialise c = Some pixels
        /\ Canvas.width c <> 0 /\ Canvas.height c <> 0).
Proof.
  unfold Canvas.toDataURL.
  destruct (Z.eqb_spec (Canvas.width c) 0) as [Hw|Hw]; cbn [orb];
    [left; tauto|].
  destruct (Z.eqb_spec (Canvas.height c) 0) as [Hh|Hh];
    [left; tauto|].
  destruct (serialise c) as [pixels|]; [|left; tauto].
  right. exists pixels. tauto.
Qed.

Lemma toDataURL_no_pixels (Pixels : Type)
    (serialise : Canvas.t -> option Pixels) (type : string) (c : Canvas.t) :
  Canvas.width c = 0 \/ Canvas.height c = 0 ->
  Canvas.toDataURL serialise type c = Canvas.no_pixels.
Proof.
  unfold Canvas.toDataURL. intros [H|H]; rewrite H; cbn [Z.eqb orb];
    [reflexivity|].
  rewrite orb_true_r. reflexivity.
Qed.

End CanvasDimensions.

Section Cropping.
Import JS.
Open Scope float_scope.

Variable Pixels : Type.
Variable serialise : Canvas.t -> option Pixels.
Variable InvalidStateError : value.

(** C7 (amended): for an image that has loaded, with a 2d context and a
    finite [devicePixelRatio], both helpers resolve with [canvas.toDataURL('image/png')] of a canvas
    on which the source region of origin [(crop.x * scaleX, crop.y *
    scaleY)] and size [(crop.width * scaleX, crop.height * scaleY)] was
    drawn onto the rectangle [(0, 0, crop.width, crop.height)], with
    [scaleX] and [scaleY] the natural dimensions of the image divided by
    the displayed ones.  The canvas of ImageEditor has the dimensions
    [crop.width] and [crop.height], the canvas of CropModal the dimensions
    [crop.width * devicePixelRatio] and [crop.height * devicePixelRatio]
    with the context scaled by [devicePixelRatio], each converted to the
    integer a canvas dimension is: between 0 and 2147483647, and the
    integer part of a positive number below 2^31.  The string returned is
    the data URL of a PNG of the dimensions of the canvas, or ["data:,"];
    it is ["data:,"] whenever a dimension of the canvas is 0. *)
Theorem crop_helpers_canvas_and_source_region
    (devicePixelRatio : number) (image : HTMLImageElement.t)
    (crop : PixelCrop.t) :
  HTMLImageElement.broken image = false ->
  is_finite devicePixelRatio = true ->
  let scaleX := HTMLImageElement.naturalWidth image
                / HTMLImageElement.width image in
  let scaleY := HTMLImageElement.naturalHeight image
                / HTMLImageElement.height image in
  let draw under smoothing :=
    {| Canvas.sx := PixelCrop.x crop * scaleX;
       Canvas.sy := PixelCrop.y crop * scaleY;
       Canvas.sw := PixelCrop.width crop * scaleX;
       Canvas.sh := PixelCrop.height crop * scaleY;
       Canvas.dx := 0; Canvas.dy := 0;
       Canvas.dw := PixelCrop.width crop;
       Canvas.dh := PixelCrop.height crop;
       Canvas.under := under; Canvas.smoothing := smoothing |} in
  let scaled : Canvas.Transform :=
    (devicePixelRatio, 0, 0, devicePixelRatio, 0, 0) in
  let editor_canvas :=
    {| Canvas.width := Canvas.reflected 300 (PixelCrop.width crop);
       Canvas.height := Canvas.reflected 150 (PixelCrop.height crop);
       Canvas.transform := Canvas.identity;
       Canvas.imageSmoothingQuality := Canvas.low;
       Canvas.drawn := [draw Canvas.identity Canvas.low] |} in
  let modal_canvas :=
    {| Canvas.width :=
         Canvas.reflected 300 (PixelCrop.width crop * devicePixelRatio);
       Canvas.height :=
         Canvas.reflected 150 (PixelCrop.height crop * devicePixelRatio);
       Canvas.transform := scaled;
       Canvas.imageSmoothingQuality := Canvas.high;
       Canvas.drawn := [draw scaled Canvas.high] |} in
  ImageEditor.getCroppedImg Pixels serialise true InvalidStateError
    image crop
  = Promise.resolved (Canvas.toDataURL serialise "image/png" editor_canvas)
  /\ CropModal.getCroppedImg Pixels serialise true InvalidStateError
       devicePixelRatio image crop
     = Promise.resolved
         (Canvas.toDataURL serialise "image/png" modal_canvas)
  /\ (forall c,
        Canvas.toDataURL serialise "image/png" c = Canvas.no_pixels
        \/ exists pixels,
             Canvas.toDataURL serialise "image/png" c
             = Canvas.image_file "image/png" (Canvas.width c)
                 (Canvas.height c) pixels
             /\ serialise c = Some pixels
             /\ Canvas.width c <> 0%Z /\ Canvas.height c <> 0%Z)
  /\ (forall c,
        Canvas.width c = 0%Z \/ Canvas.height c = 0%Z ->
        Canvas.toDataURL serialise "image/png" c = Canvas.no_pixels)
  /\ (forall c, In c [editor_canvas; modal_canvas] ->
        (0 <= Canvas.width c <= 2147483647)%Z
        /\ (0 <= Canvas.height c <= 2147483647)%Z)
  /\ (forall d v m e,
        FloatOps.Prim2SF v = SpecFloat.S754_finite false m e ->
        (Canvas.numerator m e < 2 ^ 31 * Canvas.denominator e)%Z ->
        (Canvas.reflected d v * Canvas.denominator e
         <= Canvas.numerator m e
         < (Canvas.reflected d v + 1) * Canvas.denominator e)%Z).
Proof.
  intros Hb Hf. cbv zeta.
  split.
  { unfold ImageEditor.getCroppedImg, ImageEditor.cropped_canvas,
      Canvas.drawImage. rewrite Hb. reflexivity. }
  split.
  { unfold CropModal.getCroppedImg, CropModal.cropped_canvas,
      Canvas.drawImage, Canvas.setTransform, Canvas.all_finite.
    rewrite Hb, Hf. reflexivity. }
  split.
  { intros c.
    destruct (toDataURL_cases Pixels serialise "image/png" c)
      as [[H _]|(pixels & H)]; [left; exact H | right; exists pixels; exact H]. }
  split; [intros c; apply toDataURL_no_pixels|].
  split.
  { intros c [<-|[<-|[]]]; cbn [Canvas.width Canvas.height];
      split; apply reflected_range; lia. }
  intros d v m e. apply reflected_is_floor.
Qed.

(** C8 (amended): the two helpers fail alike, rejecting with the same
    error when no 2d context is available and throwing the same exception
    for a broken image; otherwise both resolve with
    [toDataURL('image/png')] of their canvas after one [drawImage] with
    the same source and destination rectangles.  The canvas of ImageEditor
    has the dimensions of the crop and is drawn under the identity with
    the default smoothing quality; the canvas of CropModal has the
    dimensions of the crop multiplied by [devicePixelRatio] and is drawn
    with high smoothing quality under the scaling by [devicePixelRatio],
    provided this is finite; the dimensions are converted to integers as
    the canvas does. *)
Theorem crop_helpers_agree_up_to_pixel_ratio
    (devicePixelRatio : number) (image : HTMLImageElement.t)
    (crop : PixelCrop.t) :
  (ImageEditor.getCroppedImg Pixels serialise false InvalidStateError
     image crop
   = Promise.rejected Canvas.no_context
   /\ CropModal.getCroppedImg Pixels serialise false InvalidStateError
        devicePixelRatio image crop
      = Promise.rejected Canvas.no_context)
  /\ (HTMLImageElement.broken image = true ->
      ImageEditor.getCroppedImg Pixels serialise true InvalidStateError
        image crop
      = Promise.throws InvalidStateError
      /\ CropModal.getCroppedImg Pixels serialise true InvalidStateError
           devicePixelRatio image crop
         = Promise.throws InvalidStateError)
  /\ (HTMLImageElement.broken image = false ->
      exists c1 c2,
        ImageEditor.cropped_canvas true InvalidStateError image crop
        = Promise.resolved c1
        /\ CropModal.cropped_canvas true InvalidStateError
             devicePixelRatio image crop
           = Promise.resolved c2
        /\ ImageEditor.getCroppedImg Pixels serialise true
             InvalidStateError image crop
           = Promise.resolved (Canvas.toDataURL serialise "image/png" c1)
        /\ CropModal.getCroppedImg Pixels serialise true
             InvalidStateError devicePixelRatio image crop
           = Promise.resolved (Canvas.toDataURL serialise "image/png" c2)
        /\ map Canvas.geometry (Canvas.drawn c1)
           = map Canvas.geometry (Canvas.drawn c2)
        /\ List.length (Canvas.drawn c1) = 1%nat
        /\ Canvas.width c1 = Canvas.reflected 300 (PixelCrop.width crop)
        /\ Canvas.height c1 = Canvas.reflected 150 (PixelCrop.height crop)
        /\ Canvas.width c2
           = Canvas.reflected 300 (PixelCrop.width crop * devicePixelRatio)
        /\ Canvas.height c2
           = Canvas.reflected 150
               (PixelCrop.height crop * devicePixelRatio)
        /\ map Canvas.under (Canvas.drawn c1) = [Canvas.identity]
        /\ (is_finite devicePixelRatio = true ->
            map Canvas.under (Canvas.drawn c2)
            = [(devicePixelRatio, 0, 0, devicePixelRatio, 0, 0)])
        /\ map Canvas.smoothing (Canvas.drawn c1) = [Canvas.low]
        /\ map Canvas.smoothing (Canvas.drawn c2) = [Canvas.high]).
Proof.
  split; [split; reflexivity|].
  unfold ImageEditor.getCroppedImg, CropModal.getCroppedImg,
    ImageEditor.cropped_canvas, CropModal.cropped_canvas, Canvas.drawImage.
  split; intros Hb; rewrite Hb; cbn [negb].
  - split; reflexivity.
  - eexists; eexists.
    split; [reflexivity|]. split; [reflexivity|].
    unfold Canvas.setTransform, Canvas.all_finite.
    destruct (is_finite devicePixelRatio);
      repeat split; intros H; discriminate H.
Qed.

End Cropping.

(** C7 for a crop of 33 by 21 on a display with [devicePixelRatio = 1.5]:
    ImageEditor encodes a canvas of 33 by 21, CropModal one of 49 by 31
    (the products are 49.5 and 31.5). *)
Lemma crop_helpers_canvas_and_source_region_witness :
  HTMLImageElement.broken CropDemo.photo = false
  /\ is_finite 1.5%float = true
  /\ ImageEditor.getCroppedImg unit CropDemo.blank true
       CropDemo.InvalidStateError CropDemo.photo CropDemo.small_crop
     = Promise.resolved (Canvas.image_file "image/png" 33 21 tt)
  /\ CropModal.getCroppedImg unit CropDemo.blank true
       CropDemo.InvalidStateError 1.5%float CropDemo.photo
       CropDemo.small_crop
     = Promise.resolved (Canvas.image_file "image/png" 49 31 tt).
Proof.
  split; [reflexivity|]. split; [reflexivity|].
  destruct (crop_helpers_canvas_and_source_region unit CropDemo.blank
              CropDemo.InvalidStateError 1.5%float CropDemo.photo
              CropDemo.small_crop eq_refl eq_refl) as (He & Hm & _).
  split; [rewrite He | rewrite Hm]; vm_compute; reflexivity.
Defined.

(** C7: on a display with [devicePixelRatio = 2] the helper of CropModal
    turns the crop of 100 by 50 into an image of 200 by 100: the canvas
    does not have the width and height of the crop. *)
Lemma crop_modal_canvas_is_not_crop_sized :
  exists pixels,
    CropModal.getCroppedImg unit CropDemo.blank true
      CropDemo.InvalidStateError 2%float CropDemo.photo CropDemo.crop
    = Promise.resolved (Canvas.image_file "image/png" 200 100 pixels)
    /\ PixelCrop.width CropDemo.crop = 100%float
    /\ PixelCrop.height CropDemo.crop = 50%float
    /\ Canvas.reflected 300 (PixelCrop.width CropDemo.crop) = 100%Z
    /\ Canvas.reflected 150 (PixelCrop.height CropDemo.crop) = 50%Z
    /\ 200%Z <> Canvas.reflected 300 (PixelCrop.width CropDemo.crop)
    /\ 100%Z <> Canvas.reflected 150 (PixelCrop.height CropDemo.crop).
Proof.
  exists tt. repeat split; try (vm_compute; reflexivity);
    vm_compute; intros H; discriminate H.
Qed.

(** C8: for the same photo and the same crop, on a display with
    [devicePixelRatio = 2], the two helpers return different images: 100
    by 50 from ImageEditor, 200 by 100 from CropModal. *)
Lemma crop_helpers_are_not_equivalent :
  exists url1 url2,
    ImageEditor.getCroppedImg unit CropDemo.blank true
      CropDemo.InvalidStateError CropDemo.photo CropDemo.crop
    = Promise.resolved url1
    /\ CropModal.getCroppedImg unit CropDemo.blank true
         CropDemo.InvalidStateError 2%float CropDemo.photo CropDemo.crop
       = Promise.resolved url2
    /\ url1 = Canvas.image_file "image/png" 100 50 tt
    /\ url2 = Canvas.image_file "image/png" 200 100 tt
    /\ url1 <> url2.
Proof.
  eexists; eexists. split; [vm_compute; reflexivity|].
  split; [vm_compute; reflexivity|].
  split; [reflexivity|]. split; [reflexivity|].
  intros H. discriminate H.
Qed.

(** ** The flow of App *)

Section Flow.
Import JS Eff Gemini App.

Variable service : list Event -> Request -> value + string.
Variable readAsDataURL : list Event -> File -> value + string.

Local Abbreviation handler := (App.handler service readAsDataURL).
Local Abbreviation transition := (App.transition service readAsDataURL).







End Flow.


(** ** The calls to the AI service *)

Section SingleShot.
Import JS Eff Gemini.

Variable service : list Event -> Request -> value + string.

Lemma service_since_log {S : Type} (w w' : World S) evs :
  log w' = (log w ++ evs)%list -> since w w' = evs.
Proof.
  intros H. unfold since. rewrite H.
  rewrite skipn_app, skipn_all, Nat.sub_diag. reflexivity.
Qed.

Lemma service_since_same {S : Type} (w w' : World S) :
  log w' = log w -> since w w' = [].
Proof.
  intros H. apply service_since_log. now rewrite app_nil_r.
Qed.

Ltac unfold_handler :=
  unfold single_shot,
    ImageGenerator.handleGenerate, ImageGenerator.handleUpscale,
    ImageGenerator.setIsLoading, ImageGenerator.setIsUpscaling,
    ImageGenerator.setError, ImageGenerator.setGeneratedImage,
    ImageGenerator.expected_generate, ImageGenerator.expected_upscale,
    App.handleSubmitEdit, App.setError, App.setIsLoading,
    App.setEditedImage, App.setEditingStep, App.expected_edit,
    ImageControlPanel.handleApplyRetouch,
    ImageControlPanel.renderImageWithEffectsToCanvas,
    ImageControlPanel.setRetouchError, ImageControlPanel.setIsRetouching,
    ImageControlPanel.setDisplayImage, ImageControlPanel.expected_retouch,
    call, try_catch_finally, try_finally, try_catch,
    bind, emit, set, get, modify, ret, throw;
  cbn [ui log fst snd].

Ltac settle_log :=
  cbn [await ret throw fst snd ui log negb];
  first
    [ rewrite service_since_same by reflexivity
    | erewrite service_since_log
        by (cbn [log]; rewrite <- ?app_assoc; reflexivity) ];
  cbn [requests app];
  split; [reflexivity|];
  intros r0 e0 Hin; cbn [In] in Hin;
  repeat (destruct Hin as [Hin|Hin]; [try discriminate Hin|]);
  try contradiction;
  try (injection Hin as _ <-; reflexivity).

Lemma handleGenerate_single_shot (w : World ImageGenerator.State) :
  single_shot ImageGenerator.error "Generation failed: "
    (ImageGenerator.expected_generate (ui w))
    w (snd (ImageGenerator.handleGenerate service w)).
Proof.
  unfold_handler.
  destruct (truthy (trim (ImageGenerator.prompt (ui w)))); cbn [negb].
  - destruct (service (log w) _) as [e|r]; settle_log.
  - settle_log.
Qed.

Lemma handleUpscale_single_shot (w : World ImageGenerator.State) :
  single_shot ImageGenerator.error "Upscaling failed: "
    (ImageGenerator.expected_upscale (ui w))
    w (snd (ImageGenerator.handleUpscale service w)).
Proof.
  unfold_handler.
  destruct (ImageGenerator.generatedImage (ui w)) as [img|]; [|settle_log].
  destruct (truthy img); [|settle_log].
  destruct (service (log w) _) as [e|r]; settle_log.
Qed.

Lemma handleSubmitEdit_single_shot (w : World App.State) imageData :
  single_shot App.error "Editing failed: "
    (App.expected_edit (ui w) imageData)
    w (snd (App.handleSubmitEdit service imageData w)).
Proof.
  unfold_handler.
  destruct (truthy (trim (App.prompt (ui w)))); cbn [negb].
  - destruct (service (log w) _) as [e|r]; settle_log.
  - settle_log.
Qed.

Section Retouch.
Variable toString : number -> string.
Variable loadImage : list Event -> string -> value + (number * number).
Variable getContext2d : list Event -> bool.
Variable toDataURL : ImageControlPanel.Canvas -> string -> string.

Lemma handleApplyRetouch_single_shot (w : World ImageControlPanel.State) :
  single_shot ImageControlPanel.retouchError "Retouch failed: "
    (ImageControlPanel.expected_retouch toString loadImage getContext2d
       toDataURL w)
    w (snd (ImageControlPanel.handleApplyRetouch toString service
              loadImage getContext2d toDataURL w)).
Proof.
  unfold_handler.
  destruct (Nat.eqb _ 0); [settle_log|].
  destruct (loadImage (log w) _) as [e|natural]; [settle_log|].
  cbn [await ret fst snd ui log].
  destruct (getContext2d _); cbn [negb]; [|settle_log].
  cbn [ret fst snd ui log].
  destruct (service _ _) as [e|r]; settle_log.
Qed.

End Retouch.

(** C6 (amended): each of the four handlers makes at most one call to the
    service: exactly the expected one when its guard passes (a non-blank
    prompt for generate and edit, a generated image for upscale, a ticked
    option and a rendered canvas for retouch) and none otherwise; when the
    call is rejected no further call is made and the message on display is
    the rejection's message after "Generation failed: ", "Upscaling
    failed: ", "Editing failed: " or "Retouch failed: ". *)
Theorem ai_handlers_are_single_shot :
  (forall w,
      single_shot ImageGenerator.error "Generation failed: "
        (ImageGenerator.expected_generate (ui w))
        w (snd (ImageGenerator.handleGenerate service w)))
  /\ (forall w,
        single_shot ImageGenerator.error "Upscaling failed: "
          (ImageGenerator.expected_upscale (ui w))
          w (snd (ImageGenerator.handleUpscale service w)))
  /\ (forall w imageData,
        single_shot App.error "Editing failed: "
          (App.expected_edit (ui w) imageData)
          w (snd (App.handleSubmitEdit service imageData w)))
  /\ (forall toString loadImage getContext2d toDataURL w,
        single_shot ImageControlPanel.retouchError "Retouch failed: "
          (ImageControlPanel.expected_retouch toString loadImage
             getContext2d toDataURL w)
          w (snd (ImageControlPanel.handleApplyRetouch toString service
                    loadImage getContext2d toDataURL w))).
Proof.
  split; [exact handleGenerate_single_shot|].
  split; [exact handleUpscale_single_shot|].
  split; [exact handleSubmitEdit_single_shot|].
  exact handleApplyRetouch_single_shot.
Qed.

End SingleShot.

(** C6: with a generated image on display and the prompt cleared, the
    "Generate Again" button can be clicked; the click makes no call to the
    service at all and asks for a prompt instead. *)
Lemma generate_again_without_prompt_makes_no_call :
  let w' :=
    snd (ImageGenerator.onClick ImageGenerator.unreachable
           ImageGenerator.GenerateAgain ImageGenerator.cleared_prompt) in
  ImageGenerator.clickable (Gemini.ui ImageGenerator.cleared_prompt)
    ImageGenerator.GenerateAgain = true
  /\ Gemini.requests (Gemini.since ImageGenerator.cleared_prompt w') = []
  /\ List.length
       (Gemini.requests (Gemini.since ImageGenerator.cleared_prompt w'))
     <> 1%nat
  /\ ImageGenerator.error (Gemini.ui w')
     = Some "Please enter a prompt to generate an image."%string.
Proof.
  cbv zeta. split; [reflexivity|]. split; [reflexivity|].
  split; [discriminate | reflexivity].
Qed.

(** ** The filter of ImageControlPanel *)

Section TrimFacts.
Import JS.
Local Open Scope string_scope.

Lemma trimEnd_cons_nonblank c s :
  trimEnd s <> "" -> trimEnd (String c s) <> "".
Proof.
  intros H. cbn [trimEnd]. destruct (trimEnd s); [congruence | discriminate].
Qed.

Lemma trimEnd_cons c s :
  trimEnd s <> "" -> trimEnd (String c s) = String c (trimEnd s).
Proof.
  intros H. cbn [trimEnd]. destruct (trimEnd s); [congruence | reflexivity].
Qed.

Lemma trimEnd_app_nonblank x s :
  trimEnd s <> "" -> trimEnd (x ++ s) <> "".
Proof.
  intros H. induction x as [|c x IH]; cbn [append]; [exact H|].
  now apply trimEnd_cons_nonblank.
Qed.

Lemma trimEnd_app x s :
  trimEnd s <> "" -> trimEnd (x ++ s) = x ++ trimEnd s.
Proof.
  intros H. induction x as [|c x IH]; cbn [append]; [reflexivity|].
  rewrite trimEnd_cons by now apply trimEnd_app_nonblank.
  now rewrite IH.
Qed.

Lemma trimStart_nonblank_head c r s :
  is_white_space c = false ->
  trimStart (String c r ++ s) = String c r ++ s.
Proof. intros H. cbn [append trimStart]. now rewrite H. Qed.

End TrimFacts.

Section CombinedStyle.
Import JS ImageControlPanel.
Local Open Scope string_scope.

Variable toString : number -> string.

Local Abbreviation filters := (ImageControlPanel.filters toString).
Local Abbreviation lookup := (ImageControlPanel.lookup toString).
Local Abbreviation getCombinedStyle :=
  (ImageControlPanel.getCombinedStyle toString).

Ltac nonblank :=
  first [ solve [vm_compute; discriminate]
        | apply trimEnd_app_nonblank; nonblank ].

(** Trimming the adjustment template after a blank. *)
Lemma trim_adjustments adj :
  trim ("" ++ " " ++ adjustmentFilter toString adj)
  = five_adjustments toString adj.
Proof.
  unfold adjustmentFilter, five_adjustments.
  change (trim ("" ++ " " ++ nl ++ "      brightness(" ++ ?R))
    with (trimEnd ("brightness(" ++ R)).
  rewrite !trimEnd_app by nonblank.
  reflexivity.
Qed.

(** Trimming a preset that starts with a visible character, followed by
    the adjustment template. *)
Lemma trim_preset_adjustments c r adj :
  is_white_space c = false ->
  trim (String c r ++ " " ++ adjustmentFilter toString adj)
  = String c r ++ separator ++ five_adjustments toString adj.
Proof.
  intros Hc. unfold trim. rewrite trimStart_nonblank_head by exact Hc.
  unfold adjustmentFilter, five_adjustments, separator.
  rewrite !trimEnd_app by nonblank.
  change (trimEnd ("deg)" ++ nl ++ "    ")) with "deg)".
  cbn [append]. reflexivity.
Qed.

Lemma preset_head f i :
  In f filters ->
  style f i = ""
  \/ exists c r, style f i = String c r /\ is_white_space c = false.
Proof.
  intros Hin. cbn in Hin.
  repeat (destruct Hin as [<-|Hin];
          [first [left; reflexivity
                 | right; eexists; eexists; split; reflexivity] |]).
  contradiction.
Qed.

Lemma lookup_head a str :
  lookup a = Some str ->
  str = ""
  \/ exists c r, str = String c r /\ is_white_space c = false.
Proof.
  unfold ImageControlPanel.lookup.
  destruct (find _ filters) as [f|] eqn:E; [|intros H; discriminate H].
  intros [= <-]. apply find_some in E. destruct E as [Hin _].
  now apply preset_head.
Qed.

(** The value of [getCombinedStyle], preset by preset. *)
Lemma getCombinedStyle_shape adj a :
  getCombinedStyle adj a
  = match lookup a with
    | Some (String c r) =>
        String c r ++ separator ++ five_adjustments toString adj
    | _ => five_adjustments toString adj
    end.
Proof.
  unfold ImageControlPanel.getCombinedStyle.
  destruct (lookup a) as [str|] eqn:E.
  - destruct (lookup_head _ _ E) as [->|(c & r & -> & Hc)].
    + apply trim_adjustments.
    + cbn [or_else truthy]. now apply trim_preset_adjustments.
  - apply trim_adjustments.
Qed.

(** C5: the filters are a table of 21 distinct names, each with a
    template in the intensity, and [getCombinedStyle] returns the string of
    the preset looked up by name (empty for a name without entry) followed
    by the five adjustment functions brightness, contrast, saturate, sepia
    and hue-rotate, in this order, filled with the five slider values. *)
Theorem getCombinedStyle_is_preset_then_five_adjustments adj a :
  let preset :=
    match lookup a with
    | Some str => str
    | None => ""
    end in
  getCombinedStyle adj a
  = preset ++ (if truthy preset then separator else "")
    ++ five_adjustments toString adj
  /\ lookup a
     = option_map (fun f => style f (intensity a))
         (find (fun f => String.eqb (name f) (active_name a)) filters)
  /\ map name filters = preset_names
  /\ NoDup preset_names
  /\ five_adjustments toString adj
     = "brightness(" ++ toString (brightness adj) ++ "%) " ++ nl
       ++ "      contrast(" ++ toString (contrast adj) ++ "%) " ++ nl
       ++ "      saturate(" ++ toString (saturation adj) ++ "%) " ++ nl
       ++ "      sepia(" ++ toString (warmth adj) ++ "%) " ++ nl
       ++ "      hue-rotate(" ++ toString (tint adj) ++ "deg)".
Proof.
  cbv zeta. split.
  - rewrite getCombinedStyle_shape.
    destruct (lookup a) as [[|c r]|]; reflexivity.
  - split.
    + unfold ImageControlPanel.lookup.
      destruct (find _ filters); reflexivity.
    + split; [reflexivity|]. split; [|reflexivity].
      repeat (constructor; [cbn; intuition discriminate|]). constructor.
Qed.

(** C10: for a name that matches no entry of the table the lookup finds
    nothing, the preset string is empty, and [getCombinedStyle] returns
    the five adjustment functions alone. *)
Theorem unknown_filter_name_falls_back adj a :
  (forall f, In f filters -> name f <> active_name a) ->
  lookup a = None
  /\ getCombinedStyle adj a = five_adjustments toString adj.
Proof.
  intros Hno.
  assert (E : lookup a = None).
  { unfold ImageControlPanel.lookup.
    destruct (find _ filters) as [f|] eqn:E; [|reflexivity].
    apply find_some in E. destruct E as [Hin Heq].
    apply String.eqb_eq in Heq. destruct (Hno f Hin Heq). }
  split; [exact E|].
  rewrite getCombinedStyle_shape, E. reflexivity.
Qed.

End CombinedStyle.

(** C10 for the name "Sunset", which the table does not have. *)
Lemma unknown_filter_name_falls_back_witness :
  (forall f,
      In f (ImageControlPanel.filters ImageControlPanel.digits) ->
      ImageControlPanel.name f
      <> ImageControlPanel.active_name ImageControlPanel.sunset)
  /\ ImageControlPanel.getCombinedStyle ImageControlPanel.digits
       ImageControlPanel.initialAdjustments ImageControlPanel.sunset
     = ImageControlPanel.five_adjustments ImageControlPanel.digits
         ImageControlPanel.initialAdjustments.
Proof.
  assert (H : forall f,
             In f (ImageControlPanel.filters ImageControlPanel.digits) ->
             ImageControlPanel.name f
             <> ImageControlPanel.active_name ImageControlPanel.sunset).
  { intros f Hin. cbn in Hin.
    repeat (destruct Hin as [<-|Hin]; [discriminate|]). contradiction. }
  split; [exact H|].
  exact (proj2 (unknown_filter_name_falls_back ImageControlPanel.digits
                  ImageControlPanel.initialAdjustments
                  ImageControlPanel.sunset H)).
Defined.

(** ** More on DownloadModal *)

Section DownloadModalMore.
Import JS Eff DownloadModal DownloadLog.
Open Scope float_scope.

Variables Canvas Blob : Type.
Variable blob_size : Blob -> number.
Variable getCanvasPromise : list (Event Canvas Blob) -> value + Canvas.
Variable canvas_toBlob :
  list (Event Canvas Blob) -> Canvas -> MimeType -> option number
  -> option Blob.

Local Abbreviation World := (World Canvas Blob).
Local Abbreviation loop := (reduce_quality blob_size canvas_toBlob).
Local Abbreviation export := (target_size_export blob_size canvas_toBlob).
Local Abbreviation encode := (encode_for_format blob_size canvas_toBlob).
Local Abbreviation handleDownload :=
  (handleDownload blob_size getCanvasPromise canvas_toBlob).

Lemma world_eta (w : World) : {| ui := ui w; log := log w |} = w.
Proof. destruct w; reflexivity. Qed.

Lemma encode_never_out_of_fuel s fuel canvas (w : World) :
  (17 <= fuel)%nat -> fst (encode s fuel canvas w) <> OutOfFuel.
Proof.
  intros Hfuel. unfold encode_for_format.
  destruct (format s).
  - rewrite getBlob_run. cbv zeta.
    destruct (canvas_toBlob _ _ _ _); discriminate.
  - destruct (isEnabled (targetSize s)).
    + unfold bind.
      destruct (target_size_export_run Canvas Blob blob_size canvas_toBlob
                  canvas (targetBytes_of (targetSize s)) fuel w Hfuel)
        as (evs & r & Hrun & _ & Hshape).
      rewrite Hrun.
      destruct Hshape as [[_ ->] | (blob0 & evs' & _ & Hscan)];
        [discriminate|].
      pose proof (scan_never_out_of_fuel _ _ _ _ _ _ _ _ Hscan) as Hr.
      destruct r; [discriminate | discriminate | congruence].
    + rewrite getBlob_run. cbv zeta.
      destruct (canvas_toBlob _ _ _ _); discriminate.
Qed.

(** The loop returns the blob it was entered with, or the answer of its
    last request. *)
Lemma reduce_quality_returns_last canvas targetBytes :
  forall fuel blob quality (w : World) blob' quality' w',
    loop fuel canvas targetBytes blob quality w
    = (Returned (blob', quality'), w') ->
    exists evs,
      w' = logged w evs
      /\ ((evs = [] /\ blob' = blob)
          \/ exists pre q,
               evs = (pre ++ [ToBlob image_jpeg q (Some blob')])%list).
Proof.
  induction fuel as [|fuel IH]; intros blob quality w blob' quality' w';
    cbn [reduce_quality];
    destruct (over_target blob_size blob targetBytes quality).
  - discriminate.
  - intros [= <- <- <-]. exists []. rewrite logged_nil. auto.
  - unfold bind. rewrite getBlob_run. cbv zeta.
    destruct (canvas_toBlob _ _ _ _) as [blob1|]; [|discriminate].
    intros Hrun. apply IH in Hrun.
    destruct Hrun as (evs & -> & Hlast).
    rewrite logged_logged. eexists. split; [reflexivity|]. right.
    destruct Hlast as [[-> ->] | (pre & q & ->)].
    + exists [], (Some (Math_max 0.1 (quality - 0.05))). reflexivity.
    + eexists (_ :: pre), q. reflexivity.
  - intros [= <- <- <-]. exists []. rewrite logged_nil. auto.
Qed.

(** Whatever the format, the blob handed on is the answer of the last
    encoder request. *)
Lemma encode_returns_last s fuel canvas (w : World) blob w' :
  encode s fuel canvas w = (Returned blob, w') ->
  exists pre mimeType quality,
    w' = logged w (pre ++ [ToBlob mimeType quality (Some blob)])
    /\ Forall answered pre.
Proof.
  intros Hrun.
  destruct (requests_only_encode_for_format Canvas Blob blob_size
              canvas_toBlob s fuel canvas w) as (evs & Hw & Hl).
  rewrite Hrun in Hw, Hl. cbn [fst snd well_logged] in Hw, Hl. subst w'.
  assert (Hlast : exists pre mimeType quality,
             evs = (pre ++ [ToBlob mimeType quality (Some blob)])%list).
  { revert Hrun. unfold encode_for_format.
    destruct (format s).
    - rewrite getBlob_run. cbv zeta.
      destruct (canvas_toBlob _ _ _ _) as [b|]; [|discriminate].
      intros [= <- Hw]. exists [], image_png, None.
      apply app_inv_head in Hw. now rewrite <- Hw.
    - destruct (isEnabled (targetSize s)).
      + unfold bind, target_size_export, bind. rewrite getBlob_run. cbv zeta.
        destruct (canvas_toBlob _ _ _ _) as [b0|]; [|discriminate].
        destruct (loop fuel canvas _ b0 0.95 _) as [[[b q]|e|] w2] eqn:Hloop;
          try discriminate.
        unfold ret. intros [= <- Hw]. cbn [fst] in *.
        apply reduce_quality_returns_last in Hloop.
        destruct Hloop as (evs2 & -> & Hlast).
        rewrite logged_logged in Hw.
        apply (f_equal log) in Hw. cbn [log logged] in Hw.
        apply app_inv_head in Hw. subst evs.
        destruct Hlast as [[-> ->] | (pre & q' & ->)].
        * exists [], image_jpeg, (Some 0.95). reflexivity.
        * eexists (_ :: pre), image_jpeg, q'. reflexivity.
      + rewrite getBlob_run. cbv zeta.
        destruct (canvas_toBlob _ _ _ _) as [b|]; [|discriminate].
        intros [= <- Hw]. eexists [], image_jpeg, _.
        apply app_inv_head in Hw. now rewrite <- Hw. }
  destruct Hlast as (pre & mimeType & quality & ->).
  exists pre, mimeType, quality. split; [reflexivity|].
  apply Forall_app in Hl. exact (proj1 Hl).
Qed.

(** X1: given the fuel its loop can need, [handleDownload] always returns
    normally and leaves [isProcessing] false, whatever the browser answers:
    the download button is never left disabled. *)
Theorem handleDownload_always_ends_processing fuel (w : World) :
  (17 <= fuel)%nat ->
  fst (handleDownload fuel w) = Returned tt
  /\ isProcessing (ui (snd (handleDownload fuel w))) = false.
Proof.
  intros Hfuel. rewrite handleDownload_run. cbv zeta.
  unfold bind.
  destruct (awaitCanvas getCanvasPromise _) as [[canvas|e|] w2] eqn:Hc.
  - pose proof (encode_never_out_of_fuel (ui w) fuel canvas w2 Hfuel) as Hn.
    destruct (encode (ui w) fuel canvas w2) as [[blob|e|] w3];
      cbn [fst] in Hn; [split; reflexivity | split; reflexivity | congruence].
  - split; reflexivity.
  - exfalso. revert Hc.
    unfold awaitCanvas, bind, get, emit, modify, await; cbn.
    destruct (getCanvasPromise _); discriminate.
Qed.

Lemma failure_value_is_failure (ev : Event Canvas Blob) e :
  failure_value ev = Some e -> is_failure ev = true.
Proof.
  destruct ev as [[?|?]|? ? [?|]| | | | |]; cbn; congruence.
Qed.

(** X2: when no request fails, [handleDownload] asks for the canvas, makes
    its encoder requests, and saves exactly the blob the last of them
    answered, under the trimmed file name followed by a dot and the format
    in lower case; it then closes the modal, and an error shown by an
    earlier attempt is cleared. *)
Theorem successful_export_saves_the_last_blob fuel (w : World) :
  (17 <= fuel)%nat ->
  Forall (fun ev => is_failure ev = false)
         (since w (snd (handleDownload fuel w))) ->
  exists canvas encodings mimeType quality blob,
    since w (snd (handleDownload fuel w))
    = (GetCanvas (inr canvas) :: encodings
       ++ [ToBlob mimeType quality (Some blob);
           CreateObjectURL blob;
           LinkClick (trim (customFilename (ui w)) ++ "."
                      ++ format_toLowerCase (format (ui w)))%string;
           RevokeObjectURL; OnClose])%list
    /\ Forall answered encodings
    /\ downloadError (ui (snd (handleDownload fuel w))) = None
    /\ isProcessing (ui (snd (handleDownload fuel w))) = false.
Proof.
  intros Hfuel. rewrite handleDownload_run. cbv zeta.
  set (w1 := {| ui := with_downloadError None
                        (with_isProcessing true (ui w));
                log := log w |} : World).
  unfold bind.
  assert (Hc : awaitCanvas getCanvasPromise w1
               = match getCanvasPromise (log w) with
                 | inl e => (Thrown e, logged w1 [GetCanvas (inl e)])
                 | inr c => (Returned c, logged w1 [GetCanvas (inr c)])
                 end).
  { unfold awaitCanvas, bind, get, emit, modify, await; cbn.
    destruct (getCanvasPromise (log w)); reflexivity. }
  rewrite Hc. clear Hc.
  destruct (getCanvasPromise (log w)) as [e|canvas].
  - cbn [snd]. intros Hno. exfalso.
    erewrite since_log in Hno
      by (cbn [log logged w1]; rewrite <- app_assoc; reflexivity).
    inversion Hno as [|? ? Hf _]. discriminate Hf.
  - pose proof (encode_never_out_of_fuel (ui w) fuel canvas
                  (logged w1 [GetCanvas (inr canvas)]) Hfuel) as Hn.
    destruct (encode (ui w) fuel canvas (logged w1 [GetCanvas (inr canvas)]))
      as [[blob|e|] w3] eqn:He; cbn [fst snd] in *; [| |congruence].
    + apply encode_returns_last in He.
      destruct He as (pre & mimeType & quality & -> & Hpre).
      intros _. exists canvas, pre, mimeType, quality, blob.
      split; [|repeat split; assumption].
      apply since_log. cbn [log logged w1].
      rewrite <- !app_assoc. reflexivity.
    + destruct (requests_only_encode_for_format Canvas Blob blob_size
                  canvas_toBlob (ui w) fuel canvas
                  (logged w1 [GetCanvas (inr canvas)]))
        as (evs & Hw & Hl).
      rewrite He in Hw, Hl. cbn [fst snd well_logged] in Hw, Hl. subst w3.
      destruct Hl as (pre & ev & -> & _ & Hev).
      intros Hno. exfalso.
      erewrite since_log in Hno
        by (cbn [log logged w1]; rewrite <- !app_assoc; reflexivity).
      rewrite Forall_forall in Hno.
      apply failure_value_is_failure in Hev.
      rewrite Hno in Hev; [discriminate Hev|].
      apply in_or_app. right. apply in_or_app. right.
      left. reflexivity.
Qed.

(** X3: an export as PNG, and an export as JPEG without a target size,
    make exactly one encoder request: PNG with no quality argument, JPEG
    with [jpegQuality / 100]; the target-size settings play no part.  When
    the canvas promise rejects the encoder is not asked at all. *)
Theorem plain_exports_encode_once fuel (w : World) :
  (forall canvas,
      getCanvasPromise (log w) = inr canvas ->
      (format (ui w) = PNG ->
       encoder_requests (since w (snd (handleDownload fuel w)))
       = [(image_png, None)])
      /\ (format (ui w) = JPEG ->
          isEnabled (targetSize (ui w)) = false ->
          encoder_requests (since w (snd (handleDownload fuel w)))
          = [(image_jpeg, Some (jpegQuality (ui w) / 100))]))
  /\ (forall e,
        getCanvasPromise (log w) = inl e ->
        encoder_requests (since w (snd (handleDownload fuel w))) = []).
Proof.
  rewrite handleDownload_run. cbv zeta.
  unfold bind, awaitCanvas, bind, get, emit, modify, await. cbn [ui log].
  split.
  - intros canvas Hc. rewrite Hc. cbn [ret].
    unfold encode_for_format. split.
    + intros ->. rewrite getBlob_run. cbv zeta. cbn [log logged ui].
      destruct (canvas_toBlob _ canvas image_png None);
        cbn [snd]; erewrite since_log
          by (cbn [log]; rewrite <- !app_assoc; reflexivity);
        reflexivity.
    + intros -> ->. rewrite getBlob_run. cbv zeta. cbn [log logged ui].
      destruct (canvas_toBlob _ canvas image_jpeg _);
        cbn [snd]; erewrite since_log
          by (cbn [log]; rewrite <- !app_assoc; reflexivity);
        reflexivity.
  - intros e He. rewrite He. cbn [throw snd].
    erewrite since_log
      by (cbn [log]; rewrite <- !app_assoc; reflexivity).
    reflexivity.
Qed.

Lemma scan_last targetBytes k blob (evs : list (Event Canvas Blob))
    blob' quality :
  scan blob_size targetBytes k blob evs (Returned (blob', quality)) ->
  (evs = [] /\ blob' = blob /\ quality = quality_at k)
  \/ exists pre,
       evs = (pre ++ [ToBlob image_jpeg (Some (Math_max 0.1 quality))
                             (Some blob')])%list.
Proof.
  intros H. remember (Returned (blob', quality)) as r eqn:Er.
  induction H as [k blob Hg | k blob Hg | k blob b1 evs r Hg Hs IH].
  - injection Er as <- <-. left. auto.
  - discriminate Er.
  - right. destruct (IH Er) as [(-> & -> & ->) | (pre & ->)].
    + exists []. reflexivity.
    + eexists (_ :: pre). reflexivity.
Qed.

(** X4: the target-size export gives up only at the bottom of its range:
    if the blob it returns is still larger than the target, then eighteen
    encodings were made and the returned blob is the one encoded at
    quality 0.1. *)
Theorem target_missed_only_at_quality_floor
    canvas targetBytes fuel (w w' : World) blob quality :
  (17 <= fuel)%nat ->
  export fuel canvas targetBytes w = (Returned (blob, quality), w') ->
  gt (blob_size blob) targetBytes = true ->
  List.length (since w w') = 18%nat
  /\ exists pre,
       since w w'
       = (pre ++ [ToBlob image_jpeg (Some 0.1) (Some blob)])%list.
Proof.
  intros Hfuel Hrun Hover.
  destruct (target_size_export_run Canvas Blob blob_size canvas_toBlob
              canvas targetBytes fuel w Hfuel)
    as (evs & r & Hrun' & Hlen & Hshape).
  rewrite Hrun in Hrun'. injection Hrun' as <- ->.
  rewrite since_logged.
  destruct Hshape as [[_ Hr] | (blob0 & evs' & -> & Hscan)];
    [discriminate Hr|].
  destruct (scan_returned _ _ _ _ _ _ _ _ _ Hscan) as [Hq Hg].
  cbn [List.length Nat.add] in Hq, Hlen.
  unfold over_target in Hg. rewrite Hover in Hg. cbn [andb] in Hg.
  assert (Hn : List.length evs' = 17%nat).
  { destruct (Nat.lt_ge_cases (List.length evs') 17) as [Hlt|Hge]; [|lia].
    rewrite Hq, (quality_above_floor _ Hlt) in Hg. discriminate Hg. }
  split; [cbn [List.length]; now rewrite Hn|].
  destruct (scan_last _ _ _ _ _ _ Hscan) as [(-> & _) | (pre & ->)];
    [discriminate Hn|].
  exists (ToBlob image_jpeg (Some 0.95) (Some blob0) :: pre).
  rewrite Hq, Hn. reflexivity.
Qed.

Lemma scan_grid targetBytes k blob (evs : list (Event Canvas Blob)) r :
  scan blob_size targetBytes k blob evs r ->
  encoder_qualities evs
  = map encoded_quality (seq (S k) (List.length evs)).
Proof.
  induction 1 as [k blob Hg | k blob Hg | k blob b1 evs r Hg Hs IH];
    cbn [encoder_qualities List.length seq map].
  - reflexivity.
  - reflexivity.
  - rewrite IH. reflexivity.
Qed.

Lemma quality_grid_descends :
  StronglySorted (fun a b => gt a b = true) quality_grid.
Proof.
  unfold quality_grid. cbn [seq map].
  repeat (constructor;
          [|repeat (constructor; [vm_compute; reflexivity|]); constructor]).
  constructor.
Qed.

Lemma StronglySorted_firstn {A : Type} (R : A -> A -> Prop) (l : list A) :
  StronglySorted R l -> forall n, StronglySorted R (firstn n l).
Proof.
  induction 1 as [|a l Hs IH Hall]; intros [|n]; cbn [firstn];
    try constructor.
  - apply IH.
  - rewrite Forall_forall in *. intros x Hx. apply Hall.
    revert Hx. clear. revert n. induction l as [|b l IHl]; intros [|n];
      cbn; try tauto. intros [->|H]; [now left | right; eauto].
Qed.

Lemma firstn_seq_le n : forall a len,
  (n <= len)%nat -> firstn n (seq a len) = seq a n.
Proof.
  induction n as [|n IH]; intros a [|len] H; cbn [firstn seq];
    try reflexivity; [lia|].
  rewrite IH by lia. reflexivity.
Qed.

(** X5: the qualities the target-size export asks for are an initial
    segment of one fixed list of eighteen values, which descends strictly:
    whatever the encoder answers, no quality is tried twice and each
    further attempt asks for a lower one. *)
Theorem target_size_qualities_descend canvas targetBytes fuel (w : World) :
  (17 <= fuel)%nat ->
  let qs :=
    encoder_qualities (since w (snd (export fuel canvas targetBytes w))) in
  (exists n, (1 <= n <= 18)%nat /\ qs = firstn n quality_grid)
  /\ StronglySorted (fun a b => gt a b = true) qs.
Proof.
  intros Hfuel qs.
  assert (Hseg : exists n, (1 <= n <= 18)%nat /\ qs = firstn n quality_grid).
  { subst qs.
    destruct (target_size_export_run Canvas Blob blob_size canvas_toBlob
                canvas targetBytes fuel w Hfuel)
      as (evs & r & Hrun & Hlen & Hshape).
    rewrite Hrun. cbn [snd]. rewrite since_logged.
    destruct Hshape as [[-> _] | (blob0 & evs' & -> & Hscan)].
    - exists 1%nat. split; [lia | reflexivity].
    - exists (S (List.length evs')). cbn [List.length] in Hlen.
      split; [lia|].
      cbn [encoder_qualities]. rewrite (scan_grid _ _ _ _ _ Hscan).
      unfold quality_grid. rewrite firstn_map, firstn_seq_le by lia.
      reflexivity. }
  split; [exact Hseg|].
  destruct Hseg as (n & _ & ->).
  apply StronglySorted_firstn, quality_grid_descends.
Qed.

End DownloadModalMore.

(** X1 on the concrete browser. *)
Lemma handleDownload_always_ends_processing_witness :
  (17 <= 17)%nat
  /\ fst (DownloadModal.handleDownload (fun b => b)
            DownloadModal.Demo.getCanvas DownloadModal.Demo.toBlob 17
            DownloadModal.Demo.w0) = Eff.Returned tt
  /\ DownloadModal.isProcessing
       (DownloadModal.ui
          (snd (DownloadModal.handleDownload (fun b => b)
                  DownloadModal.Demo.getCanvas DownloadModal.Demo.toBlob 17
                  DownloadModal.Demo.w0))) = false.
Proof.
  split; [apply le_n|].
  exact (handleDownload_always_ends_processing unit JS.number (fun b => b)
           DownloadModal.Demo.getCanvas DownloadModal.Demo.toBlob 17
           DownloadModal.Demo.w0 (le_n 17)).
Defined.

(** X2 on the concrete browser, where every request is answered. *)
Lemma successful_export_saves_the_last_blob_witness :
  let w' :=
    snd (DownloadModal.handleDownload (fun b => b)
           DownloadModal.Demo.getCanvas DownloadModal.Demo.toBlob 17
           DownloadModal.Demo.w0) in
  (17 <= 17)%nat
  /\ Forall (fun ev => DownloadModal.is_failure ev = false)
       (DownloadModal.since DownloadModal.Demo.w0 w')
  /\ DownloadModal.downloadError (DownloadModal.ui w') = None
  /\ DownloadModal.isProcessing (DownloadModal.ui w') = false.
Proof.
  cbv zeta.
  assert (H : Forall (fun ev => DownloadModal.is_failure ev = false)
                (DownloadModal.since DownloadModal.Demo.w0
                   (snd (DownloadModal.handleDownload (fun b => b)
                           DownloadModal.Demo.getCanvas
                           DownloadModal.Demo.toBlob 17
                           DownloadModal.Demo.w0)))).
  { vm_compute. repeat constructor. }
  split; [apply le_n|]. split; [exact H|].
  destruct (successful_export_saves_the_last_blob unit JS.number
              (fun b => b) DownloadModal.Demo.getCanvas
              DownloadModal.Demo.toBlob 17 DownloadModal.Demo.w0
              (le_n 17) H)
    as (canvas & encodings & mimeType & quality & blob & _ & _ & He & Hp).
  split; assumption.
Defined.

(** X4 on the concrete browser with a target of 50 KB, which its encoder
    never meets. *)
Lemma target_missed_only_at_quality_floor_witness :
  let run :=
    DownloadModal.target_size_export (fun b => b) DownloadModal.Demo.toBlob
      17 tt DownloadLog.target_50KB DownloadModal.Demo.w0 in
  (17 <= 17)%nat
  /\ run = (Eff.Returned (90000%float, DownloadModal.quality_at 17), snd run)
  /\ JS.gt 90000%float DownloadLog.target_50KB = true
  /\ List.length (DownloadModal.since DownloadModal.Demo.w0 (snd run))
     = 18%nat.
Proof.
  cbv zeta.
  assert (Hrun : DownloadModal.target_size_export (fun b => b)
                   DownloadModal.Demo.toBlob 17 tt DownloadLog.target_50KB
                   DownloadModal.Demo.w0
                 = (Eff.Returned (90000%float, DownloadModal.quality_at 17),
                    snd (DownloadModal.target_size_export (fun b => b)
                           DownloadModal.Demo.toBlob 17 tt
                           DownloadLog.target_50KB DownloadModal.Demo.w0))).
  { vm_compute. reflexivity. }
  split; [apply le_n|]. split; [exact Hrun|]. split; [reflexivity|].
  exact (proj1 (target_missed_only_at_quality_floor unit JS.number
                  (fun b => b) DownloadModal.Demo.toBlob tt
                  DownloadLog.target_50KB 17 DownloadModal.Demo.w0 _
                  90000%float (DownloadModal.quality_at 17)
                  (le_n 17) Hrun eq_refl)).
Defined.

(** X5 on the concrete browser. *)
Lemma target_size_qualities_descend_witness :
  (17 <= 17)%nat
  /\ StronglySorted (fun a b => JS.gt a b = true)
       (DownloadModal.encoder_qualities
          (DownloadModal.since DownloadModal.Demo.w0
             (snd (DownloadModal.target_size_export (fun b => b)
                     DownloadModal.Demo.toBlob 17 tt 102400%float
                     DownloadModal.Demo.w0)))).
Proof.
  split; [apply le_n|].
  exact (proj2 (target_size_qualities_descend unit JS.number (fun b => b)
                  DownloadModal.Demo.toBlob tt 102400%float 17
                  DownloadModal.Demo.w0 (le_n 17))).
Defined.

(** ** More on App *)

Section AppMore.
Import JS Eff Gemini App.
Local Open Scope string_scope.

Variable service : list Event -> Request -> value + string.
Variable readAsDataURL : list Event -> File -> value + string.

Local Abbreviation handler := (App.handler service readAsDataURL).
Local Abbreviation transition := (App.transition service readAsDataURL).
Local Abbreviation reachable := (AppFlow.reachable service readAsDataURL).

Ltac run_app :=
  unfold App.handler, handleImageUpload, handleSubmitEdit,
    handleImageGenerated, handleReset, fileToBase64, call,
    setEditingStep, setOriginalImage, setEditedImage, setPrompt,
    setIsLoading, setError, try_catch_finally, try_finally, try_catch,
    bind, emit, set, get, modify;
  cbn [ui log fst snd].

(** The world after an upload, by the answer of the file reader. *)
Lemma handleImageUpload_run (w : World State) f :
  handleImageUpload readAsDataURL f w
  = (Returned tt,
     match readAsDataURL (log w) f with
     | inr data =>
         {| ui := {| editingStep := choice;
                     originalImage :=
                       Some {| file := f; base64 := data;
                               mimeType := type f |};
                     editedImage := None;
                     prompt := "";
                     isLoading := false;
                     error := None |};
            log := log w ++ [ReadAsDataURL (name f) (inr data)] |}
     | inl e =>
         {| ui := {| editingStep := editingStep (ui w);
                     originalImage := originalImage (ui w);
                     editedImage := editedImage (ui w);
                     prompt := prompt (ui w);
                     isLoading := false;
                     error :=
                       Some "Failed to process image file. Please try another one." |};
            log := log w ++ [ReadAsDataURL (name f) (inl e); ConsoleError e] |}
     end).
Proof.
  run_app. destruct (readAsDataURL (log w) f); cbn.
  - rewrite <- app_assoc. reflexivity.
  - reflexivity.
Qed.

(** The world after a submission, by prompt and answer of the service. *)
Lemma handleSubmitEdit_run (w : World State) d :
  handleSubmitEdit service d w
  = (Returned tt,
     if truthy (trim (prompt (ui w))) then
       let request :=
         editImageWithGemini (split_1 "," (data_base64 d))
           (data_mimeType d) (prompt (ui w)) in
       match service (log w) request with
       | inr result =>
           {| ui := {| editingStep := studio;
                       originalImage := originalImage (ui w);
                       editedImage :=
                         Some ("data:image/png;base64," ++ result);
                       prompt := prompt (ui w);
                       isLoading := false;
                       error := None |};
              log := log w ++ [Service request (inr result)] |}
       | inl e =>
           {| ui := {| editingStep := editingStep (ui w);
                       originalImage := originalImage (ui w);
                       editedImage := None;
                       prompt := prompt (ui w);
                       isLoading := false;
                       error :=
                         Some ("Editing failed: "
                               ++ message_or "An unknown error occurred." e) |};
              log := log w ++ [Service request (inl e); ConsoleError e] |}
       end
     else
       {| ui := with_error
                  (Some "Please ensure you have a prompt written.") (ui w);
          log := log w |}).
Proof.
  run_app. destruct (truthy (trim (prompt (ui w)))); cbn; [|reflexivity].
  destruct (service (log w) _); cbn.
  - rewrite <- app_assoc. reflexivity.
  - reflexivity.
Qed.

(** What holds between two handlers: the steps that show the image have
    one, nothing is loading, and an edited image exists only in the
    studio. *)
Let settled (s : State) : Prop :=
  (editingStep s = upload \/ editingStep s = generation
   \/ originalImage s <> None)
  /\ isLoading s = false
  /\ (editingStep s = studio \/ editedImage s = None).

Lemma settled_start : settled (ui start).
Proof. repeat split; auto. Qed.

Lemma settled_transition (w w' : World State) :
  settled (ui w) -> transition w w' -> settled (ui w').
Proof.
  intros (Himg & Hload & Hedit) (cb & Hoff & <-).
  unfold settled, renderContent in *.
  destruct (editingStep (ui w)) eqn:Hs;
    try (destruct (originalImage (ui w)) eqn:Ho);
    destruct cb; try discriminate Hoff; cbn [App.handler];
    try (rewrite handleImageUpload_run; cbn [snd];
         destruct (readAsDataURL _ _); cbn [ui editingStep originalImage
           editedImage isLoading];
         rewrite ?Hs, ?Ho; intuition congruence);
    try (rewrite handleSubmitEdit_run; cbn [snd];
         destruct (truthy _); cbv zeta; [destruct (service _ _)|];
         cbn [ui editingStep originalImage editedImage isLoading with_error];
         rewrite ?Hs, ?Ho; intuition congruence);
    run_app; cbn; rewrite ?Ho; intuition congruence.
Qed.

Lemma settled_close (w : World State) :
  settled (ui w) -> settled (ui (snd (AppFlow.onClose w))).
Proof. intros H. exact H. Qed.

Lemma reachable_settled (w : World State) :
  reachable w -> settled (ui w).
Proof.
  induction 1 as [|w w' _ IH Ht|w _ IH _]; [exact settled_start| |].
  - exact (settled_transition _ _ IH Ht).
  - exact (settled_close _ IH).
Qed.

(** X6: in every state App can reach (by the callbacks of the component
    shown, the typing of a prompt among them, and by closing the error
    alert), [renderContent] renders a component (the steps choice, ai-edit
    and studio always have their image), the loading flag is off once a
    handler has finished, and an edited image is held only in the step
    studio. *)
Theorem reachable_states_are_settled (w : World State) :
  reachable w ->
  renderContent (ui w) <> Nothing
  /\ isLoading (ui w) = false
  /\ (editingStep (ui w) <> studio -> editedImage (ui w) = None).
Proof.
  intros Hr. destruct (reachable_settled w Hr) as (Himg & Hload & Hedit).
  split; [|split; [exact Hload | intuition congruence]].
  unfold renderContent.
  destruct (editingStep (ui w)); try discriminate;
    destruct (originalImage (ui w)); try discriminate;
    intuition congruence.
Qed.

(** X7: the manual path always opens the studio on a single panel: from a
    reachable state that offers [onManualEdit], whatever was typed,
    submitted or dismissed before, the result display shows one panel,
    titled "Editor", with the uploaded image, under the heading
    "Photo Studio". *)
Theorem manual_edit_opens_a_single_panel (w : World State) :
  reachable w ->
  offered (renderContent (ui w)) onManualEdit = true ->
  let s' := ui (snd (handler (renderContent (ui w)) onManualEdit w)) in
  exists img,
    originalImage (ui w) = Some img
    /\ ResultDisplay.studio_panels s'
       = [ {| ResultDisplay.imageSrc := base64 img;
              ResultDisplay.title := "Editor";
              ResultDisplay.isEditedPanel := false |} ]
    /\ ResultDisplay.titleText (editedImage s') = "Photo Studio".
Proof.
  intros Hr Hoff.
  destruct (reachable_settled w Hr) as (_ & _ & Hedit).
  unfold renderContent in *.
  destruct (editingStep (ui w)) eqn:Hs; try discriminate Hoff;
    destruct (originalImage (ui w)) as [img|] eqn:Ho;
    try discriminate Hoff.
  destruct Hedit as [Hst|Hnone]; [discriminate Hst|].
  exists img. split; [reflexivity|].
  cbn [App.handler]. run_app.
  unfold ResultDisplay.studio_panels, renderContent, ResultDisplay.titleText.
  cbn. rewrite Ho, Hnone. cbn. split; reflexivity.
Qed.

(** X8: a successful AI edit always opens the studio on two panels, the
    original first and the result, labelled as a PNG data URL, second,
    under the heading "Edit Complete!"; their download names are
    "edited-photo-Original" and "edited-photo-Edited".  A rejected edit
    stays where it was and drops the edited image. *)
Theorem ai_edit_opens_two_panels (w : World State) d img :
  originalImage (ui w) = Some img ->
  truthy (trim (prompt (ui w))) = true ->
  let request :=
    editImageWithGemini (split_1 "," (data_base64 d)) (data_mimeType d)
      (prompt (ui w)) in
  let s' := ui (snd (handleSubmitEdit service d w)) in
  (forall result,
      service (log w) request = inr result ->
      ResultDisplay.studio_panels s'
      = [ {| ResultDisplay.imageSrc := base64 img;
             ResultDisplay.title := "Original";
             ResultDisplay.isEditedPanel := false |};
          {| ResultDisplay.imageSrc := "data:image/png;base64," ++ result;
             ResultDisplay.title := "Edited";
             ResultDisplay.isEditedPanel := true |} ]
      /\ ResultDisplay.titleText (editedImage s') = "Edit Complete!"
      /\ map ResultDisplay.fileName (ResultDisplay.studio_panels s')
         = ["edited-photo-Original"; "edited-photo-Edited"])
  /\ (forall e,
        service (log w) request = inl e ->
        editingStep s' = editingStep (ui w)
        /\ editedImage s' = None
        /\ originalImage s' = Some img).
Proof.
  intros Ho Hp request s'. subst s'.
  rewrite handleSubmitEdit_run, Hp. cbv zeta. fold request. split.
  - intros result ->. cbn [snd ui].
    unfold ResultDisplay.studio_panels, renderContent,
      ResultDisplay.titleText.
    cbn. rewrite Ho. cbn. repeat split.
  - intros e ->. cbn [snd ui]. cbn. rewrite Ho. repeat split.
Qed.

(** X9: a failed upload changes nothing but the error: step, images and
    prompt stay as they were, the fixed message is set and loading is off;
    a successful one starts afresh at the step choice with the file's data
    URL and type, without edited image, prompt or error.  Either way the
    file is read exactly once. *)
Theorem upload_outcomes (w : World State) f :
  let w' := snd (handleImageUpload readAsDataURL f w) in
  ImageUploader.reads (since w w') = [name f]
  /\ isLoading (ui w') = false
  /\ (forall e,
        readAsDataURL (log w) f = inl e ->
        editingStep (ui w') = editingStep (ui w)
        /\ originalImage (ui w') = originalImage (ui w)
        /\ editedImage (ui w') = editedImage (ui w)
        /\ prompt (ui w') = prompt (ui w)
        /\ error (ui w')
           = Some "Failed to process image file. Please try another one.")
  /\ (forall data,
        readAsDataURL (log w) f = inr data ->
        ui w'
        = {| editingStep := choice;
             originalImage :=
               Some {| file := f; base64 := data; mimeType := type f |};
             editedImage := None;
             prompt := "";
             isLoading := false;
             error := None |}).
Proof.
  cbv zeta. rewrite handleImageUpload_run. cbn [snd].
  destruct (readAsDataURL (log w) f) as [e|data].
  - erewrite service_since_log by reflexivity.
    repeat split; try reflexivity; intros ? [= <-]; repeat split.
  - erewrite service_since_log by reflexivity.
    repeat split; try reflexivity; try discriminate.
    intros ? [= <-]. reflexivity.
Qed.

(** X10: "Start Over" forgets everything: from any state, [handleReset]
    leaves exactly the state of a fresh start, shows the uploader, and
    asks nothing of reader or service. *)
Theorem reset_is_a_fresh_start (w : World State) :
  ui (snd (handleReset w)) = initialState
  /\ renderContent (ui (snd (handleReset w))) = ImageUploader
  /\ since w (snd (handleReset w)) = [].
Proof.
  run_app. cbn. repeat split.
  apply service_since_same. reflexivity.
Qed.

(** X11: "Use this Image" hands a generated image to App only if there is
    one; App then opens the studio on the single panel "Editor" showing it
    as a PNG data URL, with prompt, error and edited image cleared.
    Without an image nothing happens. *)
Theorem confirmed_generation_opens_the_studio
    (g : ImageGenerator.State) (w : World State) :
  let w' := snd (AppFlow.handleConfirm g w) in
  match ImageGenerator.generatedImage g with
  | Some img =>
      if truthy img then
        editingStep (ui w') = studio
        /\ ResultDisplay.studio_panels (ui w')
           = [ {| ResultDisplay.imageSrc := "data:image/png;base64," ++ img;
                  ResultDisplay.title := "Editor";
                  ResultDisplay.isEditedPanel := false |} ]
        /\ prompt (ui w') = ""
        /\ error (ui w') = None
        /\ since w w' = []
      else w' = w
  | None => w' = w
  end.
Proof.
  cbv zeta. unfold AppFlow.handleConfirm.
  destruct (ImageGenerator.generatedImage g) as [img|]; [|reflexivity].
  destruct (truthy img); [|reflexivity].
  run_app. cbn. repeat split.
  apply service_since_same. reflexivity.
Qed.

End AppMore.

(** The upload of a photo, the choice of the AI edit and the typing of a
    prompt lead to [Scenes.with_prompt_typed]. *)
Lemma with_prompt_typed_reachable :
  AppFlow.reachable App.online App.readable Scenes.with_prompt_typed.
Proof.
  apply (AppFlow.reach_step _ _
           (snd (App.handler App.online App.readable App.EditorChoice
                   App.onAiEdit Scenes.after_upload))).
  - apply (AppFlow.reach_step _ _ Scenes.after_upload).
    + apply (AppFlow.reach_step _ _ App.start); [constructor|].
      exists (App.onImageUpload Scenes.photo_file). split; reflexivity.
    + exists App.onAiEdit. split; reflexivity.
  - exists (App.setPrompt_ "add a wizard hat"). split; reflexivity.
Defined.

(** X6 after an AI edit: the state is reachable, holds an edited image
    and the typed prompt, and is in the step studio. *)
Lemma reachable_states_are_settled_witness :
  AppFlow.reachable App.online App.readable Scenes.after_edit
  /\ App.editedImage (Gemini.ui Scenes.after_edit)
     = Some "data:image/png;base64,iVBORw0KGgo="%string
  /\ App.prompt (Gemini.ui Scenes.after_edit) = "add a wizard hat"%string
  /\ App.editingStep (Gemini.ui Scenes.after_edit) = App.studio
  /\ App.renderContent (Gemini.ui Scenes.after_edit) <> App.Nothing
  /\ App.isLoading (Gemini.ui Scenes.after_edit) = false.
Proof.
  assert (H : AppFlow.reachable App.online App.readable Scenes.after_edit).
  { apply (AppFlow.reach_step _ _ Scenes.with_prompt_typed);
      [exact with_prompt_typed_reachable|].
    exists (App.onSubmit Scenes.cropped). split; reflexivity. }
  split; [exact H|]. split; [reflexivity|]. split; [reflexivity|].
  split; [reflexivity|].
  destruct (reachable_states_are_settled App.online App.readable
              Scenes.after_edit H) as (Hr & Hl & _).
  split; assumption.
Defined.

(** X7 at the step choice, reached again with a prompt typed. *)
Lemma manual_edit_opens_a_single_panel_witness :
  AppFlow.reachable App.online App.readable Scenes.back_at_choice
  /\ App.prompt (Gemini.ui Scenes.back_at_choice)
     = "add a wizard hat"%string
  /\ App.offered (App.renderContent (Gemini.ui Scenes.back_at_choice))
       App.onManualEdit = true
  /\ exists img,
       App.originalImage (Gemini.ui Scenes.back_at_choice) = Some img
       /\ ResultDisplay.studio_panels
            (Gemini.ui
               (snd (App.handler App.online App.readable
                       (App.renderContent (Gemini.ui Scenes.back_at_choice))
                       App.onManualEdit Scenes.back_at_choice)))
          = [ {| ResultDisplay.imageSrc := App.base64 img;
                 ResultDisplay.title := "Editor"%string;
                 ResultDisplay.isEditedPanel := false |} ].
Proof.
  assert (H : AppFlow.reachable App.online App.readable
                Scenes.back_at_choice).
  { apply (AppFlow.reach_step _ _ Scenes.with_prompt_typed);
      [exact with_prompt_typed_reachable|].
    exists App.onBack. split; reflexivity. }
  split; [exact H|]. split; [reflexivity|]. split; [reflexivity|].
  destruct (manual_edit_opens_a_single_panel App.online App.readable
              Scenes.back_at_choice H eq_refl) as (img & Ho & Hp & _).
  exists img. split; assumption.
Defined.

(** X8 with a prompt typed and a service that answers. *)
Lemma ai_edit_opens_two_panels_witness :
  (exists img,
      App.originalImage (Gemini.ui Scenes.with_prompt_typed) = Some img)
  /\ JS.truthy (JS.trim (App.prompt (Gemini.ui Scenes.with_prompt_typed)))
     = true
  /\ map ResultDisplay.fileName
       (ResultDisplay.studio_panels
          (Gemini.ui (snd (App.handleSubmitEdit App.online Scenes.cropped
                             Scenes.with_prompt_typed))))
     = ["edited-photo-Original"; "edited-photo-Edited"]%string.
Proof.
  split; [eexists; reflexivity|]. split; [reflexivity|].
  destruct (ai_edit_opens_two_panels App.online Scenes.with_prompt_typed
              Scenes.cropped _ eq_refl eq_refl) as [Hok _].
  exact (proj2 (proj2 (Hok _ eq_refl))).
Defined.

(** ** More on ImageGenerator *)

Section GeneratorMore.
Import JS Eff Gemini ImageGenerator.
Local Open Scope string_scope.

Variable service : list Event -> Request -> value + string.

Ltac run_generator :=
  unfold onClick, handleGenerate, handleUpscale, setIsLoading,
    setIsUpscaling, setError, setGeneratedImage, call,
    try_catch_finally, try_finally, try_catch,
    bind, emit, set, get, modify, ret, throw;
  cbn [ui log fst snd].

(** X12: a rejected generation loses the image that was on display, a
    rejected upscale keeps it: [handleGenerate] clears [generatedImage]
    before it calls the service, [handleUpscale] writes it only on success.
    A click on generate without a prompt leaves the image alone. *)
Theorem failed_generation_drops_the_image_failed_upscale_keeps_it
    (w : World State) :
  (forall e,
      truthy (trim (prompt (ui w))) = true ->
      service (log w)
        (generateImageWithGemini (prompt (ui w)) (aspectRatio (ui w)))
      = inl e ->
      generatedImage (ui (snd (handleGenerate service w))) = None
      /\ error (ui (snd (handleGenerate service w)))
         = Some ("Generation failed: "
                 ++ message_or "An unknown error occurred." e))
  /\ (truthy (trim (prompt (ui w))) = false ->
      generatedImage (ui (snd (handleGenerate service w)))
      = generatedImage (ui w))
  /\ (forall img e,
        generatedImage (ui w) = Some img ->
        truthy img = true ->
        service (log w) (upscaleImageWithGemini img) = inl e ->
        generatedImage (ui (snd (handleUpscale service w))) = Some img
        /\ error (ui (snd (handleUpscale service w)))
           = Some ("Upscaling failed: "
                   ++ message_or "An unknown error occurred." e))
  /\ (forall img result,
        generatedImage (ui w) = Some img ->
        truthy img = true ->
        service (log w) (upscaleImageWithGemini img) = inr result ->
        generatedImage (ui (snd (handleUpscale service w))) = Some result).
Proof.
  run_generator. split; [|split; [|split]].
  - intros e Hp He. rewrite Hp. cbn. rewrite He. split; reflexivity.
  - intros Hp. rewrite Hp. reflexivity.
  - intros img e Hi Ht He. rewrite Hi, Ht. cbn. rewrite He. cbn.
    split; [exact Hi | reflexivity].
  - intros img result Hi Ht He. rewrite Hi, Ht. cbn. rewrite He.
    reflexivity.
Qed.

(** X13: whatever the service answers, a click on a button that can be
    clicked ends with both spinners off and the prompt as it was. *)
Theorem clicks_leave_no_spinner (w : World State) (b : Button) :
  clickable (ui w) b = true ->
  isLoading (ui (snd (onClick service b w))) = false
  /\ isUpscaling (ui (snd (onClick service b w))) = false
  /\ prompt (ui (snd (onClick service b w))) = prompt (ui w).
Proof.
  unfold clickable, has_image. intros Hc.
  destruct b; run_generator.
  - apply negb_true_iff in Hc.
    apply orb_false_iff in Hc. destruct Hc as [Hc Hp].
    apply orb_false_iff in Hc. destruct Hc as [Hl Hu].
    apply negb_false_iff in Hp. rewrite Hp. cbn.
    destruct (service _ _); cbn; auto.
  - apply andb_true_iff in Hc. destruct Hc as [Hc Hu].
    apply andb_true_iff in Hc. destruct Hc as [_ Hl].
    apply negb_true_iff in Hl, Hu.
    destruct (truthy (trim (prompt (ui w)))); cbn; [|auto].
    destruct (service _ _); cbn; auto.
  - apply andb_true_iff in Hc. destruct Hc as [Hc Hu].
    apply andb_true_iff in Hc. destruct Hc as [Hi Hl].
    apply negb_true_iff in Hl, Hu.
    destruct (generatedImage (ui w)) as [img|]; [|discriminate Hi].
    rewrite Hi. cbn. destruct (service _ _); cbn; auto.
Qed.

End GeneratorMore.

(** X13 for the upscale button next to a generated image. *)
Lemma clicks_leave_no_spinner_witness :
  ImageGenerator.clickable (Gemini.ui Scenes.generator_with_image)
    ImageGenerator.Upscale = true
  /\ ImageGenerator.isLoading
       (Gemini.ui (snd (ImageGenerator.onClick ImageGenerator.unreachable
                          ImageGenerator.Upscale
                          Scenes.generator_with_image))) = false
  /\ ImageGenerator.isUpscaling
       (Gemini.ui (snd (ImageGenerator.onClick ImageGenerator.unreachable
                          ImageGenerator.Upscale
                          Scenes.generator_with_image))) = false.
Proof.
  split; [reflexivity|].
  destruct (clicks_leave_no_spinner ImageGenerator.unreachable
              Scenes.generator_with_image ImageGenerator.Upscale eq_refl)
    as (Hl & Hu & _).
  split; assumption.
Defined.

(** ** More on ImageControlPanel *)

Section PanelMore.
Import JS Eff Gemini ImageControlPanel.
Local Open Scope string_scope.

Variable toString : number -> string.
Variable service : list Event -> Request -> value + string.
Variable loadImage : list Event -> string -> value + (number * number).
Variable getContext2d : list Event -> bool.
Variable toDataURL : Canvas -> string -> string.

Local Abbreviation getCombinedStyle :=
  (ImageControlPanel.getCombinedStyle toString).
Local Abbreviation render :=
  (renderImageWithEffectsToCanvas toString loadImage getContext2d).
Local Abbreviation handleApplyRetouch :=
  (ImageControlPanel.handleApplyRetouch toString service loadImage
     getContext2d toDataURL).

Lemma getCombinedStyle_truthy adj a : truthy (getCombinedStyle adj a) = true.
Proof.
  rewrite getCombinedStyle_shape.
  destruct (lookup toString a) as [[|c r]|]; reflexivity.
Qed.

(** X14: the CSS filter is never empty, so the fallback ['none'] of
    [renderImageWithEffectsToCanvas] is never taken: a canvas it returns
    carries exactly the filter of [getCombinedStyle] and has the natural
    size the loaded image reported. *)
Theorem canvas_filter_is_never_none :
  (forall adj a, or_else (getCombinedStyle adj a) "none"
                 = getCombinedStyle adj a)
  /\ (forall s sourceImage (w w' : World State) canvas,
        render s sourceImage w = (Returned canvas, w') ->
        ctx_filter canvas = getCombinedStyle (adjustments s) (activeFilter s)
        /\ loadImage (log w) sourceImage
           = inr (width canvas, height canvas)
        /\ source canvas = sourceImage
        /\ overlay canvas = vignette (adjustments s)).
Proof.
  split.
  - intros adj a. unfold or_else. now rewrite getCombinedStyle_truthy.
  - intros s sourceImage w w' canvas.
    unfold renderImageWithEffectsToCanvas, bind, get, emit, modify, await,
      ret, throw. cbn [ui log].
    destruct (loadImage (log w) sourceImage) as [e|[nw nh]];
      [discriminate|].
    destruct (getContext2d _); cbn [negb]; [|discriminate].
    intros [= <- _]. cbn.
    unfold or_else. rewrite getCombinedStyle_truthy. repeat split.
Qed.

Lemma commands_match_options o :
  List.length (promptCommands o) = List.length (selectedOptions o).
Proof. destruct o as [[] [] [] []]; reflexivity. Qed.

(** X15: the prompt of a retouch request lists one command per ticked
    option and is never without a command; the button can be clicked only
    with a ticked option, so a click never meets the handler's own guard;
    and the request always declares the image as PNG. *)
Theorem retouch_request_names_the_ticked_options :
  (forall o, List.length (promptCommands o)
             = List.length (selectedOptions o))
  /\ (forall s, retouch_clickable s = true ->
                selectedOptions (retouchOptions s) <> [])
  /\ (forall (w : World State) request,
        In request (requests (since w (snd (handleApplyRetouch w)))) ->
        promptCommands (retouchOptions (ui w)) <> []
        /\ exists base64Data,
             request
             = editImageWithGemini base64Data "image/png"
                 ("Subtly retouch this portrait. Please "
                  ++ join ", " (promptCommands (retouchOptions (ui w)))
                  ++ ". Maintain a natural look.")).
Proof.
  split; [exact commands_match_options|]. split.
  - intros s. unfold retouch_clickable.
    destruct (retouchOptions s) as [[] [] [] []];
      destruct (isRetouching s); cbn; congruence.
  - intros w request Hin.
    destruct (handleApplyRetouch_single_shot service toString loadImage
                getContext2d toDataURL w) as [Hreq _].
    rewrite Hreq in Hin. clear Hreq.
    unfold expected_retouch in Hin. cbv zeta in Hin.
    destruct (Nat.eqb _ 0) eqn:Hn; [contradiction|].
    apply Nat.eqb_neq in Hn. rewrite <- commands_match_options in Hn.
    destruct (loadImage _ _) as [e|natural]; [contradiction|].
    destruct (getContext2d _); [|contradiction].
    destruct Hin as [<-|[]]. split.
    + intros Hnil. rewrite Hnil in Hn. apply Hn. reflexivity.
    + eexists. reflexivity.
Qed.

(** X16: a retouch never touches the sliders, the active filter or the
    ticked options; the displayed image changes only when the service
    answered, and then to the answer as a PNG data URL; after a rejected
    request it is the image that was displayed before; and once the guard
    has passed, [isRetouching] is false at the end. *)
Theorem retouch_changes_only_the_image (w : World State) :
  let w' := snd (handleApplyRetouch w) in
  adjustments (ui w') = adjustments (ui w)
  /\ activeFilter (ui w') = activeFilter (ui w)
  /\ retouchOptions (ui w') = retouchOptions (ui w)
  /\ (displayImage (ui w') = displayImage (ui w)
      \/ exists request result,
           In (Service request (inr result)) (since w w')
           /\ displayImage (ui w') = "data:image/png;base64," ++ result)
  /\ (selectedOptions (retouchOptions (ui w)) <> [] ->
      isRetouching (ui w') = false)
  /\ (forall request e,
        In (Service request (inl e)) (since w w') ->
        displayImage (ui w') = displayImage (ui w)).
Proof.
  cbv zeta.
  unfold ImageControlPanel.handleApplyRetouch,
    renderImageWithEffectsToCanvas, setRetouchError, setIsRetouching,
    setDisplayImage, call, try_catch_finally, try_finally, try_catch,
    bind, emit, set, get, modify, ret, throw.
  cbn [ui log fst snd].
  destruct (selectedOptions (retouchOptions (ui w))) as [|o os] eqn:Hsel;
    cbn [List.length Nat.eqb].
  - cbn. erewrite service_since_same by reflexivity.
    repeat split; auto; try contradiction; congruence.
  - destruct (loadImage (log w) _) as [e|natural];
      cbn [await ret throw fst snd ui log].
    + erewrite service_since_log
        by (cbn [log]; rewrite <- ?app_assoc; reflexivity).
      cbn. repeat split; auto.
    + destruct (getContext2d _); cbn [negb fst snd ui log].
      * destruct (service _ _) as [e|result];
          cbn [await ret throw fst snd ui log];
          erewrite service_since_log
            by (cbn [log]; rewrite <- ?app_assoc; reflexivity);
          cbn; repeat split; auto.
        -- right. eexists; eexists. split; [|reflexivity].
           right. right. left. reflexivity.
        -- intros request e0 [H|[H|[H|[]]]]; discriminate H.
      * erewrite service_since_log
          by (cbn [log]; rewrite <- ?app_assoc; reflexivity).
        cbn. repeat split; auto.
Qed.

End PanelMore.

(** ** The filter controls *)

Section FilterMore.
Import JS ImageControlPanel FilterControls.
Local Open Scope string_scope.

Variable toString : number -> string.

Local Abbreviation filters := (ImageControlPanel.filters toString).
Local Abbreviation lookup := (ImageControlPanel.lookup toString).
Local Abbreviation reachable := (FilterControls.reachable toString).

Lemma lookup_by_name a :
  In (active_name a) (map name filters) -> exists str, lookup a = Some str.
Proof.
  intros Hin. unfold ImageControlPanel.lookup.
  destruct (find _ filters) as [f|] eqn:E; [eexists; reflexivity|].
  exfalso. apply in_map_iff in Hin. destruct Hin as (f & Hname & Hf).
  pose proof (find_none _ _ E f Hf) as Hneq. cbn in Hneq.
  rewrite Hname, String.eqb_refl in Hneq. discriminate Hneq.
Qed.

(** X17: through its controls the active filter always names an entry of
    the table, so the lookup of [getCombinedStyle] always finds a preset
    and the fallback for unknown names is never needed; and while the
    filter is "None", whose slider is not rendered, the intensity is
    100. *)
Theorem active_filter_is_always_in_the_table a :
  reachable a ->
  In (active_name a) preset_names
  /\ (exists str, lookup a = Some str)
  /\ (active_name a = "None" -> intensity a = 100%float).
Proof.
  intros Hr.
  assert (H : In (active_name a) (map name filters)
              /\ (active_name a = "None" -> intensity a = 100%float)).
  { induction Hr as [|a f _ _ Hf|a v _ IH Hs|a _ _].
    - split; [left; reflexivity | reflexivity].
    - split; [cbn [pick active_name]; now apply in_map | reflexivity].
    - destruct IH as [Hin _]. split; [exact Hin|].
      cbn [slide active_name]. intros Hn.
      unfold slider_rendered in Hs. rewrite Hn in Hs. discriminate Hs.
    - split; [left; reflexivity | reflexivity]. }
  destruct H as [Hin Hi].
  split; [exact Hin|]. split; [now apply lookup_by_name | exact Hi].
Qed.

End FilterMore.

(** X17 after a click on the button "Sepia" and a move of the slider. *)
Lemma active_filter_is_always_in_the_table_witness :
  let a :=
    FilterControls.slide 40%float
      (FilterControls.pick
         {| ImageControlPanel.name := "Sepia"%string;
            ImageControlPanel.style := fun i =>
              ("sepia(" ++ ImageControlPanel.digits i ++ "%)")%string |}) in
  FilterControls.reachable ImageControlPanel.digits a
  /\ exists str, ImageControlPanel.lookup ImageControlPanel.digits a
                 = Some str.
Proof.
  cbv zeta.
  assert (H : FilterControls.reachable ImageControlPanel.digits
                (FilterControls.slide 40%float
                   (FilterControls.pick
                      {| ImageControlPanel.name := "Sepia"%string;
                         ImageControlPanel.style := fun i =>
                           ("sepia(" ++ ImageControlPanel.digits i
                            ++ "%)")%string |}))).
  { apply FilterControls.reach_slide; [|reflexivity].
    eapply FilterControls.reach_pick; [apply FilterControls.reach_initial|].
    cbn. do 3 right. left. reflexivity. }
  split; [exact H|].
  exact (proj1 (proj2 (active_filter_is_always_in_the_table
                         ImageControlPanel.digits _ H))).
Defined.

(** ** The handlers around the crop helpers *)

Section CropHandlersMore.
Import JS CropHandlers.
Open Scope float_scope.

Variable Pixels : Type.
Variable serialise : Canvas.t -> option Pixels.
Variable InvalidStateError : value.


(** What ImageEditor submits for a crop of a loaded image. *)
Lemma handleSubmit_run (image : HTMLImageElement.t) (crop : PixelCrop.t) :
  PrimFloat.eqb (PixelCrop.width crop) 0 = false ->
  HTMLImageElement.broken image = false ->
  exists c,
    handleSubmit Pixels serialise true InvalidStateError false
      (Some image) (Some crop)
    = [onSubmit (Canvas.toDataURL serialise "image/png" c) "image/png"]
    /\ Canvas.width c = Canvas.reflected 300 (PixelCrop.width crop)
    /\ Canvas.height c = Canvas.reflected 150 (PixelCrop.height crop).
Proof.
  intros Hw Hb. unfold handleSubmit. rewrite Hw. cbn [orb].
  unfold ImageEditor.getCroppedImg, ImageEditor.cropped_canvas,
    Canvas.drawImage.
  rewrite Hb. cbn [negb Promise.map Promise.awaited].
  eexists. split; [reflexivity|]. split; reflexivity.
Qed.


(** X19: ImageEditor submits whenever it is not loading, has a loaded
    image, a crop and a 2d context, and the crop's width is other than 0;
    it does not look at the height.  What it submits is declared as
    image/png and is the string of [toDataURL]: a PNG with the integer
    dimensions of the canvas, or ["data:,"], and always ["data:,"] when
    the height of the canvas is 0, as for a crop of height 0, which
    CropModal refuses.  While loading nothing is submitted, and without a
    2d context the error is only logged. *)
Theorem submit_checks_the_width_only
    (image : HTMLImageElement.t) (crop : PixelCrop.t) :
  PrimFloat.eqb (PixelCrop.width crop) 0 = false ->
  HTMLImageElement.broken image = false ->
  let w := Canvas.reflected 300 (PixelCrop.width crop) in
  let h := Canvas.reflected 150 (PixelCrop.height crop) in
  (exists url,
      handleSubmit Pixels serialise true InvalidStateError false
        (Some image) (Some crop)
      = [onSubmit url "image/png"]
      /\ (url = Canvas.no_pixels
          \/ exists pixels,
               url = Canvas.image_file "image/png" w h pixels
               /\ w <> 0%Z /\ h <> 0%Z)
      /\ (w = 0%Z \/ h = 0%Z -> url = Canvas.no_pixels))
  /\ (gt (PixelCrop.height crop) 0 = false ->
      forall getContext2d devicePixelRatio,
        handleConfirmCrop Pixels serialise getContext2d InvalidStateError
          devicePixelRatio (Some image) (Some crop) = [])
  /\ handleSubmit Pixels serialise true InvalidStateError true
       (Some image) (Some crop) = []
  /\ handleSubmit Pixels serialise false InvalidStateError false
       (Some image) (Some crop)
     = [ConsoleError Canvas.no_context].
Proof.
  intros Hw Hb. cbv zeta. split.
  { destruct (handleSubmit_run image crop Hw Hb) as (c & -> & Hcw & Hch).
    eexists. split; [reflexivity|]. rewrite <- Hcw, <- Hch. split.
    - destruct (toDataURL_cases Pixels serialise "image/png" c)
        as [[H _]|(pixels & H & _ & H0)];
        [left; exact H | right; exists pixels; split; assumption].
    - apply toDataURL_no_pixels. }
  split.
  { intros Hh ctx dpr. unfold handleConfirmCrop.
    rewrite Hh, andb_false_r. reflexivity. }
  unfold handleSubmit. rewrite Hw. cbn [orb]. split; reflexivity.
Qed.

End CropHandlersMore.

(** A crop of half a pixel passes the guards of CropModal and is handed
    over as ["data:,"]. *)
Lemma tiny_crop_is_handed_over_without_pixels :
  CropHandlers.handleConfirmCrop unit CropDemo.blank true
    CropDemo.InvalidStateError 1%float
    (Some CropDemo.photo) (Some CropHandlers.tiny_crop)
  = [CropHandlers.onCropComplete Canvas.no_pixels; CropHandlers.onClose].
Proof. vm_compute. reflexivity. Qed.

(** X19 for a crop of 100 by 0: ImageEditor submits ["data:,"] as
    image/png, CropModal does nothing. *)
Lemma submit_checks_the_width_only_witness :
  PrimFloat.eqb (PixelCrop.width CropHandlers.flat_crop) 0 = false
  /\ HTMLImageElement.broken CropDemo.photo = false
  /\ CropHandlers.handleSubmit unit CropDemo.blank true
       CropDemo.InvalidStateError false
       (Some CropDemo.photo) (Some CropHandlers.flat_crop)
     = [CropHandlers.onSubmit Canvas.no_pixels "image/png"]
  /\ CropHandlers.handleConfirmCrop unit CropDemo.blank true
       CropDemo.InvalidStateError 2%float
       (Some CropDemo.photo) (Some CropHandlers.flat_crop) = [].
Proof.
  split; [reflexivity|]. split; [reflexivity|].
  destruct (submit_checks_the_width_only unit CropDemo.blank
              CropDemo.InvalidStateError
              CropDemo.photo CropHandlers.flat_crop eq_refl eq_refl)
    as ((url & Hs & _ & Hz) & Hc & _).
  split.
  - rewrite Hs. rewrite (Hz (or_intror eq_refl)). reflexivity.
  - apply Hc. reflexivity.
Defined.

(** ** ImageUploader *)

Section UploaderMore.
Import JS Eff Gemini.

Variable readAsDataURL : list Event -> App.File -> value + string.

(** X20: a drop and a file selection upload the first file and no other:
    exactly one file is read when there is one, none when the list is
    absent or empty, in which case App is left as it was; and a drop always
    ends the dragging highlight. *)
Theorem drop_uploads_the_first_file_only
    (isDragging : bool) (files : option (list App.File))
    (w : World App.State) :
  let dropped := ImageUploader.handleDrop readAsDataURL isDragging files in
  let chosen := ImageUploader.handleFileChange readAsDataURL files in
  fst dropped = false
  /\ snd dropped w = chosen w
  /\ ImageUploader.reads (since w (snd (chosen w)))
     = match ImageUploader.first_file files with
       | Some f => [App.name f]
       | None => []
       end
  /\ (ImageUploader.first_file files = None -> snd (chosen w) = w)
  /\ (forall f rest data,
        files = Some (f :: rest) ->
        readAsDataURL (log w) f = inr data ->
        App.originalImage (ui (snd (chosen w)))
        = Some {| App.file := f; App.base64 := data;
                  App.mimeType := App.type f |}).
Proof.
  cbv zeta. unfold ImageUploader.handleDrop, ImageUploader.handleFileChange.
  cbn [fst snd]. split; [reflexivity|]. split; [reflexivity|].
  destruct (ImageUploader.first_file files) as [f|] eqn:Hf.
  - rewrite handleImageUpload_run. cbn [snd].
    split; [|split; [discriminate|]].
    + destruct (readAsDataURL (log w) f);
        erewrite service_since_log by reflexivity; reflexivity.
    + intros f0 rest data -> Hr. cbn in Hf. injection Hf as <-.
      rewrite Hr. reflexivity.
  - cbn [ret snd]. split.
    + erewrite service_since_same by reflexivity. reflexivity.
    + split; [reflexivity|]. intros f rest data ->. discriminate Hf.
Qed.

End UploaderMore.

(** ** The target-size controls *)

Section FloatOrder.
Local Open Scope float_scope.

Lemma SFcompare_swap a b :
  SpecFloat.SFcompare b a = option_map CompOpp (SpecFloat.SFcompare a b).
Proof.
  destruct a as [s1|s1| |s1 m1 e1], b as [s2|s2| |s2 m2 e2]; cbn;
    try reflexivity;
    try (destruct s1; reflexivity); try (destruct s2; reflexivity);
    try (destruct s1, s2; reflexivity).
  assert (Hm : Pos.compare_cont Eq m2 m1
               = CompOpp (Pos.compare_cont Eq m1 m2)).
  { symmetry. apply (Pos.compare_cont_antisym m1 m2 Eq). }
  destruct s1, s2; cbn; try reflexivity;
    rewrite (Z.compare_antisym e1 e2), Hm;
    destruct (e1 ?= e2)%Z; cbn; try reflexivity;
    destruct (Pos.compare_cont Eq m1 m2); reflexivity.
Qed.

Lemma ltb_asym a b : PrimFloat.ltb a b = true -> PrimFloat.ltb b a = false.
Proof.
  rewrite !FloatAxioms.ltb_spec. unfold SpecFloat.SFltb.
  rewrite (SFcompare_swap (FloatOps.Prim2SF a) (FloatOps.Prim2SF b)).
  destruct (SpecFloat.SFcompare _ _) as [[]|]; cbn; congruence.
Qed.

Lemma not_nan_spec a :
  PrimFloat.is_nan a = false -> FloatOps.Prim2SF a <> SpecFloat.S754_nan.
Proof.
  unfold PrimFloat.is_nan. rewrite FloatAxioms.eqb_spec.
  unfold SpecFloat.SFeqb. intros H E. rewrite E in H. discriminate H.
Qed.

Lemma SFcompare_total a b :
  a <> SpecFloat.S754_nan -> b <> SpecFloat.S754_nan ->
  exists c, SpecFloat.SFcompare a b = Some c.
Proof.
  intros Ha Hb.
  destruct a as [s1|s1| |s1 m1 e1], b as [s2|s2| |s2 m2 e2]; cbn;
    try congruence; eexists; reflexivity.
Qed.

Lemma not_ltb_leb a b :
  PrimFloat.is_nan a = false -> PrimFloat.is_nan b = false ->
  PrimFloat.ltb b a = false -> PrimFloat.leb a b = true.
Proof.
  intros Ha Hb. apply not_nan_spec in Ha, Hb.
  rewrite FloatAxioms.ltb_spec, FloatAxioms.leb_spec.
  unfold SpecFloat.SFltb, SpecFloat.SFleb.
  rewrite (SFcompare_swap (FloatOps.Prim2SF a) (FloatOps.Prim2SF b)).
  destruct (SFcompare_total _ _ Ha Hb) as [c ->].
  destruct c; cbn; congruence.
Qed.

(** [Math.max(1, v)] is a number that is at least 1 when [v] is one. *)
Lemma Math_max_1_bound v :
  PrimFloat.is_nan v = false ->
  PrimFloat.is_nan (JS.Math_max 1 v) = false
  /\ JS.le 1 (JS.Math_max 1 v) = true.
Proof.
  intros Hv. unfold JS.Math_max, JS.le. rewrite Hv.
  change (PrimFloat.is_nan 1 || false) with false. cbv iota.
  destruct (PrimFloat.ltb 1 v) eqn:H1.
  - split; [exact Hv|].
    apply not_ltb_leb; [reflexivity | exact Hv | now apply ltb_asym].
  - destruct (PrimFloat.ltb v 1); [split; reflexivity|].
    change (PrimFloat.get_sign 1) with false. split; reflexivity.
Qed.

End FloatOrder.

Section TargetSizeControls.
Import JS DownloadModal DownloadForm.
Local Open Scope float_scope.

(** X21: the target size can never be set below 1: whatever numbers are
    typed into the size field, and however checkbox and unit are changed,
    the cell holds a number that is at least 1 (a typed 0, negative or
    fractional value below 1 becomes 1). *)
Theorem target_size_is_at_least_one (p : TargetSize) :
  reachable p ->
  is_nan (size p) = false /\ le 1 (size p) = true.
Proof.
  induction 1 as [fileName|checked p _ IH|v p _ _ Hv|u p _ IH].
  - split; reflexivity.
  - exact IH.
  - cbn [setSize size]. now apply Math_max_1_bound.
  - exact IH.
Qed.

End TargetSizeControls.

(** X21 after typing 0.5 into the size field. *)
Lemma target_size_is_at_least_one_witness :
  let p :=
    DownloadForm.setSize 0.5%float
      (DownloadModal.targetSize (DownloadModal.initialState "photo")) in
  DownloadForm.reachable p
  /\ DownloadModal.size p = 1%float
  /\ JS.le 1%float (DownloadModal.size p) = true.
Proof.
  cbv zeta.
  assert (H : DownloadForm.reachable
                (DownloadForm.setSize 0.5%float
                   (DownloadModal.targetSize
                      (DownloadModal.initialState "photo")))).
  { apply DownloadForm.reach_size; [constructor | reflexivity]. }
  split; [exact H|]. split; [reflexivity|].
  exact (proj2 (target_size_is_at_least_one _ H)).
Defined.
